(** * PufferPanel Discord bot: action lock, log pipeline, stream client

    A shallow embedding of the parts of the bot that coordinate server
    actions ([utils/rate_limiter.py]), persist state ([utils/state.py]),
    batch console logs into Discord threads ([services/log_sync.py]) and
    read the console stream ([services/websocket_client.py]).

    Conventions.
    - The bot runs on one asyncio event loop.  A coroutine body between two
      suspension points is one atomic step, so each method below whose body
      never suspends is a function on the object's state.
    - Wall-clock readings ([time.time()]) and delays are Python floats.  They
      are read here as exact rationals ([Q]); every reading is an argument of
      the function that takes it, one argument per call of [time.time()].
    - Python [str] is [string]; [len] is [String.length]. *)

From Stdlib Require Import ZArith QArith Lqa Lia List String Ascii Bool.
Import ListNotations.

(** ** Python built-ins used by the sources *)

Module Py.

(** [x < y] on numbers. *)
Definition Qltb (x y : Q) : bool :=
  (Qnum x * QDen y <? Qnum y * QDen x)%Z.

(** [max(a, b)]: the first of the largest arguments. *)
Definition max (a b : Q) : Q := if Qltb a b then b else a.

(** [min(a, b)]: the first of the smallest arguments. *)
Definition min (a b : Q) : Q := if Qltb b a then b else a.

(** Truth value of a [str]: only the empty string is falsy. *)
Definition truthy (s : string) : bool :=
  match s with EmptyString => false | String _ _ => true end.

(** [len(s)] as a Python int. *)
Definition len (s : string) : Z := Z.of_nat (String.length s).

(** The one-character string of a line feed. *)
Definition nl : string := String "010"%char EmptyString.

(** [text.split(nl)]: the pieces between line feeds; never an empty list. *)
Fixpoint split_lines (text : string) : list string :=
  match text with
  | EmptyString => [EmptyString]
  | String c rest =>
      if Ascii.eqb c "010"%char then EmptyString :: split_lines rest
      else match split_lines rest with
           | [] => [String c EmptyString]
           | l :: ls => String c l :: ls
           end
  end.

(** [sep.join(xs)]. *)
Fixpoint join (sep : string) (xs : list string) : string :=
  match xs with
  | [] => EmptyString
  | x :: rest =>
      match rest with
      | [] => x
      | _ :: _ => String.append x (String.append sep (join sep rest))
      end
  end.

(** [a != b] on values that are a [str] or [None]. *)
Definition opt_str_neq (a b : option string) : bool :=
  match a, b with
  | Some x, Some y => negb (String.eqb x y)
  | None, None => false
  | _, _ => true
  end.


End Py.

(** ** utils/rate_limiter.py *)

Module GlobalActionLock.

(** The object's fields.  [_lock] is the [asyncio.Lock]: nothing ever waits
    on it ([acquire] returns early when it is locked), so it is the flag that
    [locked()] reads. *)
Record state : Type := mk {
  cooldown_sec : Q;
  _lock : bool;
  _last_action_time : Q;
  _current_action : option string
}.

Definition __init__ (cooldown : Q) : state :=
  mk cooldown false 0 None.

Definition lock_acquire (self : state) : state :=
  mk (cooldown_sec self) true (_last_action_time self) (_current_action self).

Definition lock_release (self : state) : state :=
  mk (cooldown_sec self) false (_last_action_time self) (_current_action self).

Definition set_current_action (self : state) (a : option string) : state :=
  mk (cooldown_sec self) (_lock self) (_last_action_time self) a.

Definition set_last_action_time (self : state) (t : Q) : state :=
  mk (cooldown_sec self) (_lock self) t (_current_action self).

(** [acquire(action)].  [now1] is the clock reading of the cooldown check,
    [now2] the one stored as the grant time.  On an unlocked lock without
    waiters [await self._lock.acquire()] takes the lock without suspending. *)
Definition acquire (self : state) (action : string) (now1 now2 : Q)
  : state * (bool * option string) :=
  if _lock self then (self, (false, _current_action self))
  else
    let self := lock_acquire self in
    let elapsed := (now1 - _last_action_time self)%Q in
    if Py.Qltb elapsed (cooldown_sec self) then
      (lock_release self, (false, Some "cooldown"%string))
    else
      let self := set_current_action self (Some action) in
      let self := set_last_action_time self now2 in
      (self, (true, None)).

Definition release (self : state) : state :=
  let self := set_current_action self None in
  if _lock self then lock_release self else self.

Definition get_remaining_cooldown (self : state) (now : Q) : Q :=
  let elapsed := (now - _last_action_time self)%Q in
  Py.max 0 (cooldown_sec self - elapsed)%Q.

Definition current_action (self : state) : option string :=
  if _lock self then _current_action self else None.

(** *** Callers and outstanding grants

    The lock does not know who calls it.  To speak about holders, a call
    sequence is run with a record of the grants that were given and not yet
    released: a granted [acquire] adds its caller and action kind, a [release]
    call takes the most recent grant away. *)

Definition caller := nat.

Inductive call : Type :=
| Acquire (who : caller) (action : string) (now1 now2 : Q)
| Release.

Record sys : Type := mkSys {
  lk : state;
  outstanding : list (caller * string)
}.

Definition boot (cooldown : Q) : sys := mkSys (__init__ cooldown) [].

Definition step (s : sys) (c : call) : sys :=
  match c with
  | Acquire who action now1 now2 =>
      let r := acquire (lk s) action now1 now2 in
      mkSys (fst r)
            (if fst (snd r) then (who, action) :: outstanding s
             else outstanding s)
  | Release => mkSys (release (lk s)) (tl (outstanding s))
  end.

Definition run (s : sys) (calls : list call) : sys := fold_left step calls s.

(** The flag of the asyncio lock and the record of grants agree, and the
    holder marker names the kind of the one outstanding grant. *)
Definition consistent (s : sys) : Prop :=
  (_lock (lk s) = false /\ outstanding s = []) \/
  (_lock (lk s) = true /\
   exists who action,
     outstanding s = [(who, action)] /\ _current_action (lk s) = Some action).

(** *** Grants over a run *)

(** The granted [acquire] calls of a sequence, oldest first: for each, the
    clock reading of its cooldown check and the grant time it stored. *)
Fixpoint grants (self : state) (calls : list call) : list (Q * Q) :=
  match calls with
  | [] => []
  | Acquire _ action now1 now2 :: rest =>
      let r := acquire self action now1 now2 in
      if fst (snd r) then (now1, now2) :: grants (fst r) rest
      else grants (fst r) rest
  | Release :: rest => grants (release self) rest
  end.

(** Each grant was checked at least [cooldown] after the grant time stored
    before it; [last] is the grant time stored before the first. *)
Fixpoint spaced (cooldown last : Q) (gs : list (Q * Q)) : Prop :=
  match gs with
  | [] => True
  | (checked, stored) :: rest =>
      (cooldown <= checked - last)%Q /\ spaced cooldown stored rest
  end.

End GlobalActionLock.

(** ** utils/state.py *)

Module StateManager.

Record BotState : Type := mkBotState {
  dashboard_message_id : option Z;
  logs_enabled : bool;
  current_thread_id : option Z;
  current_date : option string;
  last_action_time : option string;
  last_action_user : option string;
  last_action_type : option string
}.

(** [BotState()]: every field at its default. *)
Definition BotState_default : BotState :=
  mkBotState None false None None None None None.

(** What is on disk at [state_file]: nothing, something [json.load] or the
    [BotState] constructor rejects, or the dump of a state. *)
Inductive file : Type :=
| NoFile
| BadFile
| Dumped (b : BotState).

Record t : Type := mk {
  state_file : file;
  _state : option BotState
}.

Definition __init__ (f : file) : t := mk f None.

Definition load (self : t) : t * BotState :=
  let b := match state_file self with
           | Dumped b => b
           | BadFile => BotState_default
           | NoFile => BotState_default
           end in
  (mk (state_file self) (Some b), b).

Definition save (self : t) : t :=
  match _state self with
  | None => self
  | Some b => mk (Dumped b) (Some b)
  end.

(** The [state] property: loads on first use. *)
Definition state (self : t) : t * BotState :=
  match _state self with
  | None => load self
  | Some b => (self, b)
  end.

(** [self.state.<field> = v]: the assignment goes to the one [BotState]
    object that [_state] refers to. *)
Definition assign (f : BotState -> BotState) (self : t) : t :=
  let '(self, b) := state self in
  mk (state_file self) (Some (f b)).

Definition set_dashboard_message_id (v : option Z) (b : BotState) : BotState :=
  mkBotState v (logs_enabled b) (current_thread_id b) (current_date b)
             (last_action_time b) (last_action_user b) (last_action_type b).

Definition set_logs_enabled (v : bool) (b : BotState) : BotState :=
  mkBotState (dashboard_message_id b) v (current_thread_id b) (current_date b)
             (last_action_time b) (last_action_user b) (last_action_type b).

Definition set_current_thread_id (v : option Z) (b : BotState) : BotState :=
  mkBotState (dashboard_message_id b) (logs_enabled b) v (current_date b)
             (last_action_time b) (last_action_user b) (last_action_type b).

Definition set_current_date (v : option string) (b : BotState) : BotState :=
  mkBotState (dashboard_message_id b) (logs_enabled b) (current_thread_id b) v
             (last_action_time b) (last_action_user b) (last_action_type b).

Definition set_last_action (time user type : option string) (b : BotState)
  : BotState :=
  mkBotState (dashboard_message_id b) (logs_enabled b) (current_thread_id b)
             (current_date b) time user type.

Definition update_dashboard (self : t) (message_id : Z) : t :=
  save (assign (set_dashboard_message_id (Some message_id)) self).

Definition update_logs (self : t) (enabled : bool)
  (thread_id : option Z) (date : option string) : t :=
  let self := assign (set_logs_enabled enabled) self in
  let self := match thread_id with
              | Some i => assign (set_current_thread_id (Some i)) self
              | None => self
              end in
  let self := match date with
              | Some d => assign (set_current_date (Some d)) self
              | None => self
              end in
  save self.

(** [now_iso] is [datetime.now().isoformat()]. *)
Definition update_last_action (self : t) (action_type user now_iso : string)
  : t :=
  save (assign (set_last_action (Some now_iso) (Some user) (Some action_type))
               self).

Definition clear_logs (self : t) : t :=
  let self := assign (set_logs_enabled false) self in
  let self := assign (set_current_thread_id None) self in
  let self := assign (set_current_date None) self in
  save self.

(** What the manager reports as its state. *)
Definition recorded (self : t) : BotState := snd (state self).

End StateManager.

(** ** services/log_sync.py *)

Module LogSyncService.

(** A Discord thread as the service uses it: its [id] and [name]. *)
Record Thread : Type := mkThread {
  id : Z;
  name : string
}.

(** The fields of the service that the flush path reads or writes.  The
    configuration value [logs.max_chars_per_post] is [max_chars_per_post];
    [_state] is the state manager the service shares with the rest of the
    bot.  [_buffer_lock] has no field: both blocks that take it run without
    suspending, so it is free whenever one of them starts. *)
Record t : Type := mk {
  max_chars_per_post : Z;
  _state : StateManager.t;
  _running : bool;
  _log_buffer : list string;
  _current_thread : option Thread;
  _current_date : option string
}.

Definition set_state (self : t) (v : StateManager.t) : t :=
  mk (max_chars_per_post self) v (_running self) (_log_buffer self)
     (_current_thread self) (_current_date self).

Definition set_running (self : t) (v : bool) : t :=
  mk (max_chars_per_post self) (_state self) v (_log_buffer self)
     (_current_thread self) (_current_date self).

Definition set_log_buffer (self : t) (v : list string) : t :=
  mk (max_chars_per_post self) (_state self) (_running self) v
     (_current_thread self) (_current_date self).

Definition set_current_thread (self : t) (v : option Thread) : t :=
  mk (max_chars_per_post self) (_state self) (_running self) (_log_buffer self)
     v (_current_date self).

Definition set_current_date (self : t) (v : option string) : t :=
  mk (max_chars_per_post self) (_state self) (_running self) (_log_buffer self)
     (_current_thread self) v.

(** *** Splitting a message *)

(** The [for line in lines] loop of [_split_message]: [chunks] and
    [current_chunk] are the loop's two variables. *)
Fixpoint split_loop (max_len : Z) (lines : list string)
  (chunks : list string) (current_chunk : string) : list string * string :=
  match lines with
  | [] => (chunks, current_chunk)
  | line :: rest =>
      if (Py.len current_chunk + Py.len line + 1 >? max_len)%Z then
        let chunks := if Py.truthy current_chunk
                      then chunks ++ [current_chunk] else chunks in
        split_loop max_len rest chunks line
      else
        let current_chunk :=
          if Py.truthy current_chunk
          then String.append current_chunk (String.append Py.nl line)
          else line in
        split_loop max_len rest chunks current_chunk
  end.

Definition _split_message (self : t) (text : string) : list string :=
  let max_len := (max_chars_per_post self - 10)%Z in
  if (Py.len text <=? max_len)%Z then
    if Py.truthy text then [text] else []
  else
    let '(chunks, current_chunk) :=
      split_loop max_len (Py.split_lines text) [] EmptyString in
    if Py.truthy current_chunk then chunks ++ [current_chunk] else chunks.

(** *** What the service does to the outside *)

Inductive event : Type :=
| CreateThread (date : option string)
    (* _create_daily_thread(), which names the thread after [_current_date] *)
| UpdateLogs (enabled : bool) (thread_id : option Z) (date : option string)
    (* self._state.update_logs(...) *)
| Send (thread : Thread) (content : string)
    (* thread.send(content) was called *)
| Sleep.
    (* asyncio.sleep(retry_after) after a 429 *)

(** How one [thread.send] call ends. *)
Inductive send_result : Type :=
| SendOk
| SendForbidden                  (* discord.Forbidden *)
| SendRateLimited                (* discord.HTTPException with status 429 *)
| SendHTTPError                  (* any other discord.HTTPException *)
| SendRaises.                    (* an exception no handler here catches *)

(** What the outside answers during one flush: the date
    [_get_current_date()] resolves to, what [_create_daily_thread()] returns
    if it is called, and how the [send] calls end, first call first (calls
    beyond the list succeed).  The retry after a 429 consumes no answer: its
    outcome is swallowed. *)
Record flush_env : Type := mkEnv {
  today : string;
  created : option Thread;
  sends : list send_result
}.

Definition fence (chunk : string) : string :=
  String.append "```" (String.append Py.nl
    (String.append chunk (String.append Py.nl "```"))).

(** The [for chunk in chunks] loop of [_flush_buffer].  The boolean is [true]
    when an exception leaves the method. *)
Fixpoint send_chunks (thread : Thread) (chunks : list string)
  (results : list send_result) : list event * bool :=
  match chunks with
  | [] => ([], false)
  | chunk :: rest =>
      let content := fence chunk in
      match hd SendOk results with
      | SendOk =>
          let '(evs, raised) := send_chunks thread rest (tl results) in
          (Send thread content :: evs, raised)
      | SendForbidden => ([Send thread content], false)
      | SendRateLimited =>
          let '(evs, raised) := send_chunks thread rest (tl results) in
          (Send thread content :: Sleep :: Send thread content :: evs, raised)
      | SendHTTPError =>
          let '(evs, raised) := send_chunks thread rest (tl results) in
          (Send thread content :: evs, raised)
      | SendRaises => ([Send thread content], true)
      end
  end.

Definition _add_to_buffer (self : t) (log_line : string) : t :=
  set_log_buffer self (_log_buffer self ++ [log_line]).

(** The [async with self._buffer_lock] block of [_flush_buffer] on a buffer
    that is not empty: copy and clear. *)
Definition drain (self : t) : t * list string :=
  let logs := _log_buffer self in
  (set_log_buffer self [], logs).

(** The tail of [_flush_buffer]: join, split, send to [thread], which is
    [self._current_thread] there. *)
Definition post (self : t) (thread : Thread) (logs : list string)
  (env : flush_env) (evs : list event) : t * list event * bool :=
  let combined := Py.join Py.nl logs in
  let chunks := _split_message self combined in
  let '(sent, raised) := send_chunks thread chunks (sends env) in
  (self, evs ++ sent, raised).

(** [_flush_buffer] after the drain, with the drained [logs]. *)
Definition deliver (self : t) (logs : list string) (env : flush_env)
  : t * list event * bool :=
  match _current_thread self with
  | None => (self, [], false)
  | Some thread =>
      let current_date := today env in
      if Py.opt_str_neq (Some current_date) (_current_date self) then
        let self := set_current_date self (Some current_date) in
        let ev := CreateThread (_current_date self) in
        let self := set_current_thread self (created env) in
        match _current_thread self with
        | None => (self, [ev], false)
        | Some thread =>
            let self :=
              set_state self
                (StateManager.update_logs (_state self) true
                   (Some (id thread)) (_current_date self)) in
            post self thread logs env
              [ev; UpdateLogs true (Some (id thread)) (_current_date self)]
        end
      else post self thread logs env []
  end.

Definition _flush_buffer (self : t) (env : flush_env)
  : t * list event * bool :=
  match _log_buffer self with
  | [] => (self, [], false)
  | _ :: _ =>
      let '(self, logs) := drain self in
      deliver self logs env
  end.

(** [stop()].  The flush task is cancelled first; [env] answers the final
    flush.  Disconnecting the stream touches no field kept here.  When the
    flush raises, [stop] ends there. *)
Definition stop (self : t) (env : flush_env) : t * list event * bool :=
  let self := set_running self false in
  let '(self, evs, raised) := _flush_buffer self env in
  if raised then (self, evs, true)
  else
    let self :=
      set_state self (StateManager.update_logs (_state self) false None None) in
    (self, evs ++ [UpdateLogs false None None], false).

(** *** Interleavings of the two tasks that touch the buffer

    The receive path appends through [_add_to_buffer]; the flush task drains
    at the start of [_flush_buffer] and then sends, suspended at every
    [send].  So between two drains any number of appends can run.  A run is a
    list of these atomic steps; it yields the batches the flushes drained,
    oldest first. *)

Inductive op : Type :=
| Append (log_line : string)
| Flush.

Inductive steps : t -> list op -> list (list string) -> t -> Prop :=
| steps_done self :
    steps self [] [] self
| steps_append self log_line ops batches self' :
    steps (_add_to_buffer self log_line) ops batches self' ->
    steps self (Append log_line :: ops) batches self'
| steps_flush_empty self ops batches self' :
    _log_buffer self = [] ->
    steps self ops batches self' ->
    steps self (Flush :: ops) batches self'
| steps_flush_drain self ops batches self' :
    _log_buffer self <> [] ->
    steps (fst (drain self)) ops batches self' ->
    steps self (Flush :: ops) (snd (drain self) :: batches) self'.

(** The lines a run appends, in order. *)
Fixpoint appended (ops : list op) : list string :=
  match ops with
  | [] => []
  | Append log_line :: ops => log_line :: appended ops
  | Flush :: ops => appended ops
  end.

(** *** The service over time

    Lines arrive and the flush loop ticks; each tick runs [_flush_buffer]
    against what the outside answers then.  [_flush_loop] catches what a
    flush raises and goes on. *)

Inductive action : Type :=
| Arrive (log_line : string)
| Tick (env : flush_env).

Fixpoint run (self : t) (acts : list action) : t * list event :=
  match acts with
  | [] => (self, [])
  | Arrive log_line :: acts => run (_add_to_buffer self log_line) acts
  | Tick env :: acts =>
      let '(self, evs, _) := _flush_buffer self env in
      let '(self, later) := run self acts in
      (self, evs ++ later)
  end.

(** The atomic steps of a run of the service, flushes and arrivals. *)
Definition ops_of (acts : list action) : list op :=
  map (fun a => match a with
                | Arrive log_line => Append log_line
                | Tick _ => Flush
                end) acts.

(** A flush amid whose sends the lines [during] arrive.  The drain comes
    first, under the lock; the flush is then suspended at its awaits
    (creating a thread, every [send], the sleep after a 429), where the
    receive path runs and appends.  On an empty buffer the flush returns
    at once and the lines arrive after it. *)
Definition flush_with_arrivals (self : t) (env : flush_env)
  (during : list string) : t * list event * bool :=
  match _log_buffer self with
  | [] => (fold_left _add_to_buffer during self, [], false)
  | _ :: _ =>
      let '(self, logs) := drain self in
      let self := fold_left _add_to_buffer during self in
      deliver self logs env
  end.

(** A [send] to the thread with the given id, or the wait before a retry:
    what the sending loop of a flush may do. *)
Definition posts_to (thread_id : Z) (ev : event) : Prop :=
  match ev with
  | Send thread _ => id thread = thread_id
  | Sleep => True
  | _ => False
  end.

(** *** Whole lines in chunks

    A grouping of lines is packed greedily for a budget when each group is
    closed only because the first line of the next group would not fit after
    it. *)

Fixpoint greedy (max_len : Z) (groups : list (list string)) : Prop :=
  match groups with
  | [] => True
  | g :: rest =>
      match rest with
      | [] => True
      | h :: _ =>
          (Py.len (Py.join Py.nl g) + Py.len (hd EmptyString h) + 1 > max_len)%Z
          /\ greedy max_len rest
      end
  end.


(** The grouping the loop builds, with [g] the group that is open. *)
Fixpoint greedy_groups (max_len : Z) (g : list string) (lines : list string)
  : list (list string) :=
  match lines with
  | [] => [g]
  | line :: rest =>
      if (Py.len (Py.join Py.nl g) + Py.len line + 1 >? max_len)%Z
      then g :: greedy_groups max_len [line] rest
      else greedy_groups max_len (g ++ [line]) rest
  end.

(** *** Reading a trace *)

(** The contents the sending loop tried first, in order: every [send]
    except the retry that follows the sleep after a 429. *)
Fixpoint first_tries (evs : list event) : list string :=
  match evs with
  | [] => []
  | Send _ content :: rest => content :: first_tries rest
  | Sleep :: rest =>
      match rest with
      | Send _ _ :: rest' => first_tries rest'
      | _ => first_tries rest
      end
  | _ :: rest => first_tries rest
  end.

(** A [send] carries at most [limit] characters. *)
Definition within (limit : Z) (ev : event) : Prop :=
  match ev with
  | Send _ content => (Py.len content <= limit)%Z
  | _ => True
  end.

End LogSyncService.

(** ** services/websocket_client.py *)

Module WebSocketLogClient.

#[local] Set Warnings "-register-all".

(** A decoded JSON value, as [json.loads] returns it.  A [dict] is its list
    of items; a key is looked up from the front. *)
Inductive json : Type :=
| JNull
| JBool (b : bool)
| JInt (z : Z)
| JFloat (q : Q)
| JStr (s : string)
| JList (items : list json)
| JDict (items : list (string * json)).

(** [key in d] and [d[key]] in one: [None] when the key is absent. *)
Fixpoint lookup (key : string) (d : list (string * json)) : option json :=
  match d with
  | [] => None
  | (k, v) :: rest => if String.eqb k key then Some v else lookup key rest
  end.

(** [d.get(key, default)]. *)
Definition dict_get (d : list (string * json)) (key : string) (default : json)
  : json :=
  match lookup key d with
  | Some v => v
  | None => default
  end.

(** [v == s] for a string literal [s]. *)
Definition eq_str (v : json) (s : string) : bool :=
  match v with
  | JStr x => String.eqb x s
  | _ => false
  end.

(** The key tuple of [_extract_log_line]. *)
Definition log_keys : list string :=
  ["message"; "msg"; "log"; "line"; "text"; "data"]%string.

(** The [for key in (...)] loop of [_extract_log_line]: the value under the
    first key that is present with a [str] value. *)
Fixpoint first_str_field (keys : list string) (d : list (string * json))
  : option string :=
  match keys with
  | [] => None
  | key :: rest =>
      match lookup key d with
      | Some (JStr s) => Some s
      | _ => first_str_field rest d
      end
  end.

Record t : Type := mk {
  _running : bool;
  _connected : bool;
  _log_callback : bool;      (* whether [on_log] registered a callback *)
  _reconnect_delay : Q;
  _max_reconnect_delay : Q
}.

Definition __init__ : t := mk false false false 1 60.

Definition on_log (self : t) : t :=
  mk (_running self) (_connected self) true
     (_reconnect_delay self) (_max_reconnect_delay self).

Definition set_running (self : t) (v : bool) : t :=
  mk v (_connected self) (_log_callback self)
     (_reconnect_delay self) (_max_reconnect_delay self).

Definition set_connected (self : t) (v : bool) : t :=
  mk (_running self) v (_log_callback self)
     (_reconnect_delay self) (_max_reconnect_delay self).

Definition set_reconnect_delay (self : t) (v : Q) : t :=
  mk (_running self) (_connected self) (_log_callback self)
     v (_max_reconnect_delay self).

Section JsonLibrary.

(** Python's [json] module and [str] are not part of the bot: [json_loads]
    answers [None] where [json.loads] raises [JSONDecodeError]. *)
Variable json_loads : string -> option json.
Variable json_dumps : json -> string.
Variable str : json -> string.

Definition _extract_log_line (data : json) : string :=
  match data with
  | JStr s => s
  | JDict d =>
      match first_str_field log_keys d with
      | Some s => s
      | None => json_dumps data
      end
  | JNull => EmptyString
  | JBool _ => str data
  | JInt _ => str data
  | JFloat _ => str data
  | JList _ => str data
  end.

(** [if log_line and self._log_callback: self._log_callback(log_line)]: the
    calls of the callback, as the list of their arguments. *)
Definition emit (self : t) (log_line : string) : list string :=
  if Py.truthy log_line && _log_callback self then [log_line] else [].

(** [_process_message]: the callback's calls in order, and whether an
    exception leaves the method ([message.get] on a value that is no dict). *)
Definition _process_message (self : t) (message_raw : string)
  : list string * bool :=
  match json_loads message_raw with
  | None => (if _log_callback self then [message_raw] else [], false)
  | Some (JDict message) =>
      let msg_type := dict_get message "type" (JStr EmptyString) in
      if eq_str msg_type "console" then
        let data := dict_get message "data" (JStr EmptyString) in
        (emit self (_extract_log_line data), false)
      else if eq_str msg_type "logs" then
        let logs :=
          dict_get message "logs" (dict_get message "data" (JList [])) in
        match logs with
        | JList entries =>
            (flat_map (fun entry => emit self (_extract_log_line entry))
                      entries, false)
        | _ => ([], false)
        end
      else ([], false)
  | Some _ => ([], true)
  end.

End JsonLibrary.

(** [connect()].  Before its [try] the method fetches the PufferPanel client
    and, when that holds no usable token, awaits [client.authenticate()]:
    an exception there leaves [connect()].  Everything after is inside the
    [try], whose handlers return [False].  [how] is what the call comes to:
    [None] when it raises before the [try], [Some ok] when it returns [ok]
    ([False] for no token after the refresh, a socket that does not open or
    an error message in the handshake).  The second component of the result
    is the value returned, [None] for the exception. *)
Definition connect (self : t) (how : option bool) : t * option bool :=
  match how with
  | None => (self, None)
  | Some true => (set_connected self true, Some true)
  | Some false => (self, Some false)
  end.

(** [start()].  The task it launches is the receive loop on success and the
    reconnect loop on [False]; when [connect()] raises, so does [start()],
    and no task is launched. *)
Definition start (self : t) (how : option bool) : t * option bool :=
  let self := set_running self true in
  let self := set_reconnect_delay self 1 in
  connect self how.

(** What one turn of the reconnect loop meets after its sleep: [disconnect()]
    has cleared [_running], or [connect()] runs and comes to [how]. *)
Inductive attempt : Type :=
| Stopped
| Connect (how : option bool).

(** [_reconnect_loop], against the list of what its turns meet.  The result
    carries the delays it slept, in order, and whether an exception left the
    loop: the loop has no handler, so a [connect()] that raises ends the
    task.  When the list ends the loop is left where it stands, before its
    next sleep. *)
Fixpoint _reconnect_loop (self : t) (env : list attempt)
  : t * list Q * bool :=
  match env with
  | [] => (self, [], false)
  | a :: rest =>
      if _running self && negb (_connected self) then
        let slept := _reconnect_delay self in
        match a with
        | Stopped =>
            (set_connected (set_running self false) false, [slept], false)
        | Connect how =>
            match connect self how with
            | (self, None) => (self, [slept], true)
            | (self, Some true) => (set_reconnect_delay self 1, [slept], false)
            | (self, Some false) =>
                let self :=
                  set_reconnect_delay self
                    (Py.min (_reconnect_delay self * 2)%Q
                            (_max_reconnect_delay self)) in
                let '(self, sleeps, raised) := _reconnect_loop self rest in
                (self, slept :: sleeps, raised)
            end
        end
      else (self, [], false)
  end.

(** The [except ConnectionClosed] branch of [_receive_loop]. *)
Definition connection_closed (self : t) (env : list attempt)
  : t * list Q * bool :=
  let self := set_connected self false in
  if _running self then _reconnect_loop self env else (self, [], false).

(** The delay the specification gives for the wait before attempt [k + 1]. *)
Definition backoff (k : nat) : Q := inject_Z (Z.min (2 ^ Z.of_nat k) 60).

(** [disconnect()]: both flags down; the tasks are cancelled and the socket
    closed, which touches no field kept here. *)
Definition disconnect (self : t) : t :=
  set_connected (set_running self false) false.

End WebSocketLogClient.

(** ** More of Python: dicts and whitespace *)

Module PyDict.

(** A [dict] with [str] keys as the list of its items, each key once. *)
Fixpoint get {V : Type} (d : list (string * V)) (key : string) : option V :=
  match d with
  | [] => None
  | (k, v) :: rest => if String.eqb k key then Some v else get rest key
  end.

(** [d[key] = v]: replaces the value of a key that is there, adds the item
    otherwise. *)
Fixpoint set {V : Type} (d : list (string * V)) (key : string) (v : V)
  : list (string * V) :=
  match d with
  | [] => [(key, v)]
  | (k, x) :: rest =>
      if String.eqb k key then (k, v) :: rest else (k, x) :: set rest key v
  end.

End PyDict.

Module PyText.

(** [c.isspace()] for a character below 256: tab to carriage return (9 to
    13), the four separators and the space (28 to 32), next line (133) and
    no-break space (160). *)
Definition isspace (c : ascii) : bool :=
  let n := nat_of_ascii c in
  ((9 <=? n) && (n <=? 13) || (28 <=? n) && (n <=? 32)
   || (n =? 133) || (n =? 160))%nat.

(** [s.lstrip()]. *)
Fixpoint lstrip (s : string) : string :=
  match s with
  | EmptyString => EmptyString
  | String c rest => if isspace c then lstrip rest else s
  end.

(** [s.rstrip()]. *)
Fixpoint rstrip (s : string) : string :=
  match s with
  | EmptyString => EmptyString
  | String c rest =>
      match rstrip rest with
      | EmptyString => if isspace c then EmptyString else String c EmptyString
      | String c' rest' => String c (String c' rest')
      end
  end.

(** [s.strip()]. *)
Definition strip (s : string) : string := rstrip (lstrip s).

(** Every character of [s] is whitespace. *)
Fixpoint blank (s : string) : bool :=
  match s with
  | EmptyString => true
  | String c rest => isspace c && blank rest
  end.

(** [s] holds no line feed. *)
Fixpoint one_line (s : string) : bool :=
  match s with
  | EmptyString => true
  | String c rest => negb (Ascii.eqb c "010"%char) && one_line rest
  end.

End PyText.

(** ** utils/rate_limiter.py: the per-action lock *)

Module ActionLock.

(** [_last_action] and [_locks] are dicts keyed by the action name; a lock
    is the flag its [locked()] reads, as for the global lock. *)
Record state : Type := mk {
  cooldown_sec : Q;
  _last_action : list (string * Q);
  _locks : list (string * bool)
}.

Definition __init__ (cooldown : Q) : state := mk cooldown [] [].

Definition set_lock (self : state) (action : string) (v : bool) : state :=
  mk (cooldown_sec self) (_last_action self)
     (PyDict.set (_locks self) action v).

Definition set_last_action (self : state) (action : string) (t : Q) : state :=
  mk (cooldown_sec self) (PyDict.set (_last_action self) action t)
     (_locks self).

(** [_get_lock(action)]: the state with the lock created if it was missing,
    and whether that lock is locked. *)
Definition _get_lock (self : state) (action : string) : state * bool :=
  match PyDict.get (_locks self) action with
  | Some locked => (self, locked)
  | None => (set_lock self action false, false)
  end.

(** [acquire(action)], with the two clock readings as for the global
    lock. *)
Definition acquire (self : state) (action : string) (now1 now2 : Q)
  : state * bool :=
  let '(self, locked) := _get_lock self action in
  if locked then (self, false)
  else
    let self := set_lock self action true in
    let last_time := match PyDict.get (_last_action self) action with
                     | Some t => t
                     | None => 0
                     end in
    let elapsed := (now1 - last_time)%Q in
    if Py.Qltb elapsed (cooldown_sec self) then
      (set_lock self action false, false)
    else
      (set_last_action self action now2, true).

Definition release (self : state) (action : string) : state :=
  match PyDict.get (_locks self) action with
  | Some true => set_lock self action false
  | Some false => self
  | None => self
  end.

Definition get_remaining (self : state) (action : string) (now : Q) : Q :=
  let last_time := match PyDict.get (_last_action self) action with
                   | Some t => t
                   | None => 0
                   end in
  let elapsed := (now - last_time)%Q in
  let remaining := (cooldown_sec self - elapsed)%Q in
  Py.max 0 remaining.

Definition is_locked (self : state) (action : string) : bool :=
  match PyDict.get (_locks self) action with
  | Some locked => locked
  | None => false
  end.

(** A call on the per-action lock. *)
Inductive call : Type :=
| Acquire (action : string) (now1 now2 : Q)
| Release (action : string).

Definition action_of (c : call) : string :=
  match c with
  | Acquire action _ _ => action
  | Release action => action
  end.

Definition step (self : state) (c : call) : state :=
  match c with
  | Acquire action now1 now2 => fst (acquire self action now1 now2)
  | Release action => release self action
  end.

Definition run (self : state) (calls : list call) : state :=
  fold_left step calls self.

End ActionLock.

(** ** services/log_sync.py: starting, and taking lines in *)

Module LogSyncLifecycle.
Import LogSyncService.

(** [_on_log_received]: the line whose [_add_to_buffer] task it creates, or
    [None] when it returns without creating one. *)
Definition _on_log_received (log_line : string) : option string :=
  if negb (Py.truthy log_line) || negb (Py.truthy (PyText.strip log_line))
  then None
  else Some log_line.

(** The buffer after the callback was called with each of [calls] in turn
    and the tasks it created have run; tasks run in the order they were
    created. *)
Definition ingest (self : t) (calls : list string) : t :=
  fold_left
    (fun self log_line =>
       match _on_log_received log_line with
       | Some line => _add_to_buffer self line
       | None => self
       end)
    calls self.

(** Truth value of an id that may be [None]: [None] and [0] are falsy. *)
Definition truthy_id (v : option Z) : bool :=
  match v with
  | Some i => negb (i =? 0)%Z
  | None => false
  end.

(** What the outside answers during [start()]: the date
    [_get_current_date()] resolves to, what [_get_thread(id)] and
    [_create_daily_thread()] return if they are called, and how
    [ws_client.start()] ends: its result, or [None] when an exception
    leaves it (the token cannot be had). *)
Record start_env : Type := mkStartEnv {
  start_today : string;
  fetched : option Thread;
  start_created : option Thread;
  stream : option bool
}.

(** [start()].  With the service come the stream client it started, when it
    got that far, the events in order, and the result. *)
Definition start (self : t) (env : start_env)
  : t * option WebSocketLogClient.t * list event * bool :=
  if _running self then (self, None, [], true)
  else
    let self := set_current_date self (Some (start_today env)) in
    let '(manager, state) := StateManager.state (_state self) in
    let self := set_state self manager in
    let '(thread, evs) :=
      if truthy_id (StateManager.current_thread_id state)
         && negb (Py.opt_str_neq (StateManager.current_date state)
                                 (_current_date self))
      then
        match fetched env with
        | Some thread => (Some thread, [])
        | None => (start_created env, [CreateThread (_current_date self)])
        end
      else (start_created env, [CreateThread (_current_date self)]) in
    let self := set_current_thread self thread in
    match _current_thread self with
    | None => (self, None, evs, false)
    | Some thread =>
        match WebSocketLogClient.start
                (WebSocketLogClient.on_log WebSocketLogClient.__init__)
                (stream env) with
        | (_, None) => (self, None, evs, false)
        | (ws_client, Some _) =>
            let self := set_running self true in
            let self :=
              set_state self
                (StateManager.update_logs (_state self) true
                   (Some (id thread)) (_current_date self)) in
            (self, Some ws_client,
             evs ++ [UpdateLogs true (Some (id thread)) (_current_date self)],
             true)
        end
    end.

(** [get_thread_info()]. *)
Definition get_thread_info (self : t) : option string :=
  if negb (_running self) then None
  else match _current_thread self with
       | None => None
       | Some thread => Some (String.append "#" (name thread))
       end.

(** The thread the service posts to is the thread on record: id and date
    in the state manager are those of the current thread. *)
Definition in_sync (self : t) : Prop :=
  forall thread,
    _current_thread self = Some thread ->
    StateManager.current_thread_id (StateManager.recorded (_state self))
      = Some (id thread) /\
    StateManager.current_date (StateManager.recorded (_state self))
      = _current_date self.

End LogSyncLifecycle.

(** ** services/pufferpanel.py *)

Module TokenInfo.

Record t : Type := mk {
  access_token : string;
  expires_at : Q;
  token_type : string
}.

(** The [is_expired] property at clock reading [now]:
    [time.time() >= (self.expires_at - 60)]. *)
Definition is_expired (self : t) (now : Q) : bool :=
  negb (Py.Qltb now (expires_at self - 60)%Q).

End TokenInfo.

Module PufferPanelClient.

Import WebSocketLogClient(json, JNull, JBool, JInt, JFloat, JStr, JList, JDict,
                          lookup).

Inductive ServerStatus : Type :=
| OFFLINE
| STARTING
| RUNNING
| STOPPING
| UNKNOWN.

(** The client keeps its token; session and configuration play no part in
    what follows. *)
Record t : Type := mk {
  _token : option TokenInfo.t
}.

Definition __init__ : t := mk None.

(** The [access_token] property at clock reading [now]. *)
Definition access_token (self : t) (now : Q) : option string :=
  match _token self with
  | Some token =>
      if negb (TokenInfo.is_expired token now)
      then Some (TokenInfo.access_token token)
      else None
  | None => None
  end.

(** The JSON body of a token answer with status 200, as far as
    [authenticate] reads it: [access_token], and [expires_in] and
    [token_type] when they are there. *)
Record token_answer : Type := mkAnswer {
  answer_access_token : string;
  answer_expires_in : option Q;
  answer_token_type : option string
}.

(** [authenticate()] at clock reading [now].  [answer] is [None] when an
    exception leaves the method (no connection, a status other than 200, no
    [access_token] in the body); the token then stays as it was.  The
    boolean is [true] when it raises.  The source adds [time.time()] and
    [expires_in] as doubles; the sum here is the exact one, which is the
    double sum whenever the exact sum is a double. *)
Definition authenticate (self : t) (now : Q) (answer : option token_answer)
  : t * bool :=
  match answer with
  | None => (self, true)
  | Some result =>
      let expires_in := match answer_expires_in result with
                        | Some e => e
                        | None => 3600%Q
                        end in
      (mk (Some (TokenInfo.mk
                   (answer_access_token result)
                   (now + expires_in)%Q
                   match answer_token_type result with
                   | Some ty => ty
                   | None => "Bearer"%string
                   end)),
       false)
  end.

(** [_ensure_token()]: [check] is the clock reading of [is_expired],
    [now] the one of [authenticate]. *)
Definition _ensure_token (self : t) (check now : Q)
  (answer : option token_answer) : t * bool :=
  match _token self with
  | None => authenticate self now answer
  | Some token =>
      if TokenInfo.is_expired token check
      then authenticate self now answer
      else (self, false)
  end.

(** [_get_headers()]: the [Authorization] header, or [None] where it raises
    for want of a token. *)
Definition _get_headers (self : t) : option string :=
  match _token self with
  | None => None
  | Some token =>
      Some (String.append (TokenInfo.token_type token)
              (String.append " " (TokenInfo.access_token token)))
  end.

(** An HTTP answer as [_request] and [_parse_response] read it: the status,
    the [Content-Length] and [Content-Type] headers when present, and what
    [resp.json()] gives ([None] where it raises). *)
Record response : Type := mkResponse {
  status : Z;
  content_length : option string;
  content_type : option string;
  body : option json
}.

(** [needle in s]. *)
Fixpoint contains (needle s : string) : bool :=
  if String.prefix needle s then true
  else match s with
       | EmptyString => false
       | String _ rest => contains needle rest
       end.

Definition _parse_response (resp : response) : option json :=
  if ((status resp =? 202) || (status resp =? 204))%Z then None
  else
    let length := match content_length resp with
                  | Some v => v
                  | None => "0"%string
                  end in
    if String.eqb length "0" then None
    else
      let type := match content_type resp with
                  | Some v => v
                  | None => EmptyString
                  end in
      if negb (contains "application/json" type) then None
      else body resp.

(** What the outside answers during one [_request]: clock readings and
    token answers for the up to two [authenticate] calls, and the up to two
    HTTP answers ([None] where [session.request] raises). *)
Record request_env : Type := mkRequestEnv {
  check : Q;
  now_first : Q;
  token_first : option token_answer;
  first : option response;
  now_again : Q;
  token_again : option token_answer;
  retry : option response
}.

(** How a call ends: it returns, it raises [APIError] with a status, or
    another exception leaves it. *)
Inductive outcome (A : Type) : Type :=
| Returned (v : A)
| RaisedAPIError (status : Z)
| RaisedOther.

Arguments Returned {A} v.
Arguments RaisedAPIError {A} status.
Arguments RaisedOther {A}.

(** [_request].  With the outcome come the client and the [Authorization]
    headers of the HTTP requests that were sent, in order. *)
Definition _request (self : t) (env : request_env)
  : t * list string * outcome (option json) :=
  let '(self, raised) :=
    _ensure_token self (check env) (now_first env) (token_first env) in
  if raised then (self, [], RaisedOther)
  else
    match _get_headers self with
    | None => (self, [], RaisedOther)
    | Some headers =>
        match first env with
        | None => (self, [headers], RaisedOther)
        | Some resp =>
            if (status resp =? 401)%Z then
              let '(self, raised) :=
                authenticate self (now_again env) (token_again env) in
              if raised then (self, [headers], RaisedOther)
              else
                match _get_headers self with
                | None => (self, [headers], RaisedOther)
                | Some headers' =>
                    match retry env with
                    | None => (self, [headers; headers'], RaisedOther)
                    | Some retry_resp =>
                        if (status retry_resp >=? 400)%Z then
                          (self, [headers; headers'],
                           RaisedAPIError (status retry_resp))
                        else
                          (self, [headers; headers'],
                           Returned (_parse_response retry_resp))
                    end
                end
            else if (status resp >=? 400)%Z then
              (self, [headers], RaisedAPIError (status resp))
            else (self, [headers], Returned (_parse_response resp))
        end
    end.

(** Truth value of a decoded JSON value. *)
Definition json_truthy (v : json) : bool :=
  match v with
  | JNull => false
  | JBool b => b
  | JInt z => negb (z =? 0)%Z
  | JFloat q => negb (Qeq_bool q 0)
  | JStr s => Py.truthy s
  | JList items => match items with [] => false | _ :: _ => true end
  | JDict items => match items with [] => false | _ :: _ => true end
  end.

(** [get_server_status()].  A body of JSON [null] parses to Python's [None],
    the same value as no body; [result.get] raises on any other body that
    is no object. *)
Definition get_server_status (self : t) (env : request_env)
  : t * list string * outcome ServerStatus :=
  let '(self, sent, result) := _request self env in
  (self, sent,
   match result with
   | Returned None => Returned UNKNOWN
   | Returned (Some JNull) => Returned UNKNOWN
   | Returned (Some (JDict d)) =>
       let running := match lookup "running" d with
                      | Some v => v
                      | None => JBool false
                      end in
       Returned (if json_truthy running then RUNNING else OFFLINE)
   | Returned (Some _) => RaisedOther
   | RaisedAPIError _ => Returned UNKNOWN
   | RaisedOther => RaisedOther
   end).

(** [start_server()], [stop_server()] and [send_command()] have one body:
    [True] when [_request] returns, [False] on [APIError]. *)
Definition start_server (self : t) (env : request_env)
  : t * list string * outcome bool :=
  let '(self, sent, result) := _request self env in
  (self, sent,
   match result with
   | Returned _ => Returned true
   | RaisedAPIError _ => Returned false
   | RaisedOther => RaisedOther
   end).

(** The token part of [WebSocketLogClient.connect()]: the token the socket
    is opened with, [Returned None] where [connect] gives up with [False],
    [RaisedOther] where [authenticate] raises.  [now1] and [now2] are the
    clock readings of the two reads of [access_token]. *)
Definition connect_token (self : t) (now1 now_auth now2 : Q)
  (answer : option token_answer) : t * outcome (option string) :=
  let usable token := match token with
                      | Some s => Py.truthy s
                      | None => false
                      end in
  let token := access_token self now1 in
  if usable token then (self, Returned token)
  else
    let '(self, raised) := authenticate self now_auth answer in
    if raised then (self, RaisedOther)
    else
      let token := access_token self now2 in
      if usable token then (self, Returned token)
      else (self, Returned None).

End PufferPanelClient.

(** ** cogs/dashboard.py *)

Module Dashboard.

(** The three buttons that act on the server. *)
Inductive button : Type :=
| StartButton
| StopButton
| RestartButton.

(** A call of the PufferPanel client made by a handler. *)
Inductive server_call : Type :=
| StartServer
| StopServer.

(** How such a call ends: it returns [ok], or an exception leaves it. *)
Inductive call_result : Type :=
| Done (ok : bool)
| Raises.

(** The two objects the handlers share. *)
Record world : Type := mkWorld {
  lock : GlobalActionLock.state;
  manager : StateManager.t
}.

(** [_has_permission]: [roles] are the ids of the user's roles, [None] when
    there is no user or the user has no [roles]. *)
Definition _has_permission (allowed_role_id : Z) (roles : option (list Z))
  : bool :=
  match roles with
  | None => false
  | Some ids => existsb (fun role_id => (role_id =? allowed_role_id)%Z) ids
  end.

(** A handler up to its [try]: the permission check and
    [lock.acquire("server_action")].  The boolean tells whether the handler
    goes on into the [try]. *)
Definition enter (w : world) (allowed_role_id : Z) (roles : option (list Z))
  (now1 now2 : Q) : world * bool :=
  if negb (_has_permission allowed_role_id roles) then (w, false)
  else
    let r := GlobalActionLock.acquire (lock w) "server_action" now1 now2 in
    (mkWorld (fst r) (manager w), fst (snd r)).

(** The body of the [try] of a button: the client calls it makes, in order,
    and whether an exception leaves it.  [first] and [second] are how the
    client calls end; [user] is the display name, [now_iso] the time
    [update_last_action] stores. *)
Definition guarded (b : button) (w : world) (first second : call_result)
  (user now_iso : string) : world * list server_call * bool :=
  let record kind :=
    mkWorld (lock w)
      (StateManager.update_last_action (manager w) kind user now_iso) in
  match b with
  | StartButton =>
      match first with
      | Raises => (w, [StartServer], true)
      | Done true => (record "start"%string, [StartServer], false)
      | Done false => (w, [StartServer], false)
      end
  | StopButton =>
      match first with
      | Raises => (w, [StopServer], true)
      | Done true => (record "stop"%string, [StopServer], false)
      | Done false => (w, [StopServer], false)
      end
  | RestartButton =>
      match first with
      | Raises => (w, [StopServer], true)
      | Done false => (w, [StopServer], false)
      | Done true =>
          match second with
          | Raises => (w, [StopServer; StartServer], true)
          | Done false => (w, [StopServer; StartServer], false)
          | Done true =>
              (record "restart"%string, [StopServer; StartServer], false)
          end
      end
  end.

(** The [finally] of a handler. *)
Definition leave (w : world) : world :=
  mkWorld (GlobalActionLock.release (lock w)) (manager w).

(** One press of a button from start to end. *)
Definition handle (b : button) (w : world) (allowed_role_id : Z)
  (roles : option (list Z)) (now1 now2 : Q) (first second : call_result)
  (user now_iso : string) : world * list server_call * bool :=
  let '(w, entered) := enter w allowed_role_id roles now1 now2 in
  if entered then
    let '(w, calls, raised) := guarded b w first second user now_iso in
    (leave w, calls, raised)
  else (w, [], false).

(** *** Handlers side by side

    A handler is suspended inside its [try] while the client call runs, and
    other presses are handled meanwhile.  A run is a list of these steps:
    a press reaches its [acquire], or the handler of an earlier press
    reaches its [finally].  [inside] are the handlers that are in their
    [try]. *)

Inductive step_of : Type :=
| Press (who : nat) (roles : option (list Z)) (now1 now2 : Q)
| Finish (who : nat).

Record floor : Type := mkFloor {
  shared : world;
  inside : list nat
}.

Definition step (allowed_role_id : Z) (f : floor) (s : step_of) : floor :=
  match s with
  | Press who roles now1 now2 =>
      let '(w, entered) := enter (shared f) allowed_role_id roles now1 now2 in
      mkFloor w (if entered then who :: inside f else inside f)
  | Finish who =>
      if existsb (Nat.eqb who) (inside f)
      then mkFloor (leave (shared f))
                   (filter (fun h => negb (Nat.eqb who h)) (inside f))
      else f
  end.

Definition run (allowed_role_id : Z) (f : floor) (steps : list step_of)
  : floor :=
  fold_left (step allowed_role_id) steps f.

(** *** Commands typed into the log thread *)

(** A message as [on_message] reads it: whether its author is a bot, the
    id of its channel when that is a thread, the ids of the author's roles
    when the author has [roles], and its text. *)
Record message : Type := mkMessage {
  author_bot : bool;
  thread_id : option Z;
  author_roles : option (list Z);
  content : string
}.

(** [on_message]: the command it passes to [send_command], if any. *)
Definition on_message (manager : StateManager.t) (allowed_role_id : Z)
  (m : message) : StateManager.t * option string :=
  if author_bot m then (manager, None)
  else
    match thread_id m with
    | None => (manager, None)
    | Some channel_id =>
        let '(manager, state) := StateManager.state manager in
        if negb (LogSyncLifecycle.truthy_id
                   (StateManager.current_thread_id state))
        then (manager, None)
        else if match StateManager.current_thread_id state with
                | Some recorded_id => negb (channel_id =? recorded_id)%Z
                | None => true
                end
        then (manager, None)
        else if negb (StateManager.logs_enabled state) then (manager, None)
        else
          match author_roles m with
          | None => (manager, None)
          | Some ids =>
              if negb (existsb (fun role_id => (role_id =? allowed_role_id)%Z)
                               ids)
              then (manager, None)
              else
                let command := PyText.strip (content m) in
                if negb (Py.truthy command) then (manager, None)
                else (manager, Some command)
          end
    end.

End Dashboard.

(** * Properties *)

(** ** Python built-ins *)

Module PyFacts.
Import Py.

Lemma Qltb_lt (x y : Q) : Qltb x y = true <-> (x < y)%Q.
Proof. unfold Qltb, Qlt. apply Z.ltb_lt. Qed.

Lemma Qltb_ge (x y : Q) : Qltb x y = false <-> (y <= x)%Q.
Proof. unfold Qltb, Qle. apply Z.ltb_ge. Qed.

Lemma truthy_true (s : string) : truthy s = true <-> s <> EmptyString.
Proof. destruct s; simpl; split; congruence. Qed.

End PyFacts.

(** ** The global action lock *)

Module GlobalActionLockProofs.
Import GlobalActionLock.

Ltac unfold_lock :=
  unfold acquire, release, lock_acquire, lock_release, set_current_action,
    set_last_action_time in *; simpl in *.

Lemma lock_eta (self : state) :
  mk (cooldown_sec self) (_lock self) (_last_action_time self)
     (_current_action self) = self.
Proof. destruct self; reflexivity. Qed.

(** The three outcomes of [acquire], one equation each. *)
Lemma acquire_locked self action now1 now2 :
  _lock self = true ->
  acquire self action now1 now2 = (self, (false, _current_action self)).
Proof. intros H. unfold acquire. rewrite H. reflexivity. Qed.

Lemma acquire_cooldown self action now1 now2 :
  _lock self = false ->
  (now1 - _last_action_time self < cooldown_sec self)%Q ->
  acquire self action now1 now2 = (self, (false, Some "cooldown"%string)).
Proof.
  intros Hl Hc. apply PyFacts.Qltb_lt in Hc.
  unfold_lock. rewrite Hl, Hc.
  rewrite <- Hl. rewrite lock_eta. reflexivity.
Qed.

Lemma acquire_granted self action now1 now2 :
  _lock self = false ->
  (cooldown_sec self <= now1 - _last_action_time self)%Q ->
  acquire self action now1 now2 =
    (mk (cooldown_sec self) true now2 (Some action), (true, None)).
Proof.
  intros Hl Hc. apply PyFacts.Qltb_ge in Hc.
  unfold_lock. rewrite Hl, Hc. reflexivity.
Qed.

(** A denied [acquire] hands back the state it was given. *)
Lemma acquire_denied_state self action now1 now2 :
  fst (snd (acquire self action now1 now2)) = false ->
  fst (acquire self action now1 now2) = self.
Proof.
  unfold_lock. destruct (_lock self) eqn:Hl; [reflexivity|].
  destruct (Py.Qltb _ _); simpl; [|discriminate].
  intros _. rewrite <- Hl. apply lock_eta.
Qed.

Lemma acquire_granted_inv self action now1 now2 :
  fst (snd (acquire self action now1 now2)) = true ->
  _lock self = false /\
  fst (acquire self action now1 now2) =
    mk (cooldown_sec self) true now2 (Some action).
Proof.
  unfold_lock. destruct (_lock self); [discriminate|].
  destruct (Py.Qltb _ _); simpl; [discriminate|]. auto.
Qed.

Lemma consistent_boot cooldown : consistent (boot cooldown).
Proof. left. split; reflexivity. Qed.

Lemma consistent_step s c : consistent s -> consistent (step s c).
Proof.
  intros Hs. destruct c as [who action now1 now2|]; simpl.
  - destruct (fst (snd (acquire (lk s) action now1 now2))) eqn:Hg.
    + destruct (acquire_granted_inv _ _ _ _ Hg) as [Hl Hst].
      right. simpl. rewrite Hst. simpl. split; [reflexivity|].
      destruct Hs as [[_ Ho]|[Hl' _]]; [|congruence].
      rewrite Ho. eauto.
    + rewrite (acquire_denied_state _ _ _ _ Hg).
      destruct Hs as [[Hl Ho]|[Hl Ho]]; [left|right]; simpl; auto.
  - left. destruct Hs as [[Hl Ho]|[Hl (who & a & Ho & _)]];
      unfold_lock; rewrite Hl, Ho; simpl; auto.
Qed.

Lemma consistent_run calls : forall s, consistent s -> consistent (run s calls).
Proof.
  induction calls as [|c calls IH]; intros s Hs; simpl; [assumption|].
  apply IH, consistent_step, Hs.
Qed.

(** C1.  Run any finite sequence of [acquire] and [release] calls on a new
    lock.  At the end of it (so after each of its prefixes, at any time) at
    most one grant is outstanding, and while one is outstanding every
    further [acquire] is denied. *)
Theorem at_most_one_holder (cooldown : Q) (calls : list call)
  (action : string) (now1 now2 : Q) :
  (List.length (outstanding (run (boot cooldown) calls)) <= 1)%nat /\
  (outstanding (run (boot cooldown) calls) <> [] ->
   fst (snd (acquire (lk (run (boot cooldown) calls)) action now1 now2))
     = false).
Proof.
  pose proof (consistent_run calls _ (consistent_boot cooldown)) as H.
  destruct H as [[Hl Ho]|[Hl (who & a & Ho & _)]]; rewrite Ho; simpl.
  - split; [lia|congruence].
  - split; [lia|]. intros _. rewrite (acquire_locked _ _ _ _ Hl). reflexivity.
Qed.

Lemma at_most_one_holder_witness :
  outstanding (run (boot 10) [Acquire 1%nat "start" 100 100]) <> [] /\
  fst (snd (acquire (lk (run (boot 10) [Acquire 1%nat "start" 100 100]))
                    "stop" 200 200)) = false.
Proof.
  split; [discriminate|].
  apply (at_most_one_holder 10 [Acquire 1%nat "start" 100 100] "stop" 200 200).
  discriminate.
Defined.

(** C2.  [acquire] on a held lock returns [(false, holder marker)] and
    leaves the state alone; on a free lock inside the cooldown it returns
    [(false, "cooldown")] with the lock free again; on a free lock outside
    the cooldown it returns [(true, None)], holds the lock, and has stored
    the grant time and the action kind.  On a lock reached by calls from a
    new one, the marker returned by a denied call is the kind of the grant
    that is outstanding. *)
Theorem acquire_behaviour (self : state) (action : string) (now1 now2 : Q)
  (cooldown : Q) (calls : list call) (who : caller) (kind : string) :
  (_lock self = true ->
   acquire self action now1 now2 = (self, (false, _current_action self))) /\
  (_lock self = false ->
   (now1 - _last_action_time self < cooldown_sec self)%Q ->
   acquire self action now1 now2 = (self, (false, Some "cooldown"%string))) /\
  (_lock self = false ->
   ~ (now1 - _last_action_time self < cooldown_sec self)%Q ->
   acquire self action now1 now2 =
     (mk (cooldown_sec self) true now2 (Some action), (true, None))) /\
  (outstanding (run (boot cooldown) calls) = [(who, kind)] ->
   acquire (lk (run (boot cooldown) calls)) action now1 now2 =
     (lk (run (boot cooldown) calls), (false, Some kind))).
Proof.
  split; [apply acquire_locked|].
  split; [apply acquire_cooldown|].
  split.
  - intros Hl Hc. apply acquire_granted; [assumption|].
    apply Qnot_lt_le, Hc.
  - intros Ho.
    destruct (consistent_run calls _ (consistent_boot cooldown))
      as [[_ Ho']|[Hl (w & a & Ho' & Ha)]]; [congruence|].
    rewrite (acquire_locked _ _ _ _ Hl), Ha. congruence.
Qed.

Lemma acquire_behaviour_witness :
  acquire (mk 10 true 100 (Some "start"%string)) "stop" 103 103 =
    (mk 10 true 100 (Some "start"%string), (false, Some "start"%string)) /\
  acquire (mk 10 false 100 None) "stop" 103 103 =
    (mk 10 false 100 None, (false, Some "cooldown"%string)) /\
  acquire (mk 10 false 100 None) "stop" 111 112 =
    (mk 10 true 112 (Some "stop"%string), (true, None)) /\
  acquire (lk (run (boot 10) [Acquire 1%nat "start" 100 100])) "stop" 103 103 =
    (lk (run (boot 10) [Acquire 1%nat "start" 100 100]),
     (false, Some "start"%string)).
Proof.
  split; [|split; [|split]].
  - apply (acquire_behaviour (mk 10 true 100 (Some "start"%string))
             "stop" 103 103 10 [] 0%nat "x"). reflexivity.
  - apply (acquire_behaviour (mk 10 false 100 None)
             "stop" 103 103 10 [] 0%nat "x"); [reflexivity|].
    vm_compute. reflexivity.
  - apply (acquire_behaviour (mk 10 false 100 None)
             "stop" 111 112 10 [] 0%nat "x"); [reflexivity|].
    vm_compute. discriminate.
  - apply (acquire_behaviour (mk 10 false 100 None) "stop" 103 103 10
             [Acquire 1%nat "start" 100 100] 1%nat "start"). reflexivity.
Defined.

(** A new lock holds [0.0] as the time of its last grant, so its cooldown
    counts from the clock's origin: with cooldown 10 an [acquire] whose
    clock reads [0] finds an elapsed time of [0 < 10].  [time.time()] reads
    seconds since 1970; the scenario below takes its clock from a reading
    [base] of 10 or more. *)
Lemma first_acquire_at_clock_zero_denied :
  snd (acquire (__init__ 10) "start" 0 0) = (false, Some "cooldown"%string) /\
  fst (snd (acquire (__init__ 10) "start" 0 0)) <> true.
Proof. split; [reflexivity|discriminate]. Qed.

(** C3.  After a granted [acquire] (grant time [t2]) and a [release], an
    [acquire] of any kind whose clock reads less than [cooldown_sec] past
    [t2] returns [(false, "cooldown")], and one whose clock reads
    [cooldown_sec] or more past [t2] is granted.  The scenario, with
    cooldown 10 on a new lock, its times [t] counted from a clock reading
    [base] of 10 or more: [acquire("start")] at [t = 0] is granted, after
    [release] [acquire("stop")] at [t = 3] returns [(false, "cooldown")],
    and [acquire("stop")] at [t = 11] is granted. *)
Theorem cooldown_after_release (self : state) (a1 a2 : string)
  (t1 t2 now1 now2 base : Q) :
  (fst (snd (acquire self a1 t1 t2)) = true ->
   (now1 - t2 < cooldown_sec self)%Q ->
   acquire (release (fst (acquire self a1 t1 t2))) a2 now1 now2 =
     (release (fst (acquire self a1 t1 t2)),
      (false, Some "cooldown"%string))) /\
  (fst (snd (acquire self a1 t1 t2)) = true ->
   (cooldown_sec self <= now1 - t2)%Q ->
   snd (acquire (release (fst (acquire self a1 t1 t2))) a2 now1 now2) =
     (true, None)) /\
  ((10 <= base)%Q ->
   snd (acquire (__init__ 10) "start" (base + 0) (base + 0)) = (true, None) /\
   snd (acquire
          (release (fst (acquire (__init__ 10) "start" (base + 0) (base + 0))))
          "stop" (base + 3) (base + 3)) = (false, Some "cooldown"%string) /\
   snd (acquire
          (fst (acquire
             (release
                (fst (acquire (__init__ 10) "start" (base + 0) (base + 0))))
             "stop" (base + 3) (base + 3)))
          "stop" (base + 11) (base + 11)) = (true, None)).
Proof.
  split; [|split].
  - intros Hg Hc. destruct (acquire_granted_inv _ _ _ _ Hg) as [_ Hst].
    rewrite Hst. apply acquire_cooldown; [reflexivity|exact Hc].
  - intros Hg Hc. destruct (acquire_granted_inv _ _ _ _ Hg) as [_ Hst].
    rewrite Hst. rewrite acquire_granted; [reflexivity|reflexivity|exact Hc].
  - intros Hb.
    assert (H1 : acquire (__init__ 10) "start" (base + 0) (base + 0) =
                 (mk 10 true (base + 0) (Some "start"%string), (true, None))).
    { apply acquire_granted; [reflexivity|]. simpl. lra. }
    rewrite H1. simpl fst. split; [reflexivity|].
    assert (H2 : acquire (release (mk 10 true (base + 0) (Some "start"%string)))
                   "stop" (base + 3) (base + 3) =
                 (release (mk 10 true (base + 0) (Some "start"%string)),
                  (false, Some "cooldown"%string))).
    { apply acquire_cooldown; [reflexivity|]. simpl. lra. }
    rewrite H2. simpl fst. split; [reflexivity|].
    rewrite acquire_granted; [reflexivity|reflexivity|]. simpl. lra.
Qed.

Lemma cooldown_after_release_witness :
  acquire (release (fst (acquire (__init__ 10) "start" 1000 1000)))
          "stop" 1003 1003 =
    (release (fst (acquire (__init__ 10) "start" 1000 1000)),
     (false, Some "cooldown"%string)) /\
  snd (acquire (release (fst (acquire (__init__ 10) "start" 1000 1000)))
               "stop" 1010 1010) = (true, None) /\
  snd (acquire
         (fst (acquire
            (release (fst (acquire (__init__ 10) "start" (1000 + 0) (1000 + 0))))
            "stop" (1000 + 3) (1000 + 3)))
         "stop" (1000 + 11) (1000 + 11)) = (true, None).
Proof.
  split; [|split].
  - apply (proj1 (cooldown_after_release (__init__ 10) "start" "stop"
                    1000 1000 1003 1003 1000)); [reflexivity|].
    vm_compute. reflexivity.
  - apply (proj1 (proj2 (cooldown_after_release (__init__ 10) "start" "stop"
                           1000 1000 1010 1010 1000))); [reflexivity|].
    vm_compute. discriminate.
  - assert (Hb : (10 <= 1000)%Q) by (vm_compute; discriminate).
    destruct (proj2 (proj2 (cooldown_after_release (__init__ 10) "start" "stop"
                              1000 1000 1010 1010 1000)) Hb) as (_ & _ & H).
    exact H.
Defined.

(** C9.  When [acquire] returns [(false, _)], for either reason, the call
    has changed nothing: the lock state is the one before the call (a lock
    that was free is free again, the last-grant time is the old one), no
    grant was added for the caller, and [get_remaining_cooldown] answers as
    before at every clock reading. *)
Theorem denied_acquire_changes_nothing (s : sys) (who : caller)
  (action : string) (now1 now2 now : Q) (reason : option string) :
  snd (acquire (lk s) action now1 now2) = (false, reason) ->
  step s (Acquire who action now1 now2) = s /\
  fst (acquire (lk s) action now1 now2) = lk s /\
  (_lock (lk s) = false ->
   _lock (fst (acquire (lk s) action now1 now2)) = false) /\
  _last_action_time (fst (acquire (lk s) action now1 now2)) =
    _last_action_time (lk s) /\
  outstanding (step s (Acquire who action now1 now2)) = outstanding s /\
  get_remaining_cooldown (fst (acquire (lk s) action now1 now2)) now =
    get_remaining_cooldown (lk s) now.
Proof.
  intros H.
  assert (Hd : fst (snd (acquire (lk s) action now1 now2)) = false)
    by (rewrite H; reflexivity).
  pose proof (acquire_denied_state _ _ _ _ Hd) as Hs.
  assert (Hstep : step s (Acquire who action now1 now2) = s).
  { simpl. rewrite Hd, Hs. destruct s; reflexivity. }
  rewrite Hstep, Hs. repeat split; auto.
Qed.

Lemma denied_acquire_changes_nothing_witness :
  step (run (boot 10) [Acquire 1%nat "start" 100 100; Release])
       (Acquire 2%nat "stop" 103 103) =
    run (boot 10) [Acquire 1%nat "start" 100 100; Release] /\
  get_remaining_cooldown
    (fst (acquire (lk (run (boot 10) [Acquire 1%nat "start" 100 100; Release]))
                  "stop" 103 103)) 104 =
  get_remaining_cooldown
    (lk (run (boot 10) [Acquire 1%nat "start" 100 100; Release])) 104.
Proof.
  pose proof (denied_acquire_changes_nothing
                (run (boot 10) [Acquire 1%nat "start" 100 100; Release])
                2%nat "stop" 103 103 104 (Some "cooldown"%string)
                eq_refl) as H.
  split; [apply H|apply H].
Defined.

End GlobalActionLockProofs.

(** ** The state manager *)

Module StateManagerProofs.
Import StateManager.

Lemma assign_recorded f (self : t) :
  _state (assign f self) = Some (f (recorded self)).
Proof.
  unfold assign, recorded, state, load.
  destruct (_state self); reflexivity.
Qed.

Lemma save_some (self : t) b :
  _state self = Some b -> save self = mk (Dumped b) (Some b).
Proof. intros H. unfold save. rewrite H. reflexivity. Qed.

Lemma recorded_some (self : t) b : _state self = Some b -> recorded self = b.
Proof. intros H. unfold recorded, state. rewrite H. reflexivity. Qed.

(** [update_logs] in closed form. *)
Lemma update_logs_eq (self : t) enabled thread_id date :
  let b := set_logs_enabled enabled (recorded self) in
  let b := match thread_id with
           | Some i => set_current_thread_id (Some i) b
           | None => b
           end in
  let b := match date with
           | Some d => set_current_date (Some d) b
           | None => b
           end in
  update_logs self enabled thread_id date = mk (Dumped b) (Some b).
Proof.
  unfold update_logs.
  pose proof (assign_recorded (set_logs_enabled enabled) self) as H0.
  set (s0 := assign (set_logs_enabled enabled) self) in *.
  destruct thread_id as [i|]; destruct date as [d|]; simpl.
  - pose proof (assign_recorded (set_current_thread_id (Some i)) s0) as H1.
    rewrite (recorded_some _ _ H0) in H1.
    pose proof (assign_recorded (set_current_date (Some d))
                  (assign (set_current_thread_id (Some i)) s0)) as H2.
    rewrite (recorded_some _ _ H1) in H2.
    apply save_some, H2.
  - pose proof (assign_recorded (set_current_thread_id (Some i)) s0) as H1.
    rewrite (recorded_some _ _ H0) in H1.
    apply save_some, H1.
  - pose proof (assign_recorded (set_current_date (Some d)) s0) as H1.
    rewrite (recorded_some _ _ H0) in H1.
    apply save_some, H1.
  - apply save_some, H0.
Qed.

Lemma update_logs_recorded_frame (self : t) enabled :
  current_thread_id (recorded (update_logs self enabled None None)) =
    current_thread_id (recorded self) /\
  current_date (recorded (update_logs self enabled None None)) =
    current_date (recorded self).
Proof.
  pose proof (update_logs_eq self enabled None None) as H. simpl in H.
  rewrite H. split; reflexivity.
Qed.

End StateManagerProofs.

(** ** Splitting a message into chunks *)

Module SplitMessageProofs.
Import LogSyncService.
Import Py.

Local Open Scope Z_scope.

#[local] Set Warnings "-notation-for-abbreviation".
Local Notation J := (join nl).
Local Notation "a +++ b" := (String.append a b)
  (at level 60, right associativity).

Lemma append_nil_r s : s +++ EmptyString = s.
Proof. induction s; simpl; congruence. Qed.

Lemma append_assoc a b c : (a +++ b) +++ c = a +++ b +++ c.
Proof. induction a; simpl; congruence. Qed.

Lemma len_append a b : len (a +++ b) = len a + len b.
Proof.
  unfold len. induction a; simpl String.length; [reflexivity|].
  rewrite !Nat2Z.inj_succ. lia.
Qed.

Lemma len_nl : len nl = 1.
Proof. reflexivity. Qed.


Lemma truthy_append a b : truthy a = true -> truthy (a +++ b) = true.
Proof. destruct a; simpl; congruence. Qed.

Lemma split_lines_cons text : exists l ls, split_lines text = l :: ls.
Proof.
  induction text as [|c text (l & ls & IH)]; simpl; [eauto|].
  destruct (Ascii.eqb c "010"); [eauto|]. rewrite IH. eauto.
Qed.

(** Joining what [split] gave is the text. *)
Lemma join_split text : J (split_lines text) = text.
Proof.
  induction text as [|c text IH]; [reflexivity|].
  simpl split_lines. destruct (Ascii.eqb_spec c "010") as [->|Hc].
  - destruct (split_lines_cons text) as (l & ls & E).
    rewrite E in *. simpl join at 1. simpl. f_equal. exact IH.
  - destruct (split_lines_cons text) as (l & ls & E).
    rewrite E in *. destruct ls; simpl in *; congruence.
Qed.

Lemma join_cons x rest :
  rest <> [] -> J (x :: rest) = x +++ nl +++ J rest.
Proof. destruct rest; [congruence|reflexivity]. Qed.

Lemma join_app a : forall b,
  a <> [] -> b <> [] -> J (a ++ b) = J a +++ nl +++ J b.
Proof.
  induction a as [|x a IH]; intros b Ha Hb; [congruence|].
  destruct a as [|y a].
  - simpl app. apply join_cons, Hb.
  - change ((x :: y :: a) ++ b)%list with (x :: ((y :: a) ++ b))%list.
    rewrite join_cons by discriminate.
    rewrite IH by (assumption || discriminate).
    rewrite (join_cons x (y :: a)) by discriminate.
    rewrite !append_assoc. reflexivity.
Qed.

Lemma join_snoc g line : g <> [] -> J (g ++ [line]) = J g +++ nl +++ line.
Proof. intros H. rewrite join_app by (assumption || discriminate). reflexivity. Qed.


Lemma truthy_join g :
  truthy (hd EmptyString g) = true -> truthy (J g) = true.
Proof.
  destruct g as [|x [|y g]]; simpl hd; intros H; [discriminate|exact H|].
  rewrite join_cons by discriminate. apply truthy_append, H.
Qed.

Lemma hd_app_nonempty (g : list string) l :
  g <> [] -> hd EmptyString (g ++ [l]) = hd EmptyString g.
Proof. destruct g; [congruence|reflexivity]. Qed.

(** *** The grouping *)

Lemma greedy_groups_concat max_len lines : forall g,
  List.concat (greedy_groups max_len g lines) = (g ++ lines)%list.
Proof.
  induction lines as [|l lines IH]; intros g; simpl.
  - reflexivity.
  - destruct (_ >? _); simpl; rewrite IH; [reflexivity|].
    rewrite <- app_assoc. reflexivity.
Qed.

Lemma greedy_groups_nonempty max_len lines : forall g,
  g <> [] -> Forall (fun g => g <> []) (greedy_groups max_len g lines).
Proof.
  induction lines as [|l lines IH]; intros g Hg; simpl.
  - repeat constructor; assumption.
  - destruct (_ >? _).
    + constructor; [assumption|]. apply IH. discriminate.
    + apply IH. destruct g; discriminate.
Qed.

Lemma greedy_groups_head max_len lines : forall g,
  g <> [] ->
  exists g' more,
    greedy_groups max_len g lines = g' :: more /\
    hd EmptyString g' = hd EmptyString g.
Proof.
  induction lines as [|l lines IH]; intros g Hg; simpl.
  - eauto.
  - destruct (_ >? _); [eauto|].
    destruct (IH (g ++ [l])%list) as (g' & more & E & Hh).
    { destruct g; discriminate. }
    rewrite E. exists g', more. split; [reflexivity|].
    rewrite Hh. apply hd_app_nonempty, Hg.
Qed.

Lemma greedy_groups_greedy max_len lines : forall g,
  g <> [] -> greedy max_len (greedy_groups max_len g lines).
Proof.
  induction lines as [|l lines IH]; intros g Hg; simpl greedy_groups.
  - exact I.
  - destruct (_ >? _) eqn:Hover.
    + destruct (greedy_groups_head max_len lines [l]) as (g' & more & E & Hh);
        [discriminate|].
      specialize (IH [l]). rewrite E in *. simpl greedy.
      split; [|apply IH; discriminate].
      rewrite Hh. simpl hd. apply Z.gtb_lt in Hover. lia.
    + apply IH. destruct g; discriminate.
Qed.

Lemma greedy_groups_bound max_len lines : forall g,
  g <> [] ->
  len (J g) <= max_len ->
  Forall (fun l => len l <= max_len) lines ->
  Forall (fun g => len (J g) <= max_len) (greedy_groups max_len g lines).
Proof.
  induction lines as [|l lines IH]; intros g Hg Hb Hl; simpl.
  - repeat constructor; assumption.
  - inversion Hl; subst.
    destruct (_ >? _) eqn:Hover.
    + constructor; [assumption|].
      apply IH; [discriminate|assumption|assumption].
    + apply IH; [destruct g; discriminate| |assumption].
      rewrite join_snoc, !len_append, len_nl by assumption.
      destruct (Z.gtb_spec (len (J g) + len l + 1) max_len); [discriminate|].
      lia.
Qed.

(** *** The loop builds the grouping *)

Lemma split_loop_cons max_len line rest chunks current_chunk :
  split_loop max_len (line :: rest) chunks current_chunk =
    if len current_chunk + len line + 1 >? max_len then
      split_loop max_len rest
        (if truthy current_chunk then chunks ++ [current_chunk] else chunks)%list
        line
    else
      split_loop max_len rest chunks
        (if truthy current_chunk then current_chunk +++ nl +++ line else line).
Proof. reflexivity. Qed.

Lemma split_loop_groups max_len lines : forall chunks g,
  g <> [] ->
  truthy (J g) = true ->
  Forall (fun l => l <> EmptyString) lines ->
  exists chunks' current_chunk,
    split_loop max_len lines chunks (J g) = (chunks', current_chunk) /\
    truthy current_chunk = true /\
    (chunks' ++ [current_chunk] =
     chunks ++ map J (greedy_groups max_len g lines))%list.
Proof.
  induction lines as [|l lines IH]; intros chunks g Hg Ht Hl.
  - simpl. eauto.
  - rewrite split_loop_cons. simpl greedy_groups.
    inversion Hl; subst. rewrite Ht.
    destruct (_ >? _).
    + destruct (IH (chunks ++ [J g])%list [l]) as (c' & cur & E & Hc & Hr);
        [discriminate|apply PyFacts.truthy_true; assumption|assumption|].
      simpl join in E. rewrite E. exists c', cur.
      split; [reflexivity|]. split; [assumption|].
      rewrite Hr, <- app_assoc. reflexivity.
    + rewrite <- join_snoc by assumption.
      apply IH; [destruct g; discriminate| |assumption].
      rewrite join_snoc by assumption. apply truthy_append, Ht.
Qed.

(** [_split_message] past its early return, on lines none of which is
    empty. *)
Lemma split_loop_from_start max_len l lines :
  Forall (fun l => l <> EmptyString) (l :: lines) ->
  exists chunks' current_chunk,
    split_loop max_len (l :: lines) [] EmptyString = (chunks', current_chunk) /\
    truthy current_chunk = true /\
    (chunks' ++ [current_chunk])%list =
      map J (greedy_groups max_len [l] lines).
Proof.
  intros Hl. inversion Hl; subst.
  assert (Ht : truthy l = true) by (apply PyFacts.truthy_true; assumption).
  destruct (split_loop_groups max_len lines [] [l]) as (c' & cur & E & Hc & Hr);
    [discriminate|exact Ht|assumption|].
  exists c', cur. rewrite split_loop_cons. simpl truthy. cbv iota.
  simpl join in E.
  destruct (_ >? _); (split; [exact E|split; [exact Hc|exact Hr]]).
Qed.

Lemma split_message_groups self text :
  Forall (fun l => l <> EmptyString) (split_lines text) ->
  exists groups,
    _split_message self text = map J groups /\
    List.concat groups = split_lines text /\
    Forall (fun g => g <> []) groups /\
    greedy (max_chars_per_post self - 10) groups /\
    (Forall (fun l => len l <= max_chars_per_post self - 10)
            (split_lines text) ->
     Forall (fun g => len (J g) <= max_chars_per_post self - 10) groups).
Proof.
  intros Hl. unfold _split_message.
  set (max_len := max_chars_per_post self - 10).
  destruct (split_lines_cons text) as (l & ls & E).
  destruct (len text <=? max_len) eqn:Hshort.
  - exists [split_lines text].
    assert (Ht : truthy text = true).
    { destruct text; [|reflexivity].
      simpl in Hl. inversion Hl; subst. congruence. }
    rewrite Ht. simpl map. rewrite join_split.
    split; [reflexivity|]. split; [apply app_nil_r|].
    split; [constructor; [rewrite E; discriminate|constructor]|].
    split; [exact I|].
    intros _. constructor; [|constructor].
    rewrite join_split. apply Z.leb_le, Hshort.
  - rewrite E in *.
    destruct (split_loop_from_start max_len l ls Hl) as (c' & cur & El & Hc & Hr).
    rewrite El, Hc, Hr.
    exists (greedy_groups max_len [l] ls).
    split; [reflexivity|]. split; [apply greedy_groups_concat|].
    split; [apply greedy_groups_nonempty; discriminate|].
    split; [apply greedy_groups_greedy; discriminate|].
    intros Hb. inversion Hb; subst.
    apply greedy_groups_bound; [discriminate|assumption|assumption].
Qed.


Lemma split_loop_within max_len lines : forall chunks current_chunk,
  Forall (fun c => len c <= max_len) chunks ->
  len current_chunk <= max_len ->
  Forall (fun l => len l <= max_len) lines ->
  Forall (fun c => len c <= max_len)
         (fst (split_loop max_len lines chunks current_chunk)) /\
  len (snd (split_loop max_len lines chunks current_chunk)) <= max_len.
Proof.
  induction lines as [|l lines IH]; intros chunks cur Hc Hcur Hl.
  - simpl. auto.
  - inversion Hl as [|l' lines' Hlen Hrest]; subst.
    rewrite split_loop_cons.
    destruct (Z.gtb_spec (len cur + len l + 1) max_len) as [Hover|Hfit].
    + apply IH; [|assumption|assumption].
      destruct (truthy cur); [|assumption].
      apply Forall_app. split; [assumption|]. constructor; [assumption|constructor].
    + apply IH; [assumption| |assumption].
      destruct (truthy cur); [|assumption].
      rewrite !len_append. change (len nl) with 1. lia.
Qed.

(** No line over the budget, no chunk over the budget; empty lines
    allowed. *)
Lemma split_message_within self text :
  Forall (fun l => len l <= max_chars_per_post self - 10) (split_lines text) ->
  Forall (fun c => len c <= max_chars_per_post self - 10)
         (_split_message self text).
Proof.
  intros Hl. unfold _split_message.
  set (max_len := max_chars_per_post self - 10) in *.
  destruct (Z.leb_spec (len text) max_len) as [Hshort|Hlong].
  - destruct (truthy text); repeat constructor. assumption.
  - assert (H0 : 0 <= max_len).
    { destruct (split_lines_cons text) as (l & ls & E).
      rewrite E in Hl. inversion Hl; subst.
      unfold len in *. lia. }
    destruct (split_loop_within max_len (split_lines text) [] EmptyString)
      as [Hc Hcur]; [constructor|exact H0|assumption|].
    destruct (split_loop max_len (split_lines text) [] EmptyString)
      as [chunks cur].
    simpl in Hc, Hcur. destruct (truthy cur); [|assumption].
    apply Forall_app. split; [assumption|]. repeat constructor. assumption.
Qed.

(** *** The grouping is the packed one, and the only one *)












End SplitMessageProofs.

(** ** The log pipeline: flush, rotation, buffer *)

Module LogSyncServiceProofs.
Import LogSyncService.
Import StateManager(recorded, current_thread_id, current_date, logs_enabled,
                    state_file, Dumped).

Lemma opt_str_neq_same d : Py.opt_str_neq (Some d) (Some d) = false.
Proof. simpl. rewrite String.eqb_refl. reflexivity. Qed.

Lemma opt_str_neq_diff d o : o <> Some d -> Py.opt_str_neq (Some d) o = true.
Proof.
  intros H. destruct o as [d'|]; simpl; [|reflexivity].
  destruct (String.eqb_spec d d'); [subst; congruence|reflexivity].
Qed.

Lemma send_chunks_posts thread chunks :
  forall results,
    Forall (posts_to (id thread)) (fst (send_chunks thread chunks results)).
Proof.
  induction chunks as [|chunk rest IH]; intros results; simpl; [constructor|].
  specialize (IH (tl results)).
  destruct (send_chunks thread rest (tl results)) as [evs raised].
  simpl in IH.
  destruct (hd SendOk results); simpl;
    repeat (constructor; simpl; try reflexivity); assumption.
Qed.

(** [post] changes no field and only sends to its thread. *)
Lemma post_spec self thread logs env evs :
  exists sent raised,
    post self thread logs env evs = (self, evs ++ sent, raised) /\
    Forall (posts_to (id thread)) sent.
Proof.
  unfold post.
  pose proof (send_chunks_posts thread
    (_split_message self (Py.join Py.nl logs)) (sends env)) as H.
  destruct (send_chunks _ _ _) as [sent raised]. eauto.
Qed.

Lemma deliver_same_day self logs env thread :
  _current_thread self = Some thread ->
  _current_date self = Some (today env) ->
  exists evs raised,
    deliver self logs env = (self, evs, raised) /\
    Forall (posts_to (id thread)) evs.
Proof.
  intros Ht Hd. unfold deliver. rewrite Ht, Hd, opt_str_neq_same.
  destruct (post_spec self thread logs env []) as (sent & raised & Hp & Hs).
  rewrite Hp. eauto.
Qed.

(** A flush on the date of the current thread keeps thread, date and state
    manager and only sends to that thread. *)
Lemma flush_same_day self env thread :
  _current_thread self = Some thread ->
  _current_date self = Some (today env) ->
  exists self' evs raised,
    _flush_buffer self env = (self', evs, raised) /\
    _current_thread self' = Some thread /\
    _current_date self' = Some (today env) /\
    _state self' = _state self /\
    Forall (posts_to (id thread)) evs.
Proof.
  intros Ht Hd. unfold _flush_buffer.
  destruct (_log_buffer self) as [|l ls] eqn:Hb.
  - exists self, [], false. repeat split; auto.
  - unfold drain. rewrite Hb. cbv beta iota zeta.
    destruct (deliver_same_day (set_log_buffer self []) (l :: ls) env
                thread Ht Hd)
      as (evs & raised & Hp & Hs).
    rewrite Hp. exists (set_log_buffer self []), evs, raised.
    repeat split; auto.
Qed.

Lemma run_same_day acts : forall self thread d,
  _current_thread self = Some thread ->
  _current_date self = Some d ->
  (forall env, In (Tick env) acts -> today env = d) ->
  Forall (posts_to (id thread)) (snd (run self acts)).
Proof.
  induction acts as [|[line|env] acts IH]; intros self thread d Ht Hd Henv;
    simpl.
  - constructor.
  - apply IH with (d := d); auto. intros env H. apply Henv. now right.
  - assert (He : today env = d) by (apply Henv; now left).
    rewrite <- He in Hd.
    destruct (flush_same_day self env thread Ht Hd)
      as (self' & evs & raised & Hf & Ht' & Hd' & _ & Hevs).
    rewrite Hf.
    specialize (IH self' thread (today env) Ht' Hd').
    destruct (run self' acts) as [self'' later]. simpl in *.
    apply Forall_app. split; [assumption|].
    apply IH. intros env' H. rewrite He. apply Henv. now right.
Qed.

(** C5, refuted as it is written: once a rotation has failed the service has
    no current thread, and a flush then returns right after its drain.  From
    a running service on 2024-01-01 with one buffered line: the flush of
    2024-01-02 fails to create its thread; a line arrives; the flush of
    2024-01-03 finds a buffer that is not empty and a date other than the
    recorded one, and creates no thread, persists nothing and drops the
    line. *)
Lemma flush_without_thread_creates_none :
  let day1 := mk 1900 (StateManager.__init__ StateManager.NoFile) true
                ["a"%string] (Some (mkThread 1 "logs-2024-01-01"))
                (Some "2024-01-01"%string) in
  let env2 := mkEnv "2024-01-02" None [] in
  let env3 := mkEnv "2024-01-03" (Some (mkThread 3 "logs-2024-01-03")) [] in
  let day3 := fst (run day1 [Tick env2; Arrive "x"]) in
  _log_buffer day3 = ["x"%string] /\
  _current_date day3 <> Some (today env3) /\
  recorded (_state day3) = StateManager.BotState_default /\
  _flush_buffer day3 env3 = (set_log_buffer day3 [], [], false).
Proof.
  simpl. repeat split; discriminate.
Qed.

(** C5, amended.  A flush on an empty buffer does nothing.  A flush on a
    buffer that is not empty, by a service that has a current thread, on a
    date other than the recorded one: asks for a new daily thread first; if
    none is created it stops there, with the drained lines gone and nothing
    sent; if one is created it records thread id and date in the state
    manager before any [send], and every [send] of this flush goes to the
    new thread.  So does every [send] of the flushes that follow on that
    date, and they create no further thread. *)
Theorem flush_rotation (self : t) (env : flush_env) (old new : Thread)
  (acts : list action) :
  (_log_buffer self = [] -> _flush_buffer self env = (self, [], false)) /\
  (_log_buffer self <> [] ->
   _current_thread self = Some old ->
   _current_date self <> Some (today env) ->
   created env = None ->
   _flush_buffer self env =
     (set_current_thread
        (set_current_date (set_log_buffer self []) (Some (today env))) None,
      [CreateThread (Some (today env))], false)) /\
  (_log_buffer self <> [] ->
   _current_thread self = Some old ->
   _current_date self <> Some (today env) ->
   created env = Some new ->
   exists rotated sent raised,
     _flush_buffer self env =
       (rotated,
        CreateThread (Some (today env))
          :: UpdateLogs true (Some (id new)) (Some (today env)) :: sent,
        raised) /\
     Forall (posts_to (id new)) sent /\
     _log_buffer rotated = [] /\
     _current_thread rotated = Some new /\
     _current_date rotated = Some (today env) /\
     state_file (_state rotated) = Dumped (recorded (_state rotated)) /\
     logs_enabled (recorded (_state rotated)) = true /\
     current_thread_id (recorded (_state rotated)) = Some (id new) /\
     current_date (recorded (_state rotated)) = Some (today env) /\
     ((forall env', In (Tick env') acts -> today env' = today env) ->
      Forall (posts_to (id new)) (snd (run rotated acts)))).
Proof.
  split; [|split].
  - intros Hb. unfold _flush_buffer. rewrite Hb. reflexivity.
  - intros Hb Ht Hd Hc. unfold _flush_buffer.
    destruct (_log_buffer self) as [|l ls] eqn:Hb'; [congruence|].
    unfold drain. rewrite Hb'. cbv beta iota zeta.
    unfold deliver.
    change (_current_thread (set_log_buffer self [])) with (_current_thread self).
    change (_current_date (set_log_buffer self [])) with (_current_date self).
    rewrite Ht, (opt_str_neq_diff _ _ Hd). simpl. rewrite Hc. reflexivity.
  - intros Hb Ht Hd Hc. unfold _flush_buffer.
    destruct (_log_buffer self) as [|l ls] eqn:Hb'; [congruence|].
    unfold drain. rewrite Hb'. cbv beta iota zeta.
    unfold deliver.
    change (_current_thread (set_log_buffer self [])) with (_current_thread self).
    change (_current_date (set_log_buffer self [])) with (_current_date self).
    rewrite Ht, (opt_str_neq_diff _ _ Hd).
    cbv beta iota zeta.
    change (_current_thread (set_current_thread _ (created env)))
      with (created env).
    rewrite Hc. cbv beta iota zeta.
    match goal with
    | |- context [post ?s new ?logs env ?evs] =>
        destruct (post_spec s new logs env evs)
          as (sent & raised & Hp & Hs);
        rewrite Hp; exists s, sent, raised
    end.
    split; [reflexivity|]. split; [assumption|].
    split; [reflexivity|]. split; [reflexivity|]. split; [reflexivity|].
    cbn [_state set_state _current_date set_current_date set_current_thread
         set_log_buffer].
    rewrite (StateManagerProofs.update_logs_eq (_state self) true
               (Some (id new)) (Some (today env))).
    cbv zeta.
    split; [reflexivity|]. split; [reflexivity|].
    split; [reflexivity|]. split; [reflexivity|].
    intros Henv. apply run_same_day with (d := today env); auto.
Qed.

Lemma flush_rotation_witness :
  let idle := mk 1900 (StateManager.__init__ StateManager.NoFile) true
                [] (Some (mkThread 1 "logs-2024-01-01"))
                (Some "2024-01-01"%string) in
  let day1 := set_log_buffer idle ["a"%string] in
  let new := mkThread 2 "logs-2024-01-02" in
  let failing := mkEnv "2024-01-02" None [] in
  let env := mkEnv "2024-01-02" (Some new) [] in
  let acts := [Arrive "b"; Tick env] in
  _flush_buffer idle env = (idle, [], false) /\
  _flush_buffer day1 failing =
    (set_current_thread
       (set_current_date (set_log_buffer day1 []) (Some (today failing))) None,
     [CreateThread (Some (today failing))], false) /\
  exists rotated sent raised,
    _flush_buffer day1 env =
      (rotated,
       CreateThread (Some (today env))
         :: UpdateLogs true (Some (id new)) (Some (today env)) :: sent,
       raised) /\
    Forall (posts_to (id new)) sent /\
    _log_buffer rotated = [] /\
    _current_thread rotated = Some new /\
    _current_date rotated = Some (today env) /\
    state_file (_state rotated) = Dumped (recorded (_state rotated)) /\
    logs_enabled (recorded (_state rotated)) = true /\
    current_thread_id (recorded (_state rotated)) = Some (id new) /\
    current_date (recorded (_state rotated)) = Some (today env) /\
    ((forall env', In (Tick env') acts -> today env' = today env) ->
     Forall (posts_to (id new)) (snd (run rotated acts))).
Proof.
  intros idle day1 new failing env acts.
  split; [|split].
  - apply (proj1 (flush_rotation idle env (mkThread 1 "logs-2024-01-01")
                    new acts)).
    reflexivity.
  - apply (proj1 (proj2 (flush_rotation day1 failing
                           (mkThread 1 "logs-2024-01-01") new acts)));
      [discriminate|reflexivity|discriminate|reflexivity].
  - apply (proj2 (proj2 (flush_rotation day1 env
                           (mkThread 1 "logs-2024-01-01") new acts)));
      [discriminate|reflexivity|discriminate|reflexivity].
Defined.

Lemma steps_total ops : forall self, exists batches self',
  steps self ops batches self'.
Proof.
  induction ops as [|[line|] ops IH]; intros self.
  - exists [], self. constructor.
  - destruct (IH (_add_to_buffer self line)) as (bs & s' & H).
    exists bs, s'. now constructor.
  - destruct (_log_buffer self) as [|l ls] eqn:Hb.
    + destruct (IH self) as (bs & s' & H).
      exists bs, s'. now apply steps_flush_empty.
    + destruct (IH (fst (drain self))) as (bs & s' & H).
      exists (snd (drain self) :: bs), s'.
      apply steps_flush_drain; [congruence|assumption].
Qed.

(** What goes in comes out once: buffered lines followed by the appended
    ones are the drained batches followed by what is still buffered. *)
Lemma steps_conserve self ops batches self' :
  steps self ops batches self' ->
  _log_buffer self ++ appended ops = List.concat batches ++ _log_buffer self'.
Proof.
  induction 1 as [self|self line ops bs self' _ IH
                  |self ops bs self' Hb _ IH|self ops bs self' Hb _ IH];
    simpl in *.
  - apply app_nil_r.
  - rewrite <- IH, <- app_assoc. reflexivity.
  - exact IH.
  - rewrite <- app_assoc, <- IH. reflexivity.
Qed.

Lemma steps_appends lines : forall self ops batches self',
  steps self (map Append lines ++ ops) batches self' ->
  steps (set_log_buffer self (_log_buffer self ++ lines)) ops batches self'.
Proof.
  induction lines as [|l lines IH]; intros self ops batches self' H; simpl in *.
  - rewrite app_nil_r. destruct self; exact H.
  - inversion H; subst.
    match goal with
    | H' : steps (_add_to_buffer _ _) _ _ _ |- _ => apply IH in H'
    end.
    unfold _add_to_buffer in *. simpl in *.
    rewrite <- app_assoc in *. assumption.
Qed.

(** What follows the drain neither reads nor writes the buffer. *)
Lemma deliver_frame self logs env buffer :
  deliver (set_log_buffer self buffer) logs env =
    (set_log_buffer (fst (fst (deliver self logs env))) buffer,
     snd (fst (deliver self logs env)), snd (deliver self logs env)).
Proof.
  destruct self as [m st r buf th d].
  unfold deliver, post, _split_message, set_log_buffer, set_current_date,
    set_current_thread, set_state.
  cbn [max_chars_per_post _state _running _log_buffer _current_thread
       _current_date].
  destruct th as [t0|]; [|reflexivity].
  destruct (Py.opt_str_neq _ _).
  - destruct (created env) as [t1|]; [|reflexivity].
    destruct (send_chunks _ _ _); reflexivity.
  - destruct (send_chunks _ _ _); reflexivity.
Qed.

Lemma deliver_buffer self logs env :
  _log_buffer (fst (fst (deliver self logs env))) = _log_buffer self.
Proof.
  destruct self as [m st r buf th d].
  unfold deliver, post, set_current_date, set_current_thread, set_state.
  cbn [max_chars_per_post _state _running _log_buffer _current_thread
       _current_date].
  destruct th as [t0|]; [|reflexivity].
  destruct (Py.opt_str_neq _ _).
  - destruct (created env) as [t1|]; [|reflexivity].
    destruct (send_chunks _ _ _); reflexivity.
  - destruct (send_chunks _ _ _); reflexivity.
Qed.

Lemma flush_buffer_drains self env :
  _log_buffer self <> [] ->
  _flush_buffer self env =
    deliver (set_log_buffer self []) (_log_buffer self) env.
Proof.
  intros Hb. unfold _flush_buffer, drain.
  destruct (_log_buffer self); [congruence|reflexivity].
Qed.

Lemma flush_buffer_empties self env :
  _log_buffer (fst (fst (_flush_buffer self env))) = [].
Proof.
  destruct (_log_buffer self) as [|l ls] eqn:Hb.
  - unfold _flush_buffer. rewrite Hb. exact Hb.
  - rewrite flush_buffer_drains by congruence. apply deliver_buffer.
Qed.

Lemma add_lines lines : forall self,
  fold_left _add_to_buffer lines self =
    set_log_buffer self (_log_buffer self ++ lines).
Proof.
  induction lines as [|l lines IH]; intros self; simpl.
  - rewrite app_nil_r. destruct self; reflexivity.
  - rewrite IH. unfold _add_to_buffer, set_log_buffer. simpl.
    rewrite <- app_assoc. reflexivity.
Qed.

(** Lines that arrive amid a flush: the flush does what it does without
    them, and they are what the buffer holds after it. *)
Lemma flush_with_arrivals_spec self env during :
  flush_with_arrivals self env during =
    (fold_left _add_to_buffer during (fst (fst (_flush_buffer self env))),
     snd (fst (_flush_buffer self env)), snd (_flush_buffer self env)) /\
  _log_buffer (fst (fst (flush_with_arrivals self env during))) = during.
Proof.
  assert (E : flush_with_arrivals self env during =
    (fold_left _add_to_buffer during (fst (fst (_flush_buffer self env))),
     snd (fst (_flush_buffer self env)), snd (_flush_buffer self env))).
  { unfold flush_with_arrivals.
    destruct (_log_buffer self) as [|l ls] eqn:Hb.
    - unfold _flush_buffer. rewrite Hb. reflexivity.
    - rewrite flush_buffer_drains by congruence. rewrite Hb.
      unfold drain. rewrite Hb. cbv beta iota zeta.
      rewrite !add_lines. rewrite deliver_buffer.
      apply deliver_frame. }
  split; [exact E|]. rewrite E. cbn [fst snd].
  rewrite add_lines, flush_buffer_empties. reflexivity.
Qed.

(** The drains of the relation are what [_flush_buffer] does to the buffer
    in a run of the service. *)
Lemma steps_run acts : forall self other batches self',
  _log_buffer self = _log_buffer other ->
  steps self (ops_of acts) batches self' ->
  _log_buffer (fst (run other acts)) = _log_buffer self'.
Proof.
  induction acts as [|[line|env] acts IH]; intros self other batches self' Hb H;
    simpl in H; inversion H; subst.
  - simpl. congruence.
  - simpl run.
    match goal with
    | H' : steps (_add_to_buffer _ _) _ _ _ |- _ =>
        apply (IH _ (_add_to_buffer other line) _ _) in H'
    end; [assumption|].
    unfold _add_to_buffer. simpl. congruence.
  - simpl run. unfold _flush_buffer at 1.
    replace (_log_buffer other) with (@nil string) by congruence.
    match goal with
    | H' : steps self (ops_of acts) _ _ |- _ =>
        apply (IH _ other _ _ Hb) in H'
    end.
    destruct (run other acts) as [final later]. assumption.
  - simpl run.
    pose proof (flush_buffer_empties other env) as He.
    destruct (_flush_buffer other env) as [[flushed evs] raised].
    simpl in He.
    match goal with
    | H' : steps (fst (drain self)) (ops_of acts) _ _ |- _ =>
        apply (IH _ flushed _ _) in H'; [|simpl; congruence]
    end.
    destruct (run flushed acts) as [final later]. assumption.
Qed.

(** C6.  Every interleaving of appends and flush drains can run, and in
    each run the drained batches, in order, followed by the lines still
    buffered are the lines buffered at the start followed by the appended
    ones: line for line, nothing is dropped at the drain and nothing is
    drained twice.  Lines appended after one drain and before the next
    (while the first flush sends) are the whole batch of that next drain.
    The drains are those of [_flush_buffer]: whatever happens to the
    thread, the date and the sends, a flush leaves the buffer empty, and
    what it goes on with are the lines the buffer held, all of them.  Lines
    that arrive amid a flush change nothing of what that flush does and
    sends; they are what the buffer holds after it, and the whole of what
    the next flush goes on with.  In a run of the service the buffer ends
    as it does in the run of its appends and drains. *)
Theorem drain_exactly_once (self : t) (ops : list op)
  (lines : list string) (batches : list (list string)) (self' : t)
  (env next : flush_env) (acts : list action) :
  (exists batches0 self0, steps self ops batches0 self0) /\
  (steps self ops batches self' ->
   _log_buffer self ++ appended ops =
     List.concat batches ++ _log_buffer self') /\
  (_log_buffer self <> [] -> lines <> [] ->
   steps self (Flush :: map Append lines ++ [Flush]) batches self' ->
   batches = [_log_buffer self; lines] /\ _log_buffer self' = []) /\
  _log_buffer (fst (fst (_flush_buffer self env))) = [] /\
  (_log_buffer self <> [] ->
   _flush_buffer self env =
     deliver (set_log_buffer self []) (_log_buffer self) env) /\
  flush_with_arrivals self env lines =
    (fold_left _add_to_buffer lines (fst (fst (_flush_buffer self env))),
     snd (fst (_flush_buffer self env)), snd (_flush_buffer self env)) /\
  _log_buffer (fst (fst (flush_with_arrivals self env lines))) = lines /\
  (lines <> [] ->
   _flush_buffer (fst (fst (flush_with_arrivals self env lines))) next =
     deliver (set_log_buffer (fst (fst (flush_with_arrivals self env lines))) [])
             lines next) /\
  (steps self (ops_of acts) batches self' ->
   _log_buffer (fst (run self acts)) = _log_buffer self').
Proof.
  split; [apply steps_total|]. split; [apply steps_conserve|].
  split.
  { intros Hb Hl H.
    inversion H; subst; [congruence|].
    match goal with
    | H' : steps (fst (drain self)) _ _ _ |- _ =>
        apply steps_appends in H'; simpl in H'; inversion H'; subst
    end.
    - simpl in *. congruence.
    - match goal with
      | H' : steps (fst (drain _)) [] _ _ |- _ => inversion H'; subst
      end.
      simpl. auto. }
  split; [apply flush_buffer_empties|].
  split; [apply flush_buffer_drains|].
  destruct (flush_with_arrivals_spec self env lines) as [E Hbuf].
  split; [exact E|]. split; [exact Hbuf|]. split.
  - intros Hl. rewrite flush_buffer_drains by (rewrite Hbuf; exact Hl).
    rewrite Hbuf. reflexivity.
  - apply steps_run. reflexivity.
Qed.

Lemma drain_exactly_once_witness :
  let s := mk 1900 (StateManager.__init__ StateManager.NoFile) true
             ["a"%string] (Some (mkThread 1 "logs")) (Some "2024-01-01"%string)
  in
  let ops := Flush :: map Append ["b"; "c"]%string ++ [Flush] in
  let batches := [["a"]; ["b"; "c"]]%string in
  let env := mkEnv "2024-01-01" None [] in
  let acts := [Tick env; Arrive "b"; Arrive "c"; Tick env]%string in
  steps s ops batches (set_log_buffer s []) /\
  _log_buffer s ++ appended ops =
    List.concat batches ++ _log_buffer (set_log_buffer s []) /\
  batches = [_log_buffer s; ["b"; "c"]%string] /\
  _log_buffer (set_log_buffer s []) = [] /\
  _flush_buffer s env = deliver (set_log_buffer s []) ["a"%string] env /\
  _flush_buffer (fst (fst (flush_with_arrivals s env ["b"; "c"]%string))) env =
    deliver (set_log_buffer s []) ["b"; "c"]%string env /\
  _log_buffer (fst (run s acts)) = [].
Proof.
  intros s ops batches env acts.
  assert (H : steps s ops batches (set_log_buffer s [])).
  { apply (steps_flush_drain s); [discriminate|].
    do 2 apply steps_append.
    apply (steps_flush_drain
             (_add_to_buffer (_add_to_buffer (fst (drain s)) "b") "c"));
      [discriminate|].
    apply steps_done. }
  pose proof (drain_exactly_once s ops ["b"; "c"]%string batches
                (set_log_buffer s []) env env acts)
    as (_ & H2 & H3 & _ & H5 & _ & _ & H8 & H9).
  split; [exact H|]. split; [exact (H2 H)|].
  destruct (H3 ltac:(discriminate) ltac:(discriminate) H) as [H3a H3b].
  split; [exact H3a|]. split; [exact H3b|].
  split; [exact (H5 ltac:(discriminate))|].
  split; [exact (H8 ltac:(discriminate))|].
  exact (H9 H).
Defined.

Lemma flush_recorded_or_rotated self env :
  let flushed := fst (fst (_flush_buffer self env)) in
  _current_date self = Some (today env) \/ _log_buffer self = [] ->
  _state flushed = _state self.
Proof.
  intros flushed [Hd|Hb]; subst flushed.
  - unfold _flush_buffer.
    destruct (_log_buffer self) as [|l ls] eqn:Hb; [reflexivity|].
    unfold drain. rewrite Hb. cbv beta iota zeta. unfold deliver.
    change (_current_thread (set_log_buffer self [])) with (_current_thread self).
    change (_current_date (set_log_buffer self [])) with (_current_date self).
    destruct (_current_thread self) as [th|]; [|reflexivity].
    rewrite Hd, opt_str_neq_same.
    destruct (post_spec (set_log_buffer self []) th (l :: ls) env [])
      as (sent & raised & Hp & _).
    rewrite Hp. reflexivity.
  - unfold _flush_buffer. rewrite Hb. reflexivity.
Qed.

(** C10.  [update_logs] with [thread_id] and [date] left out writes
    [logs_enabled] and nothing else: the state on disk afterwards is the
    state the manager reported before with that one field replaced, so
    thread id, date, dashboard message id and the three last-action fields
    are the old ones.  [stop()] ends with this call, so the thread id and
    date recorded after [stop()] are those recorded after its final flush;
    when [stop()] runs on the recorded date (or with nothing buffered) they
    are those recorded before [stop()]. *)
Theorem update_logs_only_flag (sm : StateManager.t) (enabled : bool)
  (self : t) (env : flush_env) :
  (let b := recorded sm in
   let b' := recorded (StateManager.update_logs sm enabled None None) in
   state_file (StateManager.update_logs sm enabled None None) = Dumped b' /\
   b' = StateManager.set_logs_enabled enabled b /\
   logs_enabled b' = enabled /\
   current_thread_id b' = current_thread_id b /\
   current_date b' = current_date b /\
   StateManager.dashboard_message_id b' = StateManager.dashboard_message_id b /\
   StateManager.last_action_time b' = StateManager.last_action_time b /\
   StateManager.last_action_user b' = StateManager.last_action_user b /\
   StateManager.last_action_type b' = StateManager.last_action_type b) /\
  (let flushed := fst (fst (_flush_buffer (set_running self false) env)) in
   let stopped := fst (fst (stop self env)) in
   current_thread_id (recorded (_state stopped)) =
     current_thread_id (recorded (_state flushed)) /\
   current_date (recorded (_state stopped)) =
     current_date (recorded (_state flushed)) /\
   (snd (stop self env) = false ->
    logs_enabled (recorded (_state stopped)) = false)) /\
  (_current_date self = Some (today env) \/ _log_buffer self = [] ->
   let stopped := fst (fst (stop self env)) in
   current_thread_id (recorded (_state stopped)) =
     current_thread_id (recorded (_state self)) /\
   current_date (recorded (_state stopped)) =
     current_date (recorded (_state self))).
Proof.
  assert (Hstop :
    let flushed := fst (fst (_flush_buffer (set_running self false) env)) in
    let stopped := fst (fst (stop self env)) in
    current_thread_id (recorded (_state stopped)) =
      current_thread_id (recorded (_state flushed)) /\
    current_date (recorded (_state stopped)) =
      current_date (recorded (_state flushed)) /\
    (snd (stop self env) = false ->
     logs_enabled (recorded (_state stopped)) = false)).
  { unfold stop.
    destruct (_flush_buffer (set_running self false) env)
      as [[flushed evs] raised].
    cbv zeta. destruct raised; simpl fst; simpl snd.
    - repeat split; auto. discriminate.
    - cbn [_state set_state].
      rewrite (StateManagerProofs.update_logs_eq (_state flushed) false
                 None None).
      cbv zeta. repeat split. }
  split; [|split].
  - rewrite (StateManagerProofs.update_logs_eq sm enabled None None).
    cbv zeta. repeat split.
  - exact Hstop.
  - intros Hsame. cbv zeta in *.
    destruct Hstop as (Hid & Hdate & _).
    rewrite Hid, Hdate.
    rewrite (flush_recorded_or_rotated (set_running self false) env Hsame).
    split; reflexivity.
Qed.

Lemma update_logs_only_flag_witness :
  let s := mk 1900 (StateManager.mk StateManager.NoFile
                      (Some (StateManager.mkBotState (Some 7%Z) true
                               (Some 42%Z) (Some "2024-01-01"%string)
                               None None None)))
             true ["a"%string] (Some (mkThread 42 "logs-2024-01-01"))
             (Some "2024-01-01"%string) in
  let env := mkEnv "2024-01-01" None [] in
  snd (stop s env) = false /\
  logs_enabled (recorded (_state (fst (fst (stop s env))))) = false /\
  current_thread_id (recorded (_state (fst (fst (stop s env))))) =
    current_thread_id (recorded (_state s)) /\
  current_date (recorded (_state (fst (fst (stop s env))))) =
    current_date (recorded (_state s)).
Proof.
  intros s env.
  pose proof (update_logs_only_flag (_state s) false s env) as (_ & H2 & H3).
  split; [reflexivity|]. split.
  - apply H2. reflexivity.
  - apply H3. left. reflexivity.
Defined.
End LogSyncServiceProofs.

(** ** The stream client: backoff and log extraction *)

Module WebSocketLogClientProofs.
Import WebSocketLogClient.

Lemma client_eta (self : t) :
  mk (_running self) (_connected self) (_log_callback self)
     (_reconnect_delay self) (_max_reconnect_delay self) = self.
Proof. destruct self; reflexivity. Qed.

(** Doubling under the cap follows the specified sequence. *)
Lemma backoff_step (k : nat) :
  Py.min (backoff k * 2)%Q 60 = backoff (S k).
Proof.
  unfold backoff.
  assert (Hp : (2 ^ Z.of_nat (S k) = 2 * 2 ^ Z.of_nat k)%Z).
  { rewrite Nat2Z.inj_succ, Z.pow_succ_r by lia. reflexivity. }
  assert (Hpos : (0 < 2 ^ Z.of_nat k)%Z) by (apply Z.pow_pos_nonneg; lia).
  rewrite Hp. set (p := (2 ^ Z.of_nat k)%Z) in *.
  unfold Py.min, Py.Qltb, inject_Z, Qmult. cbn [Qnum Qden Pos.mul].
  destruct (Z.ltb_spec (60 * 1) (Z.min p 60 * 2 * 1)) as [H|H].
  - f_equal. lia.
  - f_equal. lia.
Qed.

Lemma backoff_0 : backoff 0 = 1%Q.
Proof. reflexivity. Qed.

(** The loop on a client that is running and not connected, turn by
    turn. *)
Lemma reconnect_loop_turn (self : t) (a : attempt) (rest : list attempt) :
  _running self = true ->
  _connected self = false ->
  _reconnect_loop self (a :: rest) =
    match a with
    | Stopped =>
        (set_connected (set_running self false) false,
         [_reconnect_delay self], false)
    | Connect None => (self, [_reconnect_delay self], true)
    | Connect (Some true) =>
        (set_reconnect_delay (set_connected self true) 1,
         [_reconnect_delay self], false)
    | Connect (Some false) =>
        let '(final, sleeps, raised) :=
          _reconnect_loop
            (set_reconnect_delay self
               (Py.min (_reconnect_delay self * 2)%Q
                       (_max_reconnect_delay self))) rest in
        (final, _reconnect_delay self :: sleeps, raised)
    end.
Proof.
  intros Hr Hc. simpl _reconnect_loop. rewrite Hr, Hc. simpl andb. cbv iota.
  destruct a as [|[[|]|]]; reflexivity.
Qed.

(** [n] attempts that return [False], from a loop whose delay stands at
    step [k] of the sequence, and then whatever comes. *)
Lemma reconnect_failures_then (n : nat) :
  forall (k : nat) (self : t) (rest : list attempt),
  _running self = true ->
  _connected self = false ->
  _reconnect_delay self = backoff k ->
  _max_reconnect_delay self = 60%Q ->
  _reconnect_loop self (repeat (Connect (Some false)) n ++ rest) =
    let '(final, sleeps, raised) :=
      _reconnect_loop (set_reconnect_delay self (backoff (k + n))) rest in
    (final, map backoff (seq k n) ++ sleeps, raised).
Proof.
  induction n as [|n IH]; intros k self rest Hr Hc Hd Hm.
  - simpl repeat. simpl app. rewrite Nat.add_0_r, <- Hd.
    unfold set_reconnect_delay. rewrite client_eta.
    destruct (_reconnect_loop self rest) as [[final sleeps] raised].
    reflexivity.
  - simpl repeat. rewrite <- app_comm_cons.
    rewrite (reconnect_loop_turn self _ _ Hr Hc).
    rewrite Hd, Hm, backoff_step.
    rewrite (IH (S k)) by (try reflexivity; assumption).
    rewrite Nat.add_succ_r.
    change (set_reconnect_delay (set_reconnect_delay self (backoff (S k)))
              (backoff (S (k + n))))
      with (set_reconnect_delay self (backoff (S (k + n)))).
    destruct (_reconnect_loop _ rest) as [[final sleeps] raised].
    reflexivity.
Qed.

(** [n] attempts in a row that return [False]. *)
Lemma reconnect_failures (n : nat) (k : nat) (self : t) :
  _running self = true ->
  _connected self = false ->
  _reconnect_delay self = backoff k ->
  _max_reconnect_delay self = 60%Q ->
  _reconnect_loop self (repeat (Connect (Some false)) n) =
    (set_reconnect_delay self (backoff (k + n)), map backoff (seq k n), false).
Proof.
  intros Hr Hc Hd Hm.
  pose proof (reconnect_failures_then n k self [] Hr Hc Hd Hm) as H.
  rewrite app_nil_r in H. rewrite H. simpl _reconnect_loop. cbv iota.
  rewrite app_nil_r. reflexivity.
Qed.

Lemma seq_snoc (k n : nat) : seq k (S n) = seq k n ++ [(k + n)%nat].
Proof. rewrite seq_S. reflexivity. Qed.

(** [n] attempts that return [False] and then one that connects: the loop
    ends, whatever would come next. *)
Lemma reconnect_then_success (n k : nat) (self : t) (later : list attempt) :
  _running self = true ->
  _connected self = false ->
  _reconnect_delay self = backoff k ->
  _max_reconnect_delay self = 60%Q ->
  _reconnect_loop self
    (repeat (Connect (Some false)) n ++ Connect (Some true) :: later) =
    (set_reconnect_delay (set_connected self true) 1,
     map backoff (seq k (S n)), false).
Proof.
  intros Hr Hc Hd Hm.
  rewrite (reconnect_failures_then n k self _ Hr Hc Hd Hm).
  rewrite reconnect_loop_turn by assumption.
  rewrite seq_snoc, map_app. reflexivity.
Qed.

(** [n] attempts that return [False] and then one that raises: the
    exception leaves the loop, whatever would come next. *)
Lemma reconnect_then_raise (n k : nat) (self : t) (later : list attempt) :
  _running self = true ->
  _connected self = false ->
  _reconnect_delay self = backoff k ->
  _max_reconnect_delay self = 60%Q ->
  _reconnect_loop self
    (repeat (Connect (Some false)) n ++ Connect None :: later) =
    (set_reconnect_delay self (backoff (k + n)),
     map backoff (seq k (S n)), true).
Proof.
  intros Hr Hc Hd Hm.
  rewrite (reconnect_failures_then n k self _ Hr Hc Hd Hm).
  rewrite reconnect_loop_turn by assumption.
  rewrite seq_snoc, map_app. reflexivity.
Qed.

(** C7.  [start()] sets the delay to 1 s.  When its connect returns
    [False], the reconnect loop sleeps 1, 2, 4, ... seconds before its
    attempts, doubling after each failure up to 60: before attempt [k + 1]
    it sleeps [min(2^k, 60)].  An attempt fails by returning [False] or by
    raising (the token cannot be refreshed); [n + 1] failed attempts in a
    row are [n] that return [False] and a last one that fails either way,
    and the loop has slept [min(2^k, 60)] for [k = 0 .. n] before them.  An
    attempt that raises ends the loop with its exception: nothing is slept
    or tried after it.  A connect that works sets the delay back to 1 at
    once and ends the loop, so the loop that starts at the next loss of the
    connection sleeps the same sequence from 1 again; so does the loop
    after a [start()] that connected. *)
Theorem reconnect_backoff (self : t) (n m : nat) (last : option bool)
  (later : list attempt) :
  _connected self = false ->
  _max_reconnect_delay self = 60%Q ->
  _reconnect_delay (fst (start self (Some false))) = 1%Q /\
  _reconnect_loop (fst (start self (Some false)))
    (repeat (Connect (Some false)) n) =
    (set_reconnect_delay (fst (start self (Some false))) (backoff n),
     map backoff (seq 0 n), false) /\
  (last <> Some true ->
   snd (fst (_reconnect_loop (fst (start self (Some false)))
               (repeat (Connect (Some false)) n ++ [Connect last]))) =
     map backoff (seq 0 (S n))) /\
  _reconnect_loop (fst (start self (Some false)))
    (repeat (Connect (Some false)) n ++ Connect None :: later) =
    (set_reconnect_delay (fst (start self (Some false))) (backoff n),
     map backoff (seq 0 (S n)), true) /\
  _reconnect_loop (fst (start self (Some false)))
    (repeat (Connect (Some false)) n ++ Connect (Some true) :: later) =
    (set_reconnect_delay
       (set_connected (fst (start self (Some false))) true) 1,
     map backoff (seq 0 (S n)), false) /\
  snd (fst (connection_closed
              (fst (fst (_reconnect_loop (fst (start self (Some false)))
                           (repeat (Connect (Some false)) n ++
                            [Connect (Some true)]))))
              (repeat (Connect (Some false)) m))) = map backoff (seq 0 m) /\
  snd (fst (connection_closed (fst (start self (Some true)))
              (repeat (Connect (Some false)) m))) = map backoff (seq 0 m) /\
  start self None =
    (set_reconnect_delay (set_running self true) 1, None) /\
  map backoff (seq 0 8) = [1; 2; 4; 8; 16; 32; 60; 60]%Q.
Proof.
  intros Hc Hm.
  assert (Hf : fst (start self (Some false)) =
               mk true false (_log_callback self) 1 60).
  { unfold start, connect, set_reconnect_delay, set_running. simpl.
    rewrite Hc, Hm. reflexivity. }
  rewrite Hf.
  split; [reflexivity|].
  split; [apply (reconnect_failures n 0); reflexivity|].
  split.
  { intros Hlast. destruct last as [[|]|]; [congruence| |].
    - change [Connect (Some false)] with (repeat (Connect (Some false)) 1).
      rewrite <- repeat_app.
      rewrite (reconnect_failures (n + 1) 0) by reflexivity.
      rewrite Nat.add_1_r. reflexivity.
    - rewrite (reconnect_then_raise n 0) by reflexivity. reflexivity. }
  split; [apply (reconnect_then_raise n 0); reflexivity|].
  split; [apply (reconnect_then_success n 0); reflexivity|].
  rewrite (reconnect_then_success n 0) by reflexivity.
  split; [|split; [|split; reflexivity]].
  - unfold connection_closed. simpl _running. cbv iota. simpl fst.
    rewrite (reconnect_failures m 0) by reflexivity. reflexivity.
  - unfold connection_closed, start, connect. simpl _running. cbv iota.
    rewrite (reconnect_failures m 0); try reflexivity. simpl. exact Hm.
Qed.

Lemma reconnect_backoff_witness :
  snd (fst (_reconnect_loop (fst (start __init__ (Some false)))
              (repeat (Connect (Some false)) 7 ++ [Connect None]))) =
    [1; 2; 4; 8; 16; 32; 60; 60]%Q /\
  _reconnect_loop (fst (start __init__ (Some false)))
    (repeat (Connect (Some false)) 7 ++
     Connect (Some true) :: [Connect (Some false)]) =
    (mk true true false 1 60, [1; 2; 4; 8; 16; 32; 60; 60]%Q, false).
Proof.
  destruct (reconnect_backoff __init__ 7 0 None [Connect (Some false)]
              eq_refl eq_refl)
    as (_ & _ & H3 & _ & H5 & _ & _ & _ & H9).
  split.
  - rewrite <- H9. apply H3. discriminate.
  - rewrite H5, H9. reflexivity.
Defined.

(** *** Log extraction *)

Lemma first_str_field_found d key v : forall pre post,
  (forall k, In k pre -> forall x, lookup k d <> Some (JStr x)) ->
  lookup key d = Some (JStr v) ->
  first_str_field (pre ++ key :: post) d = Some v.
Proof.
  induction pre as [|k pre IH]; intros post Hpre Hkey; simpl.
  - rewrite Hkey. reflexivity.
  - assert (Hk : forall x, lookup k d <> Some (JStr x))
      by (apply Hpre; now left).
    destruct (lookup k d) as [[| | | |x| |]|];
      try (apply IH; [intros k' Hin; apply Hpre; now right|assumption]).
    exfalso. apply (Hk x). reflexivity.
Qed.

Lemma first_str_field_none d : forall keys,
  (forall k, In k keys -> forall x, lookup k d <> Some (JStr x)) ->
  first_str_field keys d = None.
Proof.
  induction keys as [|k keys IH]; intros H; simpl; [reflexivity|].
  assert (Hk : forall x, lookup k d <> Some (JStr x)) by (apply H; now left).
  destruct (lookup k d) as [[| | | |x| |]|];
    try (apply IH; intros k' Hin; apply H; now right).
  exfalso. apply (Hk x). reflexivity.
Qed.

(** A console envelope hands its [data] entry to the extraction rule. *)
Lemma process_console json_loads json_dumps str self raw message data :
  json_loads raw = Some (JDict message) ->
  lookup "type" message = Some (JStr "console") ->
  lookup "data" message = Some data ->
  _process_message json_loads json_dumps str self raw =
    (emit self (_extract_log_line json_dumps str data), false).
Proof.
  intros Hl Ht Hd. unfold _process_message, dict_get.
  rewrite Hl, Ht, Hd. reflexivity.
Qed.

(** C8.  The extraction rule: a string is returned as it is; of a dict, the
    string under the first key, in the order message, msg, log, line, text,
    data, that is present with a string value; the [json.dumps] of the dict
    when no listed key has a string value; the empty string for null, for
    which the callback is not called.  A console envelope whose data is
    ["Server started"] makes one call of the registered callback, with
    exactly that string. *)
Theorem extract_log_line_rule
  (json_loads : string -> option json) (json_dumps str : json -> string)
  (self : t) (s : string) (d : list (string * json))
  (pre post : list string) (key v raw : string) :
  log_keys = ["message"; "msg"; "log"; "line"; "text"; "data"]%string /\
  _extract_log_line json_dumps str (JStr s) = s /\
  (log_keys = pre ++ key :: post ->
   (forall k, In k pre -> forall x, lookup k d <> Some (JStr x)) ->
   lookup key d = Some (JStr v) ->
   _extract_log_line json_dumps str (JDict d) = v) /\
  ((forall k, In k log_keys -> forall x, lookup k d <> Some (JStr x)) ->
   _extract_log_line json_dumps str (JDict d) = json_dumps (JDict d)) /\
  _extract_log_line json_dumps str JNull = EmptyString /\
  emit self (_extract_log_line json_dumps str JNull) = [] /\
  (json_loads raw =
     Some (JDict [("type", JStr "console"); ("data", JNull)]%string) ->
   _process_message json_loads json_dumps str self raw = ([], false)) /\
  (json_loads raw =
     Some (JDict [("type", JStr "console");
                  ("data", JStr "Server started")]%string) ->
   _log_callback self = true ->
   _process_message json_loads json_dumps str self raw =
     (["Server started"%string], false)).
Proof.
  split; [reflexivity|]. split; [reflexivity|]. split.
  { intros Hk Hpre Hkey. unfold _extract_log_line.
    rewrite Hk, (first_str_field_found d key v pre post Hpre Hkey).
    reflexivity. }
  split.
  { intros Hnone. unfold _extract_log_line.
    rewrite (first_str_field_none d log_keys Hnone). reflexivity. }
  split; [reflexivity|]. split; [reflexivity|]. split.
  - intros Hl.
    rewrite (process_console json_loads json_dumps str self raw _ JNull Hl);
      reflexivity.
  - intros Hl Hcb.
    rewrite (process_console json_loads json_dumps str self raw _
               (JStr "Server started") Hl); try reflexivity.
    unfold emit. rewrite Hcb. reflexivity.
Qed.

Lemma extract_log_line_rule_witness :
  let loads := fun _ : string =>
    Some (JDict [("type", JStr "console");
                 ("data", JStr "Server started")]%string) in
  let nulls := fun _ : string =>
    Some (JDict [("type", JStr "console"); ("data", JNull)]%string) in
  let dumps := fun _ : json => "{}"%string in
  let d := [("msg", JInt 3); ("log", JStr "up"); ("text", JStr "t")]%string in
  let e := [("msg", JInt 3); ("level", JStr "info")]%string in
  _extract_log_line dumps dumps (JDict d) = "up"%string /\
  _extract_log_line dumps dumps (JDict e) = dumps (JDict e) /\
  _process_message nulls dumps dumps (on_log __init__) "raw" = ([], false) /\
  _process_message loads dumps dumps (on_log __init__) "raw" =
    (["Server started"%string], false).
Proof.
  intros loads nulls dumps d e.
  split; [|split; [|split]].
  - apply (proj1 (proj2 (proj2
      (extract_log_line_rule loads dumps dumps (on_log __init__) "s" d
         ["message"; "msg"]%string ["line"; "text"; "data"]%string
         "log" "up" "raw")))).
    + reflexivity.
    + intros k [<-|[<-|[]]] x; discriminate.
    + reflexivity.
  - apply (proj1 (proj2 (proj2 (proj2
      (extract_log_line_rule loads dumps dumps (on_log __init__) "s" e
         [] [] "k" "v" "raw"))))).
    intros k [<-|[<-|[<-|[<-|[<-|[<-|[]]]]]]] x; discriminate.
  - apply (proj1 (proj2 (proj2 (proj2 (proj2 (proj2 (proj2
      (extract_log_line_rule nulls dumps dumps (on_log __init__) "s" d
         [] [] "k" "v" "raw")))))))).
    reflexivity.
  - apply (proj2 (proj2 (proj2 (proj2 (proj2 (proj2 (proj2
      (extract_log_line_rule loads dumps dumps (on_log __init__) "s" d
         [] [] "k" "v" "raw")))))))); reflexivity.
Defined.

End WebSocketLogClientProofs.

(** ** More on the global action lock *)

Module GlobalActionLockRuns.
Import GlobalActionLock.

Lemma granted_past_cooldown self action now1 now2 :
  fst (snd (acquire self action now1 now2)) = true ->
  (cooldown_sec self <= now1 - _last_action_time self)%Q /\
  fst (acquire self action now1 now2) =
    mk (cooldown_sec self) true now2 (Some action).
Proof.
  unfold acquire, lock_acquire, lock_release, set_current_action,
    set_last_action_time; simpl.
  destruct (_lock self); [discriminate|].
  destruct (Py.Qltb _ _) eqn:H; simpl; [discriminate|].
  intros _. split; [apply PyFacts.Qltb_ge, H|reflexivity].
Qed.

Lemma denied_same_state self action now1 now2 :
  fst (snd (acquire self action now1 now2)) = false ->
  fst (acquire self action now1 now2) = self.
Proof.
  unfold acquire, lock_acquire, lock_release, set_current_action,
    set_last_action_time; simpl.
  destruct (_lock self) eqn:Hl; [reflexivity|].
  destruct (Py.Qltb _ _); simpl; [|discriminate].
  intros _. destruct self; simpl in *; subst; reflexivity.
Qed.

Lemma release_keeps_times self :
  cooldown_sec (release self) = cooldown_sec self /\
  _last_action_time (release self) = _last_action_time self.
Proof.
  unfold release, lock_release, set_current_action. simpl.
  destruct (_lock self); split; reflexivity.
Qed.

(** X1.  In every sequence of calls, on any lock, each granted [acquire] had
    its clock reading at least [cooldown_sec] past the grant time stored by
    the grant before it (past the time the lock started with, for the
    first): no two grants come closer than the cooldown, whatever releases
    and denied calls lie between. *)
Theorem grants_keep_cooldown_apart (self : state) (calls : list call) :
  spaced (cooldown_sec self) (_last_action_time self) (grants self calls).
Proof.
  revert self. induction calls as [|c calls IH]; intros self; [exact I|].
  destruct c as [who action now1 now2|]; simpl.
  - destruct (fst (snd (acquire self action now1 now2))) eqn:Hg.
    + destruct (granted_past_cooldown _ _ _ _ Hg) as [Hc Hs].
      simpl. split; [exact Hc|].
      specialize (IH (fst (acquire self action now1 now2))).
      rewrite Hs in *. exact IH.
    + rewrite (denied_same_state _ _ _ _ Hg). apply IH.
  - specialize (IH (release self)).
    destruct (release_keeps_times self) as [Hc Ht].
    rewrite Hc, Ht in IH. exact IH.
Qed.

(** X2.  On a free lock the wait that [get_remaining_cooldown] reports is
    the wait that is needed: it is [0] exactly when an [acquire] at that
    clock reading is granted, it is positive when that [acquire] is denied,
    and an [acquire] issued that much later is granted. *)
Theorem remaining_cooldown_is_the_wait (self : state) (action : string)
  (now now2 : Q) :
  _lock self = false ->
  (fst (snd (acquire self action now now2)) = true <->
   get_remaining_cooldown self now = 0%Q) /\
  (fst (snd (acquire self action now now2)) = false ->
   (0 < get_remaining_cooldown self now)%Q) /\
  fst (snd (acquire self action
              (now + get_remaining_cooldown self now) now2)) = true.
Proof.
  intros Hl. unfold acquire, get_remaining_cooldown, Py.max.
  rewrite Hl. simpl.
  set (last := _last_action_time self). set (cd := cooldown_sec self).
  destruct (Py.Qltb (now - last) cd) eqn:He;
    destruct (Py.Qltb 0 (cd - (now - last))) eqn:Hr; simpl;
    try apply PyFacts.Qltb_lt in He; try apply PyFacts.Qltb_ge in He;
    try apply PyFacts.Qltb_lt in Hr; try apply PyFacts.Qltb_ge in Hr;
    try lra.
  - split; [|split].
    + split; [discriminate|].
      intros H0. rewrite H0 in Hr. exfalso. revert Hr. apply Qlt_irrefl.
    + intros _. exact Hr.
    + destruct (Py.Qltb (now + (cd - (now - last)) - last) cd) eqn:H;
        [|reflexivity].
      apply PyFacts.Qltb_lt in H. lra.
  - split; [|split].
    + split; reflexivity.
    + discriminate.
    + destruct (Py.Qltb (now + 0 - last) cd) eqn:H; [|reflexivity].
      apply PyFacts.Qltb_lt in H. lra.
Qed.

Lemma remaining_cooldown_is_the_wait_witness :
  get_remaining_cooldown (mk 10 false 100 None) 103 = 7%Q /\
  fst (snd (acquire (mk 10 false 100 None) "stop" 103 103)) = false /\
  fst (snd (acquire (mk 10 false 100 None) "stop"
              (103 + get_remaining_cooldown (mk 10 false 100 None) 103) 110))
    = true.
Proof.
  split; [reflexivity|]. split; [reflexivity|].
  apply (remaining_cooldown_is_the_wait (mk 10 false 100 None)
           "stop" 103 110 eq_refl).
Defined.

Lemma step_consistent s c : consistent s -> consistent (step s c).
Proof.
  intros Hs. destruct c as [who action now1 now2|]; simpl.
  - destruct (fst (snd (acquire (lk s) action now1 now2))) eqn:Hg.
    + destruct (granted_past_cooldown _ _ _ _ Hg) as [_ Hst].
      right. simpl. rewrite Hst. simpl. split; [reflexivity|].
      destruct Hs as [[_ Ho]|[Hl' _]].
      * rewrite Ho. eauto.
      * unfold acquire in Hg. rewrite Hl' in Hg. discriminate.
    + rewrite (denied_same_state _ _ _ _ Hg).
      destruct Hs as [[Hl Ho]|[Hl Ho]]; [left|right]; simpl; auto.
  - left. destruct Hs as [[Hl Ho]|[Hl (who & a & Ho & _)]];
      unfold release, lock_release, set_current_action; simpl;
      rewrite Hl, Ho; simpl; auto.
Qed.

Lemma run_consistent calls : forall s, consistent s -> consistent (run s calls).
Proof.
  induction calls as [|c calls IH]; intros s Hs; simpl; [assumption|].
  apply IH, step_consistent, Hs.
Qed.

(** A free lock carries no holder marker. *)
Lemma run_free_unmarked calls : forall s,
  (_lock (lk s) = false -> _current_action (lk s) = None) ->
  _lock (lk (run s calls)) = false ->
  _current_action (lk (run s calls)) = None.
Proof.
  induction calls as [|c calls IH]; intros s Hs; simpl; [assumption|].
  apply IH. destruct c as [who action now1 now2|]; simpl.
  - destruct (fst (snd (acquire (lk s) action now1 now2))) eqn:Hg.
    + destruct (granted_past_cooldown _ _ _ _ Hg) as [_ Hst].
      rewrite Hst. simpl. discriminate.
    + rewrite (denied_same_state _ _ _ _ Hg). exact Hs.
  - intros _. unfold release, lock_release, set_current_action. simpl.
    destruct (_lock (lk s)); reflexivity.
Qed.

(** X3.  On a lock reached by any calls from a new one, the
    [current_action] property is the kind of the grant that is outstanding,
    and [None] when none is. *)
Theorem current_action_is_the_holder (cooldown : Q) (calls : list call) :
  current_action (lk (run (boot cooldown) calls)) =
    option_map snd (hd_error (outstanding (run (boot cooldown) calls))).
Proof.
  unfold current_action.
  assert (Hb : consistent (boot cooldown)) by (left; split; reflexivity).
  destruct (run_consistent calls _ Hb) as [[Hl Ho]|[Hl (who & a & Ho & Ha)]];
    rewrite Hl, Ho; simpl; [reflexivity|exact Ha].
Qed.

(** X4.  [release] is safe when nothing is held: on a free lock reached by
    any calls from a new one it changes nothing at all.  On every lock a
    second [release] changes nothing after the first, and the lock is free
    with no holder marker and its last-grant time untouched. *)
Theorem release_when_free_is_noop (cooldown : Q) (calls : list call)
  (self : state) :
  (_lock (lk (run (boot cooldown) calls)) = false ->
   release (lk (run (boot cooldown) calls)) = lk (run (boot cooldown) calls)) /\
  release (release self) = release self /\
  _lock (release self) = false /\
  _current_action (release self) = None /\
  _last_action_time (release self) = _last_action_time self.
Proof.
  split.
  - intros Hl.
    pose proof (run_free_unmarked calls (boot cooldown)
                  (fun _ => eq_refl) Hl) as Hn.
    destruct (lk (run (boot cooldown) calls)) as [cd l t a].
    simpl in *. subst. reflexivity.
  - unfold release, lock_release, set_current_action. simpl.
    destruct (_lock self); simpl; repeat split; reflexivity.
Qed.

Lemma release_when_free_is_noop_witness :
  release (lk (run (boot 10) [Acquire 1%nat "start" 100 100; Release;
                              Acquire 2%nat "stop" 103 103])) =
    lk (run (boot 10) [Acquire 1%nat "start" 100 100; Release;
                       Acquire 2%nat "stop" 103 103]).
Proof.
  apply (proj1 (release_when_free_is_noop 10
                  [Acquire 1%nat "start" 100 100; Release;
                   Acquire 2%nat "stop" 103 103] (__init__ 10))).
  reflexivity.
Defined.

End GlobalActionLockRuns.

(** ** The per-action lock *)

Module ActionLockProofs.
Import ActionLock.

Lemma get_set_same {V : Type} (d : list (string * V)) key v :
  PyDict.get (PyDict.set d key v) key = Some v.
Proof.
  induction d as [|[k x] d IH]; simpl.
  - rewrite String.eqb_refl. reflexivity.
  - destruct (String.eqb k key) eqn:E; simpl; rewrite E; [reflexivity|exact IH].
Qed.

Lemma get_set_other {V : Type} (d : list (string * V)) key other v :
  key <> other ->
  PyDict.get (PyDict.set d key v) other = PyDict.get d other.
Proof.
  intros Hne. induction d as [|[k x] d IH]; simpl.
  - destruct (String.eqb_spec key other); [congruence|reflexivity].
  - destruct (String.eqb_spec k key) as [->|Hk]; simpl.
    + destruct (String.eqb_spec key other); [congruence|reflexivity].
    + destruct (String.eqb k other); [reflexivity|exact IH].
Qed.

(** What the lock knows about one action. *)
Lemma step_other_action self c other :
  action_of c <> other ->
  cooldown_sec (step self c) = cooldown_sec self /\
  PyDict.get (_locks (step self c)) other = PyDict.get (_locks self) other /\
  PyDict.get (_last_action (step self c)) other =
    PyDict.get (_last_action self) other.
Proof.
  intros Hne. destruct c as [action now1 now2|action]; simpl in *.
  - unfold acquire, _get_lock.
    destruct (PyDict.get (_locks self) action) as [[|]|] eqn:Hg; simpl.
    + auto.
    + destruct (Py.Qltb _ _); simpl;
        rewrite ?get_set_other by assumption; auto.
    + destruct (Py.Qltb _ _); simpl;
        rewrite ?get_set_other by assumption; auto.
  - unfold release.
    destruct (PyDict.get (_locks self) action) as [[|]|]; simpl;
      rewrite ?get_set_other by assumption; auto.
Qed.

Lemma run_other_action calls other : forall self,
  Forall (fun c => action_of c <> other) calls ->
  cooldown_sec (run self calls) = cooldown_sec self /\
  PyDict.get (_locks (run self calls)) other = PyDict.get (_locks self) other /\
  PyDict.get (_last_action (run self calls)) other =
    PyDict.get (_last_action self) other.
Proof.
  induction calls as [|c calls IH]; intros self H; simpl; [auto|].
  inversion H as [|c' calls' Hc Hcalls]; subst.
  destruct (IH (step self c) Hcalls) as (K1 & K2 & K3).
  destruct (step_other_action self c other Hc) as (G1 & G2 & G3).
  rewrite K1, K2, K3. auto.
Qed.

(** X5.  The per-action lock keeps actions apart: after any sequence of
    [acquire] and [release] calls for other actions, an action is locked or
    not as before, has the remaining cooldown it had, and an [acquire] for
    it gets the answer it would have got before.  So a start in progress
    does not hold back a stop. *)
Theorem actions_do_not_interfere (self : state) (calls : list call)
  (other : string) (now1 now2 : Q) :
  Forall (fun c => action_of c <> other) calls ->
  is_locked (run self calls) other = is_locked self other /\
  get_remaining (run self calls) other now1 = get_remaining self other now1 /\
  snd (acquire (run self calls) other now1 now2) =
    snd (acquire self other now1 now2).
Proof.
  intros H. destruct (run_other_action calls other self H) as (H1 & H2 & H3).
  unfold is_locked, get_remaining, acquire, _get_lock.
  rewrite H1, H2, H3. split; [reflexivity|]. split; [reflexivity|].
  destruct (PyDict.get (_locks self) other) as [[|]|]; simpl;
    rewrite ?H1, ?H3; try reflexivity;
    destruct (Py.Qltb _ _); reflexivity.
Qed.

Lemma actions_do_not_interfere_witness :
  snd (acquire (run (__init__ 10) [Acquire "start" 100 100]) "stop" 101 101)
    = true /\
  is_locked (run (__init__ 10) [Acquire "start" 100 100]) "stop" = false.
Proof.
  assert (H : Forall (fun c => action_of c <> "stop"%string)
                     [Acquire "start" 100 100])
    by (repeat constructor; discriminate).
  destruct (actions_do_not_interfere (__init__ 10) [Acquire "start" 100 100]
              "stop" 101 101 H) as (H1 & _ & H3).
  split; [rewrite H3; reflexivity|rewrite H1; reflexivity].
Defined.

Lemma acquire_answer self action now1 now2 :
  snd (acquire self action now1 now2) =
    negb (is_locked self action) &&
    negb (Py.Qltb (now1 - match PyDict.get (_last_action self) action with
                          | Some t => t
                          | None => 0
                          end)%Q (cooldown_sec self)).
Proof.
  unfold acquire, _get_lock, is_locked.
  destruct (PyDict.get (_locks self) action) as [[|]|];
    cbn -[Py.Qltb Qminus]; try reflexivity;
    destruct (Py.Qltb _ _); reflexivity.
Qed.

Lemma acquire_granted_state self action now1 now2 :
  snd (acquire self action now1 now2) = true ->
  PyDict.get (_locks (fst (acquire self action now1 now2))) action
    = Some true /\
  PyDict.get (_last_action (fst (acquire self action now1 now2))) action
    = Some now2 /\
  cooldown_sec (fst (acquire self action now1 now2)) = cooldown_sec self.
Proof.
  unfold acquire, _get_lock.
  destruct (PyDict.get (_locks self) action) as [[|]|];
    cbn -[Py.Qltb Qminus]; try discriminate;
    (destruct (Py.Qltb _ _); cbn -[Py.Qltb Qminus]; [discriminate|];
     intros _; rewrite !get_set_same; auto).
Qed.

Lemma release_state self action :
  is_locked (release self action) action = false /\
  _last_action (release self action) = _last_action self /\
  cooldown_sec (release self action) = cooldown_sec self.
Proof.
  unfold release, is_locked.
  destruct (PyDict.get (_locks self) action) as [[|]|] eqn:Hg; simpl;
    rewrite ?get_set_same, ?Hg; auto.
Qed.

(** X6.  For one action the per-action lock does what the global lock does
    for all: after a granted [acquire] the action is locked and every
    further [acquire] for it is denied and changes nothing; after
    [release] it is free, an [acquire] whose clock reads less than
    [cooldown_sec] past the stored grant time is denied, and one that reads
    [cooldown_sec] or more past it is granted. *)
Theorem one_action_exclusion_and_cooldown (self : state) (action : string)
  (now1 now2 later1 later2 : Q) :
  snd (acquire self action now1 now2) = true ->
  is_locked (fst (acquire self action now1 now2)) action = true /\
  acquire (fst (acquire self action now1 now2)) action later1 later2 =
    (fst (acquire self action now1 now2), false) /\
  is_locked (release (fst (acquire self action now1 now2)) action) action
    = false /\
  ((later1 - now2 < cooldown_sec self)%Q ->
   snd (acquire (release (fst (acquire self action now1 now2)) action)
          action later1 later2) = false) /\
  ((cooldown_sec self <= later1 - now2)%Q ->
   snd (acquire (release (fst (acquire self action now1 now2)) action)
          action later1 later2) = true).
Proof.
  intros Hg.
  destruct (acquire_granted_state self action now1 now2 Hg) as (Hl & Ht & Hc).
  set (held := fst (acquire self action now1 now2)) in *.
  destruct (release_state held action) as (Rl & Rt & Rc).
  split; [unfold is_locked; rewrite Hl; reflexivity|].
  split; [unfold acquire, _get_lock; rewrite Hl; reflexivity|].
  split; [exact Rl|].
  split; intros Hcd; rewrite acquire_answer, Rl, Rt, Rc, Ht, Hc; simpl negb;
    cbv beta iota.
  - apply PyFacts.Qltb_lt in Hcd. rewrite Hcd. reflexivity.
  - apply PyFacts.Qltb_ge in Hcd. rewrite Hcd. reflexivity.
Qed.

Lemma one_action_exclusion_and_cooldown_witness :
  acquire (fst (acquire (__init__ 10) "start" 100 100)) "start" 120 120 =
    (fst (acquire (__init__ 10) "start" 100 100), false) /\
  snd (acquire (release (fst (acquire (__init__ 10) "start" 100 100)) "start")
         "start" 105 105) = false /\
  snd (acquire (release (fst (acquire (__init__ 10) "start" 100 100)) "start")
         "start" 110 110) = true.
Proof.
  pose proof (one_action_exclusion_and_cooldown (__init__ 10) "start"
                100 100 120 120 eq_refl) as (_ & H2 & _).
  pose proof (one_action_exclusion_and_cooldown (__init__ 10) "start"
                100 100 105 105 eq_refl) as (_ & _ & _ & H4 & _).
  pose proof (one_action_exclusion_and_cooldown (__init__ 10) "start"
                100 100 110 110 eq_refl) as (_ & _ & _ & _ & H5).
  split; [exact H2|]. split; [apply H4|apply H5]; vm_compute;
    [reflexivity|discriminate].
Defined.

End ActionLockProofs.

(** ** More on the state manager *)

Module StateManagerRoundTrips.
Import StateManager.

Lemma recorded_saved b : recorded (mk (Dumped b) (Some b)) = b.
Proof. reflexivity. Qed.

(** A field assignment followed by [save], in closed form. *)
Lemma write_closed_form f (self : t) :
  save (assign f self) =
    mk (Dumped (f (recorded self))) (Some (f (recorded self))).
Proof.
  unfold save, assign, recorded, state, load.
  destruct (_state self); reflexivity.
Qed.

Lemma update_dashboard_eq self message_id :
  update_dashboard self message_id =
    mk (Dumped (set_dashboard_message_id (Some message_id) (recorded self)))
       (Some (set_dashboard_message_id (Some message_id) (recorded self))).
Proof. apply write_closed_form. Qed.

Lemma update_last_action_eq self action_type user now_iso :
  update_last_action self action_type user now_iso =
    mk (Dumped (set_last_action (Some now_iso) (Some user) (Some action_type)
                  (recorded self)))
       (Some (set_last_action (Some now_iso) (Some user) (Some action_type)
                (recorded self))).
Proof. apply write_closed_form. Qed.

Lemma update_logs_closed self enabled thread_id date :
  exists b,
    update_logs self enabled thread_id date = mk (Dumped b) (Some b) /\
    logs_enabled b = enabled /\
    current_thread_id b = match thread_id with
                          | Some i => Some i
                          | None => current_thread_id (recorded self)
                          end /\
    current_date b = match date with
                     | Some d => Some d
                     | None => current_date (recorded self)
                     end /\
    dashboard_message_id b = dashboard_message_id (recorded self) /\
    last_action_time b = last_action_time (recorded self) /\
    last_action_user b = last_action_user (recorded self) /\
    last_action_type b = last_action_type (recorded self).
Proof.
  unfold update_logs.
  assert (Ha : forall f s, _state (assign f s) = Some (f (recorded s))).
  { intros f s. unfold assign, recorded, state, load.
    destruct (_state s); reflexivity. }
  assert (Hr : forall s b, _state s = Some b -> recorded s = b).
  { intros s b H. unfold recorded, state. rewrite H. reflexivity. }
  assert (Hs : forall s b, _state s = Some b -> save s = mk (Dumped b) (Some b)).
  { intros s b H. unfold save. rewrite H. reflexivity. }
  pose proof (Ha (set_logs_enabled enabled) self) as H0.
  set (s0 := assign (set_logs_enabled enabled) self) in *.
  destruct thread_id as [i|]; destruct date as [d|].
  - pose proof (Ha (set_current_thread_id (Some i)) s0) as H1.
    rewrite (Hr _ _ H0) in H1.
    pose proof (Ha (set_current_date (Some d))
                  (assign (set_current_thread_id (Some i)) s0)) as H2.
    rewrite (Hr _ _ H1) in H2.
    eexists. split; [apply Hs, H2|]. simpl. repeat split.
  - pose proof (Ha (set_current_thread_id (Some i)) s0) as H1.
    rewrite (Hr _ _ H0) in H1.
    eexists. split; [apply Hs, H1|]. simpl. repeat split.
  - pose proof (Ha (set_current_date (Some d)) s0) as H1.
    rewrite (Hr _ _ H0) in H1.
    eexists. split; [apply Hs, H1|]. simpl. repeat split.
  - eexists. split; [apply Hs, H0|]. simpl. repeat split.
Qed.

Lemma clear_logs_eq self :
  clear_logs self =
    mk (Dumped (mkBotState (dashboard_message_id (recorded self)) false
                  None None (last_action_time (recorded self))
                  (last_action_user (recorded self))
                  (last_action_type (recorded self))))
       (Some (mkBotState (dashboard_message_id (recorded self)) false
                None None (last_action_time (recorded self))
                (last_action_user (recorded self))
                (last_action_type (recorded self)))).
Proof.
  unfold clear_logs, save, assign, recorded, state, load.
  destruct (_state self); reflexivity.
Qed.

(** X7.  What a writer stored survives a restart: after [update_dashboard],
    [update_logs], [update_last_action] or [clear_logs], a new manager
    opened on the file that was written reports the very state the old
    manager reports. *)
Theorem restart_reports_what_was_written (self : t) (message_id : Z)
  (enabled : bool) (thread_id : option Z) (date : option string)
  (action_type user now_iso : string) :
  recorded (__init__ (state_file (update_dashboard self message_id))) =
    recorded (update_dashboard self message_id) /\
  recorded (__init__ (state_file (update_logs self enabled thread_id date))) =
    recorded (update_logs self enabled thread_id date) /\
  recorded (__init__ (state_file
              (update_last_action self action_type user now_iso))) =
    recorded (update_last_action self action_type user now_iso) /\
  recorded (__init__ (state_file (clear_logs self))) =
    recorded (clear_logs self).
Proof.
  rewrite update_dashboard_eq, update_last_action_eq, clear_logs_eq.
  destruct (update_logs_closed self enabled thread_id date) as (b & -> & _).
  repeat split.
Qed.

(** A state file that is missing or that cannot be read is replaced
    without notice: a manager opened on it reports the defaults, and its
    first write stores the defaults with the written field set.  Calling
    [save] before anything was loaded writes nothing. *)
Theorem unreadable_file_starts_from_defaults (f : file) (message_id : Z)
  (enabled : bool) :
  (f = NoFile \/ f = BadFile) ->
  recorded (__init__ f) = BotState_default /\
  state_file (update_dashboard (__init__ f) message_id) =
    Dumped (set_dashboard_message_id (Some message_id) BotState_default) /\
  state_file (update_logs (__init__ f) enabled None None) =
    Dumped (set_logs_enabled enabled BotState_default) /\
  save (__init__ f) = __init__ f.
Proof.
  intros [->| ->]; repeat split.
Qed.

Lemma unreadable_file_starts_from_defaults_witness :
  state_file (update_dashboard (__init__ BadFile) 7) =
    Dumped (mkBotState (Some 7%Z) false None None None None None).
Proof.
  apply (unreadable_file_starts_from_defaults BadFile 7 true). now right.
Defined.

(** X8.  The three writers of the bot act on separate fields and do not
    disturb one another: in either order, [update_dashboard] and
    [update_last_action], [update_dashboard] and [update_logs], and
    [update_logs] and [update_last_action] leave the same manager and the
    same file. *)
Theorem writers_commute (self : t) (message_id : Z) (enabled : bool)
  (thread_id : option Z) (date : option string)
  (action_type user now_iso : string) :
  update_dashboard (update_last_action self action_type user now_iso)
                   message_id =
    update_last_action (update_dashboard self message_id)
                       action_type user now_iso /\
  update_dashboard (update_logs self enabled thread_id date) message_id =
    update_logs (update_dashboard self message_id) enabled thread_id date /\
  update_last_action (update_logs self enabled thread_id date)
                     action_type user now_iso =
    update_logs (update_last_action self action_type user now_iso)
                enabled thread_id date.
Proof.
  assert (Hlogs : forall s, update_logs s enabled thread_id date =
    mk (Dumped
          (mkBotState (dashboard_message_id (recorded s)) enabled
             match thread_id with
             | Some i => Some i
             | None => current_thread_id (recorded s)
             end
             match date with
             | Some d => Some d
             | None => current_date (recorded s)
             end
             (last_action_time (recorded s)) (last_action_user (recorded s))
             (last_action_type (recorded s))))
       (Some
          (mkBotState (dashboard_message_id (recorded s)) enabled
             match thread_id with
             | Some i => Some i
             | None => current_thread_id (recorded s)
             end
             match date with
             | Some d => Some d
             | None => current_date (recorded s)
             end
             (last_action_time (recorded s)) (last_action_user (recorded s))
             (last_action_type (recorded s))))).
  { intros s.
    destruct (update_logs_closed s enabled thread_id date)
      as (b & -> & H1 & H2 & H3 & H4 & H5 & H6 & H7).
    destruct b; simpl in *; subst; reflexivity. }
  rewrite !Hlogs, !update_dashboard_eq, !update_last_action_eq.
  rewrite !recorded_saved. repeat split.
Qed.

(** [clear_logs] forgets the log thread: whatever was recorded, the
    recorded state afterwards has logging off, no thread id and no date,
    and the dashboard message id and last-action fields it had.  After it
    even an [update_logs] that only sets the flag leaves no thread to
    resume. *)
Theorem clear_logs_forgets_thread (self : t) (enabled : bool) :
  recorded (clear_logs self) =
    mkBotState (dashboard_message_id (recorded self)) false None None
      (last_action_time (recorded self)) (last_action_user (recorded self))
      (last_action_type (recorded self)) /\
  state_file (clear_logs self) = Dumped (recorded (clear_logs self)) /\
  current_thread_id
    (recorded (update_logs (clear_logs self) enabled None None)) = None /\
  current_date
    (recorded (update_logs (clear_logs self) enabled None None)) = None.
Proof.
  rewrite clear_logs_eq. split; [reflexivity|]. split; [reflexivity|].
  destruct (update_logs_closed
    (mk (Dumped (mkBotState (dashboard_message_id (recorded self)) false
                   None None (last_action_time (recorded self))
                   (last_action_user (recorded self))
                   (last_action_type (recorded self))))
        (Some (mkBotState (dashboard_message_id (recorded self)) false
                 None None (last_action_time (recorded self))
                 (last_action_user (recorded self))
                 (last_action_type (recorded self))))) enabled None None)
    as (b & -> & _ & H2 & H3 & _).
  rewrite recorded_saved. split; assumption.
Qed.

End StateManagerRoundTrips.

(** ** What a flush posts *)

Module LogSyncPostsProofs.
Import LogSyncService.
Import Py.

Local Open Scope Z_scope.

#[local] Set Warnings "-notation-for-abbreviation".
Local Notation J := (join nl).
Local Notation "a +++ b" := (String.append a b)
  (at level 60, right associativity).

Lemma len_fence chunk : len (fence chunk) = len chunk + 8.
Proof.
  unfold fence. rewrite !SplitMessageProofs.len_append.
  change (len nl) with 1. change (len "```") with 3. lia.
Qed.

Lemma send_chunks_within thread limit chunks : forall results,
  Forall (fun c => len c <= limit) chunks ->
  Forall (within (limit + 8)) (fst (send_chunks thread chunks results)).
Proof.
  induction chunks as [|chunk rest IH]; intros results H; simpl; [constructor|].
  inversion H as [|c cs Hc Hrest]; subst.
  specialize (IH (tl results) Hrest).
  assert (Hw : within (limit + 8) (Send thread (fence chunk))).
  { simpl. rewrite len_fence. lia. }
  destruct (send_chunks thread rest (tl results)) as [evs raised].
  simpl in IH.
  destruct (hd SendOk results); simpl;
    repeat (constructor; [exact Hw || exact I|]); assumption || constructor.
Qed.

Lemma split_message_same_budget s1 s2 text :
  max_chars_per_post s1 = max_chars_per_post s2 ->
  _split_message s1 text = _split_message s2 text.
Proof. intros H. unfold _split_message. rewrite H. reflexivity. Qed.

Lemma post_events self thread logs env evs :
  post self thread logs env evs =
    (self,
     evs ++ fst (send_chunks thread (_split_message self (J logs)) (sends env)),
     snd (send_chunks thread (_split_message self (J logs)) (sends env))).
Proof.
  unfold post. destruct (send_chunks _ _ _); reflexivity.
Qed.

(** The events of a flush are some bookkeeping followed by the sends of the
    split of the joined buffer, or no sends at all. *)
Lemma flush_events self env :
  (exists thread pre,
     snd (fst (_flush_buffer self env)) =
       pre ++ fst (send_chunks thread
                     (_split_message self (J (_log_buffer self))) (sends env))
     /\ Forall (within 0) pre) \/
  Forall (within 0) (snd (fst (_flush_buffer self env))).
Proof.
  unfold _flush_buffer.
  destruct (_log_buffer self) as [|l ls] eqn:Hb; [right; constructor|].
  unfold drain. rewrite Hb. cbv beta iota zeta. unfold deliver.
  change (_current_thread (set_log_buffer self [])) with (_current_thread self).
  change (_current_date (set_log_buffer self [])) with (_current_date self).
  destruct (_current_thread self) as [th|]; [|right; constructor].
  destruct (opt_str_neq _ _).
  - cbv beta iota zeta.
    change (_current_thread (set_current_thread _ (created env)))
      with (created env).
    destruct (created env) as [new|].
    + cbv beta iota zeta. rewrite post_events. cbn [fst snd].
      left. eexists new, _. split.
      * rewrite (split_message_same_budget _ self) by reflexivity.
        reflexivity.
      * repeat constructor.
    + right. repeat constructor.
  - rewrite post_events. cbn [fst snd]. left.
    exists th, []. split; [|constructor].
    rewrite (split_message_same_budget _ self) by reflexivity. reflexivity.
Qed.

(** X9.  The fence costs 8 characters and the reserve is 10: when no line
    of the joined buffer is longer than [max_chars_per_post - 10], every
    message a flush sends, on any path, is at most
    [max_chars_per_post - 2] characters long. *)
Theorem flush_messages_fit (self : t) (env : flush_env) :
  Forall (fun l => len l <= max_chars_per_post self - 10)
         (split_lines (J (_log_buffer self))) ->
  Forall (within (max_chars_per_post self - 2))
         (snd (fst (_flush_buffer self env))).
Proof.
  intros Hl.
  assert (Hmono : forall evs, Forall (within 0) evs ->
                  Forall (within (max_chars_per_post self - 2)) evs).
  { intros evs H. induction H as [|ev evs Hev _ IH]; constructor; [|exact IH].
    destruct ev; simpl in *; try exact I.
    assert (0 <= max_chars_per_post self - 10).
    { destruct (SplitMessageProofs.split_lines_cons (J (_log_buffer self)))
        as (l & ls & E).
      rewrite E in Hl. inversion Hl; subst. unfold len in *. lia. }
    lia. }
  destruct (flush_events self env) as [(thread & pre & E & Hpre)|H].
  - rewrite E. apply Forall_app. split; [apply Hmono, Hpre|].
    replace (max_chars_per_post self - 2)
      with (max_chars_per_post self - 10 + 8) by lia.
    apply send_chunks_within, SplitMessageProofs.split_message_within, Hl.
  - apply Hmono, H.
Qed.

Lemma flush_messages_fit_witness :
  let s := mk 20 (StateManager.__init__ StateManager.NoFile) true
             ["abcdef"; "ghijkl"]%string (Some (mkThread 1 "logs"))
             (Some "2024-01-01"%string) in
  let env := mkEnv "2024-01-01" None [] in
  snd (fst (_flush_buffer s env)) =
    [Send (mkThread 1 "logs") (fence "abcdef");
     Send (mkThread 1 "logs") (fence "ghijkl")] /\
  Forall (within 18) (snd (fst (_flush_buffer s env))).
Proof.
  intros s env. split; [reflexivity|].
  apply (flush_messages_fit s env).
  repeat constructor; vm_compute; discriminate.
Defined.

(** *** The sending loop *)

Lemma first_tries_send thread content evs :
  first_tries (Send thread content :: evs) = content :: first_tries evs.
Proof. reflexivity. Qed.

Lemma first_tries_retry thread content evs :
  first_tries (Sleep :: Send thread content :: evs) = first_tries evs.
Proof. reflexivity. Qed.

(** X10.  Unless a [send] is forbidden or raises something unforeseen, the
    sending loop tries every chunk, first chunk first, each with its fence,
    and ends without raising.  The trace is, chunk after chunk: for a chunk
    whose [send] is answered with 429, that [send], one sleep, and a second
    [send] of the same fenced chunk; for every other chunk its one [send];
    and nothing else.  When every [send] succeeds the trace is one [send]
    per chunk. *)
Theorem every_chunk_is_tried_in_order (thread : Thread)
  (chunks : list string) (results : list send_result) :
  (Forall (fun r => r <> SendForbidden /\ r <> SendRaises) results ->
   send_chunks thread chunks results =
     (flat_map
        (fun tried : string * send_result =>
           match snd tried with
           | SendRateLimited =>
               [Send thread (fence (fst tried)); Sleep;
                Send thread (fence (fst tried))]
           | _ => [Send thread (fence (fst tried))]
           end)
        (combine chunks
           (results ++
            repeat SendOk (List.length chunks - List.length results))),
      false) /\
   first_tries (fst (send_chunks thread chunks results)) = map fence chunks /\
   snd (send_chunks thread chunks results) = false /\
   List.length
     (filter (fun ev => match ev with Sleep => true | _ => false end)
             (fst (send_chunks thread chunks results))) =
   List.length
     (filter (fun r => match r with SendRateLimited => true | _ => false end)
             (firstn (List.length chunks) results))) /\
  (Forall (fun r => r = SendOk) results ->
   send_chunks thread chunks results =
     (map (fun chunk => Send thread (fence chunk)) chunks, false)).
Proof.
  split; [intros H; split|].
  - revert results H.
    induction chunks as [|chunk rest IH]; intros results H.
    + reflexivity.
    + assert (Htl : Forall (fun r => r <> SendForbidden /\ r <> SendRaises)
                           (tl results))
        by (destruct results; [constructor|inversion H; assumption]).
      specialize (IH (tl results) Htl). simpl send_chunks. rewrite IH.
      destruct results as [|r results]; simpl hd; simpl tl.
      * simpl List.length. rewrite Nat.sub_0_r. reflexivity.
      * inversion H as [|r' rs [Hf Hr] Hrest]; subst.
        destruct r; try congruence; reflexivity.
  - revert results H.
    induction chunks as [|chunk rest IH]; intros results H.
    + simpl. auto.
    + assert (Htl : Forall (fun r => r <> SendForbidden /\ r <> SendRaises)
                           (tl results))
        by (destruct results; [constructor|inversion H; assumption]).
      specialize (IH (tl results) Htl). simpl send_chunks.
      destruct (send_chunks thread rest (tl results)) as [evs raised].
      simpl in IH. destruct IH as (I1 & I2 & I3).
      destruct results as [|r results]; simpl hd; simpl tl in *.
      * simpl. rewrite I1, I2, I3. rewrite firstn_nil. auto.
      * inversion H as [|r' rs [Hf Hr] Hrest]; subst.
        destruct r; try congruence; simpl;
          rewrite ?I1, ?I2, ?I3; auto.
  - revert results. induction chunks as [|chunk rest IH]; intros results H.
    + reflexivity.
    + assert (Htl : Forall (fun r => r = SendOk) (tl results))
        by (destruct results; [constructor|inversion H; assumption]).
      simpl send_chunks. rewrite (IH (tl results) Htl).
      destruct results as [|r results]; [reflexivity|].
      inversion H; subst. reflexivity.
Qed.

Lemma every_chunk_is_tried_in_order_witness :
  send_chunks (mkThread 1 "logs") ["a"; "b"; "c"]%string
    [SendOk; SendRateLimited] =
    ([Send (mkThread 1 "logs") (fence "a");
      Send (mkThread 1 "logs") (fence "b"); Sleep;
      Send (mkThread 1 "logs") (fence "b");
      Send (mkThread 1 "logs") (fence "c")], false) /\
  send_chunks (mkThread 1 "logs") ["a"; "b"]%string [SendOk] =
    (map (fun chunk => Send (mkThread 1 "logs") (fence chunk))
         ["a"; "b"]%string, false).
Proof.
  split.
  - apply (proj1 (proj1 (every_chunk_is_tried_in_order (mkThread 1 "logs")
                    ["a"; "b"; "c"]%string [SendOk; SendRateLimited])
                  ltac:(repeat constructor; discriminate))).
  - apply (proj2 (every_chunk_is_tried_in_order (mkThread 1 "logs")
                    ["a"; "b"]%string [SendOk])).
    repeat constructor.
Defined.

(** X11.  A forbidden [send], and one that raises, end the loop: after [k]
    sends that succeeded, the chunk that follows is tried once and no later
    chunk is tried.  Only the raising one makes the flush raise. *)
Theorem forbidden_send_ends_the_loop (thread : Thread)
  (chunks : list string) (k : nat) (r : send_result)
  (rest : list send_result) :
  (k < List.length chunks)%nat ->
  r = SendForbidden \/ r = SendRaises ->
  send_chunks thread chunks (repeat SendOk k ++ r :: rest) =
    (map (fun chunk => Send thread (fence chunk)) (firstn (S k) chunks),
     match r with SendRaises => true | _ => false end).
Proof.
  revert chunks. induction k as [|k IH]; intros chunks Hk Hr.
  - destruct chunks as [|chunk more]; [simpl in Hk; lia|].
    destruct Hr as [-> | ->]; reflexivity.
  - destruct chunks as [|chunk more]; [simpl in Hk; lia|].
    simpl repeat. simpl app. simpl send_chunks.
    rewrite IH by (simpl in Hk; lia || assumption). reflexivity.
Qed.

Lemma forbidden_send_ends_the_loop_witness :
  send_chunks (mkThread 1 "logs") ["a"; "b"; "c"]%string
              [SendOk; SendForbidden; SendOk] =
    ([Send (mkThread 1 "logs") (fence "a");
      Send (mkThread 1 "logs") (fence "b")], false).
Proof.
  apply (forbidden_send_ends_the_loop (mkThread 1 "logs")
           ["a"; "b"; "c"]%string 1 SendForbidden [SendOk]).
  - simpl. lia.
  - now left.
Defined.

End LogSyncPostsProofs.

(** ** From buffer to thread *)

Module LogSyncDeliveryProofs.
Import LogSyncService.
Import Py.

#[local] Set Warnings "-notation-for-abbreviation".
Local Notation J := (join nl).
Local Notation "a +++ b" := (String.append a b)
  (at level 60, right associativity).

Lemma split_one_line s : PyText.one_line s = true -> split_lines s = [s].
Proof.
  induction s as [|c s IH]; simpl; [reflexivity|].
  destruct (Ascii.eqb c "010"); simpl; [discriminate|].
  intros H. rewrite (IH H). reflexivity.
Qed.

Lemma split_line_feed_rest a rest :
  PyText.one_line a = true ->
  split_lines (a +++ String "010"%char rest) = a :: split_lines rest.
Proof.
  induction a as [|c a IH]; simpl; [reflexivity|].
  destruct (Ascii.eqb c "010"); simpl; [discriminate|].
  intros H. rewrite (IH H). reflexivity.
Qed.

Lemma split_line_then_rest a rest :
  PyText.one_line a = true ->
  split_lines (a +++ nl +++ rest) = a :: split_lines rest.
Proof. exact (split_line_feed_rest a rest). Qed.

Lemma split_join lines :
  lines <> [] ->
  Forall (fun l => PyText.one_line l = true) lines ->
  split_lines (J lines) = lines.
Proof.
  induction lines as [|l lines IH]; intros Hne Hl; [congruence|].
  inversion Hl as [|l' ls Hone Hrest]; subst.
  destruct lines as [|l2 lines].
  - simpl. apply split_one_line, Hone.
  - rewrite SplitMessageProofs.join_cons by discriminate.
    rewrite split_line_then_rest by assumption.
    rewrite IH; [reflexivity|discriminate|assumption].
Qed.

Lemma split_pieces_one_line text :
  Forall (fun l => PyText.one_line l = true) (split_lines text).
Proof.
  induction text as [|c text IH]; simpl; [repeat constructor|].
  destruct (Ascii.eqb c "010") eqn:Hc.
  - constructor; [reflexivity|exact IH].
  - destruct (split_lines text) as [|l ls]; [repeat constructor; simpl; now rewrite Hc|].
    inversion IH; subst. constructor; [|assumption].
    simpl. rewrite Hc. assumption.
Qed.

(** X12.  Splitting at line feeds and joining with line feeds undo each
    other: the pieces of any text join back to the text, none of them holds
    a line feed, and a list of lines, at least one and none holding a line
    feed, is what its join splits into. *)
Theorem split_and_join_round_trip (text : string) (lines : list string) :
  J (split_lines text) = text /\
  Forall (fun l => PyText.one_line l = true) (split_lines text) /\
  (lines <> [] ->
   Forall (fun l => PyText.one_line l = true) lines ->
   split_lines (J lines) = lines).
Proof.
  split; [apply SplitMessageProofs.join_split|].
  split; [apply split_pieces_one_line|apply split_join].
Qed.

Lemma split_and_join_round_trip_witness :
  split_lines (J ["ab"; EmptyString; "c"]%string) =
    ["ab"; EmptyString; "c"]%string.
Proof.
  apply (split_and_join_round_trip EmptyString ["ab"; EmptyString; "c"]%string).
  - discriminate.
  - repeat constructor.
Defined.

Lemma send_chunks_all_ok thread chunks : forall results,
  Forall (fun r => r = SendOk) results ->
  send_chunks thread chunks results =
    (map (fun chunk => Send thread (fence chunk)) chunks, false).
Proof.
  induction chunks as [|chunk rest IH]; intros results H; [reflexivity|].
  assert (Htl : Forall (fun r => r = SendOk) (tl results))
    by (destruct results; [constructor|inversion H; assumption]).
  simpl send_chunks. rewrite (IH (tl results) Htl).
  destruct results as [|r results]; [reflexivity|].
  inversion H; subst. reflexivity.
Qed.

(** A flush on the date of the current thread, in closed form. *)
Lemma flush_same_day_events self env thread :
  _log_buffer self <> [] ->
  _current_thread self = Some thread ->
  _current_date self = Some (today env) ->
  _flush_buffer self env =
    (set_log_buffer self [],
     fst (send_chunks thread (_split_message self (J (_log_buffer self)))
            (sends env)),
     snd (send_chunks thread (_split_message self (J (_log_buffer self)))
            (sends env))).
Proof.
  intros Hb Ht Hd. unfold _flush_buffer.
  destruct (_log_buffer self) as [|l ls] eqn:Hbuf; [congruence|].
  unfold drain. rewrite Hbuf. cbv beta iota zeta. unfold deliver.
  change (_current_thread (set_log_buffer self [])) with (_current_thread self).
  change (_current_date (set_log_buffer self [])) with (_current_date self).
  rewrite Ht, Hd, LogSyncServiceProofs.opt_str_neq_same.
  rewrite LogSyncPostsProofs.post_events. reflexivity.
Qed.

(** X13.  On the date of the current thread, with every [send] succeeding,
    a flush of buffered lines that are not empty and hold no line feed
    posts each of them exactly once, in the order they were buffered: the
    messages are the fenced joins of consecutive groups of lines that
    together are the buffer, and the buffer is empty afterwards. *)
Theorem flush_posts_every_line_once (self : t) (env : flush_env)
  (thread : Thread) :
  _log_buffer self <> [] ->
  _current_thread self = Some thread ->
  _current_date self = Some (today env) ->
  Forall (fun l => l <> EmptyString /\ PyText.one_line l = true)
         (_log_buffer self) ->
  Forall (fun r => r = SendOk) (sends env) ->
  exists groups,
    List.concat groups = _log_buffer self /\
    Forall (fun g => g <> []) groups /\
    _flush_buffer self env =
      (set_log_buffer self [],
       map (fun g => Send thread (fence (J g))) groups, false).
Proof.
  intros Hb Ht Hd Hl Hs.
  assert (Hsplit : split_lines (J (_log_buffer self)) = _log_buffer self).
  { apply split_join; [assumption|].
    eapply Forall_impl; [|exact Hl]. intros l [_ H]. exact H. }
  destruct (SplitMessageProofs.split_message_groups self
              (J (_log_buffer self))) as (groups & E & Hc & Hn & _).
  { rewrite Hsplit. eapply Forall_impl; [|exact Hl]. intros l [H _]. exact H. }
  exists groups. split; [rewrite Hc; exact Hsplit|]. split; [exact Hn|].
  rewrite (flush_same_day_events self env thread Hb Ht Hd).
  rewrite E, (send_chunks_all_ok thread (map J groups) (sends env) Hs).
  rewrite map_map. reflexivity.
Qed.

Lemma flush_posts_every_line_once_witness :
  let s := mk 20 (StateManager.__init__ StateManager.NoFile) true
             ["ab"; "cd"; "efghij"]%string (Some (mkThread 1 "logs"))
             (Some "2024-01-01"%string) in
  let env := mkEnv "2024-01-01" None [] in
  exists groups,
    List.concat groups = _log_buffer s /\
    Forall (fun g => g <> []) groups /\
    _flush_buffer s env =
      (set_log_buffer s [],
       map (fun g => Send (mkThread 1 "logs") (fence (J g))) groups, false).
Proof.
  intros s env.
  apply (flush_posts_every_line_once s env (mkThread 1 "logs")).
  - discriminate.
  - reflexivity.
  - reflexivity.
  - repeat constructor; discriminate.
  - constructor.
Defined.

End LogSyncDeliveryProofs.

(** ** Starting, stopping and resuming the log pipeline *)

Module LogSyncLifecycleProofs.
Import LogSyncService LogSyncLifecycle.
Import StateManager(recorded, current_thread_id, current_date, logs_enabled,
                    state_file, Dumped).

(** *** Blank lines *)

Lemma lstrip_blank s : PyText.blank s = true -> PyText.lstrip s = EmptyString.
Proof.
  induction s as [|c s IH]; simpl; [reflexivity|].
  destruct (PyText.isspace c); simpl; [exact IH|discriminate].
Qed.

Lemma lstrip_not_blank s :
  PyText.blank s = false ->
  exists c rest,
    PyText.lstrip s = String c rest /\ PyText.isspace c = false.
Proof.
  induction s as [|c s IH]; simpl; [discriminate|].
  destruct (PyText.isspace c) eqn:Hc; simpl; [exact IH|eauto].
Qed.

Lemma rstrip_keeps_head c rest :
  PyText.isspace c = false ->
  Py.truthy (PyText.rstrip (String c rest)) = true.
Proof.
  intros Hc. simpl. destruct (PyText.rstrip rest); [rewrite Hc|]; reflexivity.
Qed.

Lemma strip_truthy s : Py.truthy (PyText.strip s) = negb (PyText.blank s).
Proof.
  unfold PyText.strip. destruct (PyText.blank s) eqn:Hb.
  - rewrite (lstrip_blank s Hb). reflexivity.
  - destruct (lstrip_not_blank s Hb) as (c & rest & -> & Hc).
    apply rstrip_keeps_head, Hc.
Qed.

Lemma on_log_received_blank log_line :
  _on_log_received log_line =
    if PyText.blank log_line then None else Some log_line.
Proof.
  unfold _on_log_received. rewrite strip_truthy.
  destruct log_line as [|c s]; [reflexivity|]. simpl Py.truthy. simpl negb.
  rewrite Bool.negb_involutive. reflexivity.
Qed.

(** X14.  The callback drops a line exactly when every character of it is
    whitespace (the empty line too) and buffers any other line as it is,
    leading and trailing whitespace included.  So after any calls the
    buffer is the old buffer followed by the lines that are not blank, in
    the order they came, and the thread, the date and the state manager
    are untouched. *)
Theorem only_blank_lines_are_dropped (self : t) (calls : list string) :
  _log_buffer (ingest self calls) =
    _log_buffer self ++ filter (fun l => negb (PyText.blank l)) calls /\
  _current_thread (ingest self calls) = _current_thread self /\
  _current_date (ingest self calls) = _current_date self /\
  _state (ingest self calls) = _state self /\
  _running (ingest self calls) = _running self.
Proof.
  revert self. unfold ingest.
  induction calls as [|l calls IH]; intros self; simpl.
  - rewrite app_nil_r. auto.
  - rewrite on_log_received_blank.
    destruct (PyText.blank l); simpl.
    + apply IH.
    + destruct (IH (_add_to_buffer self l)) as (H1 & H2 & H3 & H4 & H5).
      rewrite H1, H2, H3, H4, H5. unfold _add_to_buffer. simpl.
      rewrite <- app_assoc. auto.
Qed.

(** *** Starting *)

Lemma state_of_manager sm :
  snd (StateManager.state sm) = recorded sm /\
  recorded (fst (StateManager.state sm)) = recorded sm /\
  state_file (fst (StateManager.state sm)) = state_file sm.
Proof.
  destruct sm as [f [b|]]; repeat split.
Qed.

(** [start()] on a service that is not running, with the choice of thread
    given. *)
Lemma start_not_running self env :
  _running self = false ->
  start self env =
    let dated := set_state (set_current_date self (Some (start_today env)))
                   (fst (StateManager.state (_state self))) in
    let '(thread, evs) :=
      if truthy_id (current_thread_id (recorded (_state self)))
         && negb (Py.opt_str_neq (current_date (recorded (_state self)))
                                 (Some (start_today env)))
      then
        match fetched env with
        | Some thread => (Some thread, [])
        | None => (start_created env, [CreateThread (Some (start_today env))])
        end
      else (start_created env, [CreateThread (Some (start_today env))]) in
    match thread with
    | None => (set_current_thread dated None, None, evs, false)
    | Some th =>
        match stream env with
        | None => (set_current_thread dated (Some th), None, evs, false)
        | Some ok =>
            (set_state (set_running (set_current_thread dated (Some th)) true)
               (StateManager.update_logs
                  (fst (StateManager.state (_state self))) true
                  (Some (id th)) (Some (start_today env))),
             Some (fst (WebSocketLogClient.start
                          (WebSocketLogClient.on_log
                             WebSocketLogClient.__init__) (Some ok))),
             evs ++ [UpdateLogs true (Some (id th)) (Some (start_today env))],
             true)
        end
    end.
Proof.
  intros Hr. unfold start. rewrite Hr.
  destruct (state_of_manager (_state self)) as (Hs & _).
  change (_state (set_current_date self (Some (start_today env))))
    with (_state self).
  destruct (StateManager.state (_state self)) as [manager state] eqn:E.
  simpl in Hs. subst state. cbv beta iota zeta.
  change (_current_date (set_state _ manager)) with (Some (start_today env)).
  destruct (truthy_id _ && negb _);
    [destruct (fetched env) as [th|]|]; cbv beta iota zeta;
    try (destruct (start_created env) as [th|]); cbv beta iota zeta;
    try reflexivity;
    change (_current_thread (set_current_thread _ (Some th))) with (Some th);
    cbv beta iota zeta; destruct (stream env) as [[|]|]; reflexivity.
Qed.

(** X15.  Resuming: when the service is not running, the state manager
    has a thread id other than 0 on record with today's date, and Discord
    still has the thread, [start()] takes that thread and creates none.
    When [ws_client.start()] returns, with either result, [start()] returns
    [True] with the service running, and thread id and date on record are
    those of the thread taken, with logging on.  When [ws_client.start()]
    raises, [start()] returns [False]: the thread is taken all the same,
    but the service is not running and nothing was written to the state
    manager. *)
Theorem start_resumes_todays_thread (self : t) (env : start_env)
  (recorded_id : Z) (thread : Thread) :
  _running self = false ->
  current_thread_id (recorded (_state self)) = Some recorded_id ->
  recorded_id <> 0%Z ->
  current_date (recorded (_state self)) = Some (start_today env) ->
  fetched env = Some thread ->
  (forall ok, stream env = Some ok ->
   exists started ws_client,
     start self env =
       (started, Some ws_client,
        [UpdateLogs true (Some (id thread)) (Some (start_today env))], true) /\
     _running started = true /\
     _current_thread started = Some thread /\
     _current_date started = Some (start_today env) /\
     _log_buffer started = _log_buffer self /\
     logs_enabled (recorded (_state started)) = true /\
     current_thread_id (recorded (_state started)) = Some (id thread) /\
     current_date (recorded (_state started)) = Some (start_today env) /\
     state_file (_state started) = Dumped (recorded (_state started))) /\
  (stream env = None ->
   exists failed,
     start self env = (failed, None, [], false) /\
     _running failed = false /\
     _current_thread failed = Some thread /\
     _current_date failed = Some (start_today env) /\
     _log_buffer failed = _log_buffer self /\
     recorded (_state failed) = recorded (_state self) /\
     state_file (_state failed) = state_file (_state self)).
Proof.
  intros Hr Hid Hnz Hdate Hf.
  assert (Ht : truthy_id (Some recorded_id) = true).
  { simpl. destruct (Z.eqb_spec recorded_id 0); [congruence|reflexivity]. }
  split.
  - intros ok Hs.
    rewrite (start_not_running self env Hr), Hid, Hdate, Hf, Hs.
    rewrite LogSyncServiceProofs.opt_str_neq_same.
    rewrite Ht. cbv beta iota zeta. simpl andb. cbv iota.
    destruct (StateManagerRoundTrips.update_logs_closed
                (fst (StateManager.state (_state self))) true
                (Some (id thread)) (Some (start_today env)))
      as (b & E & H1 & H2 & H3 & _).
    eexists _, _. split; [reflexivity|].
    cbn [_running _current_thread _current_date _log_buffer _state set_state
         set_running set_current_thread set_current_date].
    rewrite E. repeat split; assumption.
  - intros Hs.
    rewrite (start_not_running self env Hr), Hid, Hdate, Hf, Hs.
    rewrite LogSyncServiceProofs.opt_str_neq_same.
    rewrite Ht. cbv beta iota zeta. simpl andb. cbv iota.
    destruct (state_of_manager (_state self)) as (_ & Hrec & Hfile).
    eexists. split; [reflexivity|].
    cbn [_running _current_thread _current_date _log_buffer _state set_state
         set_current_thread set_current_date].
    rewrite Hr. repeat split; assumption.
Qed.

Lemma start_resumes_todays_thread_witness :
  let s := mk 1900
             (StateManager.__init__
                (Dumped (StateManager.mkBotState None false (Some 42%Z)
                           (Some "2024-01-01"%string) None None None)))
             false [] None None in
  let env := mkStartEnv "2024-01-01" (Some (mkThread 42 "mc-log-2024-01-01"))
               None (Some false) in
  let raising := mkStartEnv "2024-01-01"
                   (Some (mkThread 42 "mc-log-2024-01-01")) None None in
  (exists started ws_client,
     start s env =
       (started, Some ws_client,
        [UpdateLogs true (Some 42%Z) (Some "2024-01-01"%string)], true) /\
     _current_thread started = Some (mkThread 42 "mc-log-2024-01-01")) /\
  (exists failed,
     start s raising = (failed, None, [], false) /\
     _current_thread failed = Some (mkThread 42 "mc-log-2024-01-01")).
Proof.
  intros s env raising. split.
  - destruct (proj1 (start_resumes_todays_thread s env 42
                (mkThread 42 "mc-log-2024-01-01")
                eq_refl eq_refl ltac:(discriminate) eq_refl eq_refl)
              false eq_refl)
      as (started & ws & H1 & _ & H3 & _).
    exists started, ws. split; assumption.
  - destruct (proj2 (start_resumes_todays_thread s raising 42
                (mkThread 42 "mc-log-2024-01-01")
                eq_refl eq_refl ltac:(discriminate) eq_refl eq_refl)
              eq_refl)
      as (failed & H1 & _ & H3 & _).
    exists failed. split; assumption.
Defined.

(** X16.  When no thread can be had (none on record for today or Discord
    has lost it, and none can be created), [start()] returns [False], the
    service is not running, nothing was written to the state manager, and
    the stream client was not started. *)
Theorem start_without_thread_fails (self : t) (env : start_env) :
  _running self = false ->
  start_created env = None ->
  (fetched env = None \/
   current_date (recorded (_state self)) <> Some (start_today env) \/
   truthy_id (current_thread_id (recorded (_state self))) = false) ->
  exists failed,
    start self env =
      (failed, None, [CreateThread (Some (start_today env))], false) /\
    _running failed = false /\
    _current_thread failed = None /\
    recorded (_state failed) = recorded (_state self) /\
    state_file (_state failed) = state_file (_state self).
Proof.
  intros Hr Hc Hwhy.
  rewrite (start_not_running self env Hr), Hc.
  destruct (state_of_manager (_state self)) as (_ & Hrec & Hfile).
  assert (E : (if truthy_id (current_thread_id (recorded (_state self)))
                  && negb (Py.opt_str_neq
                             (current_date (recorded (_state self)))
                             (Some (start_today env)))
               then match fetched env with
                    | Some thread => (Some thread, [])
                    | None => (None, [CreateThread (Some (start_today env))])
                    end
               else (None, [CreateThread (Some (start_today env))])) =
              (@None Thread, [CreateThread (Some (start_today env))])).
  { destruct Hwhy as [Hf|[Hd|Ht]].
    - rewrite Hf. destruct (_ && _); reflexivity.
    - destruct (current_date (recorded (_state self))) as [d|]; simpl.
      + destruct (String.eqb_spec d (start_today env)); [congruence|].
        rewrite Bool.andb_false_r. reflexivity.
      + rewrite Bool.andb_false_r. reflexivity.
    - rewrite Ht. reflexivity. }
  rewrite E. cbv beta iota zeta.
  eexists. split; [reflexivity|].
  cbn [_running _current_thread _state set_state set_current_thread
       set_current_date].
  rewrite Hr. auto.
Qed.

Lemma start_without_thread_fails_witness :
  let s := mk 1900 (StateManager.__init__ StateManager.NoFile) false []
             None None in
  let env := mkStartEnv "2024-01-01" None None (Some true) in
  exists failed,
    start s env =
      (failed, None, [CreateThread (Some "2024-01-01"%string)], false) /\
    _running failed = false.
Proof.
  intros s env.
  destruct (start_without_thread_fails s env eq_refl eq_refl
              (or_introl eq_refl)) as (failed & H1 & H2 & _).
  exists failed. split; assumption.
Defined.

(** X17.  [start()] does not look at what [ws_client.start()] returns: with
    a thread in hand the service ends up the same, running, with the same
    record written and [True] returned, whether the stream connected or
    not.  A stream that did not connect is left running, not connected,
    with its callback registered and its delay at 1. *)
Theorem start_ignores_stream_result (self : t)
  (today : string) (found made : option Thread) :
  fst (fst (fst (start self (mkStartEnv today found made (Some false))))) =
    fst (fst (fst (start self (mkStartEnv today found made (Some true))))) /\
  snd (start self (mkStartEnv today found made (Some false))) =
    snd (start self (mkStartEnv today found made (Some true))) /\
  snd (fst (start self (mkStartEnv today found made (Some false)))) =
    snd (fst (start self (mkStartEnv today found made (Some true)))) /\
  (snd (start self (mkStartEnv today found made (Some false))) = true ->
   _running self = false ->
   _running (fst (fst (fst (start self
      (mkStartEnv today found made (Some false)))))) = true /\
   snd (fst (fst (start self (mkStartEnv today found made (Some false))))) =
     Some (WebSocketLogClient.mk true false true 1 60)).
Proof.
  destruct (_running self) eqn:Hr.
  - unfold start. rewrite Hr. repeat split; discriminate.
  - rewrite !(start_not_running self _ Hr). cbn [start_today fetched
      start_created stream].
    destruct (if _ && _ then _ else _) as [[th|] evs]; cbv beta iota zeta.
    + repeat split.
    + repeat split; discriminate.
Qed.

Lemma start_ignores_stream_result_witness :
  let s := mk 1900 (StateManager.__init__ StateManager.NoFile) false []
             None None in
  let env := mkStartEnv "2024-01-01" None
               (Some (mkThread 7 "mc-log-2024-01-01")) (Some false) in
  snd (start s env) = true /\
  snd (fst (fst (start s env))) =
    Some (WebSocketLogClient.mk true false true 1 60).
Proof.
  intros s env. split; [reflexivity|].
  apply (proj2 (proj2 (proj2 (start_ignores_stream_result s "2024-01-01" None
                  (Some (mkThread 7 "mc-log-2024-01-01"))))));
    reflexivity.
Defined.

(** *** Stopping and starting again *)

Lemma flush_keeps_running self env :
  _running (fst (fst (_flush_buffer self env))) = _running self.
Proof.
  unfold _flush_buffer.
  destruct (_log_buffer self) as [|l ls] eqn:Hb; [reflexivity|].
  unfold drain. rewrite Hb. cbv beta iota zeta. unfold deliver.
  change (_current_thread (set_log_buffer self [])) with (_current_thread self).
  destruct (_current_thread self) as [th|]; [|reflexivity].
  destruct (Py.opt_str_neq _ _); cbv beta iota zeta.
  - change (_current_thread (set_current_thread _ (created env)))
      with (created env).
    destruct (created env) as [new|]; [|reflexivity].
    cbv beta iota zeta. rewrite LogSyncPostsProofs.post_events. reflexivity.
  - rewrite LogSyncPostsProofs.post_events. reflexivity.
Qed.

(** What [stop()] leaves when it runs on the date of the current thread. *)
Lemma stop_same_day self env :
  _current_date self = Some (today env) ->
  _running (fst (fst (stop self env))) = false /\
  current_thread_id (recorded (_state (fst (fst (stop self env))))) =
    current_thread_id (recorded (_state self)) /\
  current_date (recorded (_state (fst (fst (stop self env))))) =
    current_date (recorded (_state self)).
Proof.
  intros Hd. unfold stop.
  pose proof (flush_keeps_running (set_running self false) env) as Hrun.
  pose proof (LogSyncServiceProofs.flush_recorded_or_rotated
                (set_running self false) env (or_introl Hd)) as Hst.
  cbv zeta in Hst.
  destruct (_flush_buffer (set_running self false) env)
    as [[flushed evs] raised].
  simpl in Hrun, Hst. destruct raised; cbn [fst snd].
  - rewrite Hst. auto.
  - cbn [_running _state set_state]. split; [exact Hrun|].
    destruct (StateManagerRoundTrips.update_logs_closed (_state flushed)
                false None None) as (b & E & _ & H2 & H3 & _).
    rewrite E, StateManagerRoundTrips.recorded_saved, H2, H3, Hst. auto.
Qed.

(** X18.  Logs off and on again on the same day go on in the same thread:
    after [stop()] on a service whose thread (id other than 0) and date are
    the ones on record, a [start()] on that date, with Discord still
    having the thread, takes that thread and creates none. *)
Theorem stop_then_start_keeps_the_thread (self : t) (env : flush_env)
  (senv : start_env) (thread : Thread) (ok : bool) :
  _current_thread self = Some thread ->
  id thread <> 0%Z ->
  _current_date self = Some (today env) ->
  in_sync self ->
  start_today senv = today env ->
  fetched senv = Some thread ->
  stream senv = Some ok ->
  exists resumed ws_client,
    start (fst (fst (stop self env))) senv =
      (resumed, Some ws_client,
       [UpdateLogs true (Some (id thread)) (Some (today env))], true) /\
    _running resumed = true /\
    _current_thread resumed = Some thread /\
    current_thread_id (recorded (_state resumed)) = Some (id thread).
Proof.
  intros Ht Hnz Hd Hsync Htoday Hf Hs.
  destruct (Hsync thread Ht) as [Hid Hdate].
  destruct (stop_same_day self env Hd) as (Hrun & Sid & Sdate).
  set (stopped := fst (fst (stop self env))) in *.
  rewrite (start_not_running stopped senv Hrun).
  rewrite Sid, Sdate, Hid, Hdate, Hd, Htoday, Hf, Hs.
  rewrite LogSyncServiceProofs.opt_str_neq_same.
  assert (Hti : truthy_id (Some (id thread)) = true).
  { simpl. destruct (Z.eqb_spec (id thread) 0); [congruence|reflexivity]. }
  rewrite Hti. cbv beta iota zeta. simpl andb. cbv iota.
  destruct (StateManagerRoundTrips.update_logs_closed
              (fst (StateManager.state (_state stopped))) true
              (Some (id thread)) (Some (today env)))
    as (b & E & _ & H2 & _).
  eexists _, _. split; [reflexivity|].
  cbn [_running _current_thread _state set_state set_running
       set_current_thread set_current_date].
  rewrite E. repeat split. exact H2.
Qed.

Lemma stop_then_start_keeps_the_thread_witness :
  let th := mkThread 42 "mc-log-2024-01-01" in
  let s := mk 1900
             (StateManager.mk StateManager.NoFile
                (Some (StateManager.mkBotState None true (Some 42%Z)
                         (Some "2024-01-01"%string) None None None)))
             true ["a"%string] (Some th) (Some "2024-01-01"%string) in
  let env := mkEnv "2024-01-01" None [] in
  let senv := mkStartEnv "2024-01-01" (Some th) None (Some true) in
  exists resumed ws_client,
    start (fst (fst (stop s env))) senv =
      (resumed, Some ws_client,
       [UpdateLogs true (Some 42%Z) (Some "2024-01-01"%string)], true) /\
    _current_thread resumed = Some th.
Proof.
  intros th s env senv.
  assert (Hsync : in_sync s).
  { intros t Ht. injection Ht as <-. split; reflexivity. }
  destruct (stop_then_start_keeps_the_thread s env senv th true
              eq_refl ltac:(discriminate) eq_refl Hsync
              eq_refl eq_refl eq_refl)
    as (resumed & ws & H1 & _ & H3 & _).
  exists resumed, ws. split; assumption.
Defined.

(** *** The thread on record *)







End LogSyncLifecycleProofs.

(** ** More on the stream client *)

Module StreamClientProofs.
Import WebSocketLogClient.

Lemma emit_registered self log_line :
  _log_callback self = true ->
  emit self log_line = if Py.truthy log_line then [log_line] else [].
Proof.
  intros H. unfold emit. rewrite H, Bool.andb_true_r. reflexivity.
Qed.

Lemma emit_batch json_dumps str self entries :
  _log_callback self = true ->
  flat_map (fun entry => emit self (_extract_log_line json_dumps str entry))
           entries =
    filter Py.truthy (map (_extract_log_line json_dumps str) entries).
Proof.
  intros H. induction entries as [|e entries IH]; simpl; [reflexivity|].
  rewrite IH, (emit_registered self _ H).
  destruct (Py.truthy _); reflexivity.
Qed.

Lemma emit_not_empty self log_line :
  Forall (fun l => l <> EmptyString) (emit self log_line).
Proof.
  unfold emit. destruct log_line; simpl; [constructor|].
  destruct (_log_callback self); repeat constructor. discriminate.
Qed.

(** X20.  A batch envelope (type [logs]) hands its entries to the callback
    in their order, each through the extraction rule, leaving out those
    that come out empty.  The entries are the list under [logs], or the
    list under [data] when there is no [logs] key. *)
Theorem logs_batch_keeps_order
  (json_loads : string -> option json) (json_dumps str : json -> string)
  (self : t) (raw : string) (message : list (string * json))
  (entries : list json) :
  json_loads raw = Some (JDict message) ->
  lookup "type" message = Some (JStr "logs") ->
  lookup "logs" message = Some (JList entries) \/
  (lookup "logs" message = None /\
   lookup "data" message = Some (JList entries)) ->
  _log_callback self = true ->
  _process_message json_loads json_dumps str self raw =
    (filter Py.truthy (map (_extract_log_line json_dumps str) entries), false).
Proof.
  intros Hl Ht Hlogs Hcb. unfold _process_message, dict_get.
  rewrite Hl, Ht. cbn [eq_str String.eqb Ascii.eqb Bool.eqb].
  assert (E : match lookup "logs" message with
              | Some v => v
              | None => match lookup "data" message with
                        | Some v => v
                        | None => JList []
                        end
              end = JList entries).
  { destruct Hlogs as [-> | [-> ->]]; reflexivity. }
  rewrite E, (emit_batch json_dumps str self entries Hcb). reflexivity.
Qed.

Lemma logs_batch_keeps_order_witness :
  let loads := fun _ : string =>
    Some (JDict [("type", JStr "logs");
                 ("data", JList [JStr "one"; JNull;
                                 JDict [("msg", JStr "two")]])]%string) in
  let dumps := fun _ : json => "{}"%string in
  _process_message loads dumps dumps (on_log __init__) "raw" =
    (["one"; "two"]%string, false).
Proof.
  intros loads dumps.
  apply (logs_batch_keeps_order loads dumps dumps (on_log __init__) "raw"
           [("type", JStr "logs");
            ("data", JList [JStr "one"; JNull;
                            JDict [("msg", JStr "two")]])]%string
           [JStr "one"; JNull; JDict [("msg", JStr "two")]]%string).
  - reflexivity.
  - reflexivity.
  - right. split; reflexivity.
  - reflexivity.
Defined.

(** X21.  What a message cannot do.  Without a registered callback no
    message produces a call.  A payload that decodes as JSON never produces
    a call with an empty line; if it decodes to something other than an
    object the method raises without a call; an object whose type is
    neither [console] nor [logs] (status, error, anything else, or no type)
    produces no call, nor does a batch whose [logs] entry is not a list.
    Only a payload that does not decode is handed over as it is, empty or
    not. *)
Theorem what_a_message_cannot_do
  (json_loads : string -> option json) (json_dumps str : json -> string)
  (self : t) (raw : string) (message : list (string * json)) (v other : json) :
  (_log_callback self = false ->
   fst (_process_message json_loads json_dumps str self raw) = []) /\
  (json_loads raw <> None ->
   Forall (fun l => l <> EmptyString)
          (fst (_process_message json_loads json_dumps str self raw))) /\
  (json_loads raw = Some v -> (forall d, v <> JDict d) ->
   _process_message json_loads json_dumps str self raw = ([], true)) /\
  (json_loads raw = Some (JDict message) ->
   eq_str (dict_get message "type" (JStr EmptyString)) "console" = false ->
   eq_str (dict_get message "type" (JStr EmptyString)) "logs" = false ->
   _process_message json_loads json_dumps str self raw = ([], false)) /\
  (json_loads raw = Some (JDict message) ->
   lookup "type" message = Some (JStr "logs") ->
   lookup "logs" message = Some other -> (forall l, other <> JList l) ->
   _process_message json_loads json_dumps str self raw = ([], false)) /\
  (json_loads raw = None -> _log_callback self = true ->
   _process_message json_loads json_dumps str self raw = ([raw], false)).
Proof.
  split; [|split; [|split; [|split; [|split]]]].
  - intros Hcb. unfold _process_message, emit. rewrite Hcb.
    destruct (json_loads raw) as [[| | | | | |m]|]; try reflexivity.
    destruct (eq_str _ "console"); [rewrite Bool.andb_false_r; reflexivity|].
    destruct (eq_str _ "logs"); [|reflexivity].
    destruct (dict_get m "logs" _); try reflexivity.
    simpl. induction items as [|e items IH]; [reflexivity|].
    simpl. rewrite Bool.andb_false_r. exact IH.
  - intros Hl. unfold _process_message.
    destruct (json_loads raw) as [[| | | | | |m]|]; try constructor;
      [|congruence].
    destruct (eq_str _ "console"); [apply emit_not_empty|].
    destruct (eq_str _ "logs"); [|constructor].
    destruct (dict_get m "logs" _); try constructor.
    simpl. induction items as [|e items IH]; [constructor|].
    simpl. apply Forall_app. split; [apply emit_not_empty|exact IH].
  - intros Hl Hv. unfold _process_message. rewrite Hl.
    destruct v; try reflexivity. exfalso. apply (Hv items). reflexivity.
  - intros Hl Hc Hg. unfold _process_message. rewrite Hl, Hc, Hg. reflexivity.
  - intros Hl Ht Ho Hnot. unfold _process_message, dict_get.
    rewrite Hl, Ht, Ho. cbn [eq_str String.eqb Ascii.eqb Bool.eqb].
    destruct other; try reflexivity. exfalso. apply (Hnot items). reflexivity.
  - intros Hl Hcb. unfold _process_message. rewrite Hl, Hcb. reflexivity.
Qed.

Lemma what_a_message_cannot_do_witness :
  let number := fun _ : string => Some (JInt 3) in
  let status := fun _ : string =>
    Some (JDict [("type", JStr "status"); ("running", JBool true)]%string) in
  let dumps := fun _ : json => "{}"%string in
  _process_message number dumps dumps (on_log __init__) "3" = ([], true) /\
  _process_message status dumps dumps (on_log __init__) "raw" = ([], false) /\
  _process_message (fun _ => None) dumps dumps (on_log __init__) EmptyString =
    ([EmptyString], false).
Proof.
  intros number status dumps.
  split; [|split].
  - apply (proj1 (proj2 (proj2
      (what_a_message_cannot_do number dumps dumps (on_log __init__) "3"
         [] (JInt 3) JNull)))); [reflexivity|discriminate].
  - apply (proj1 (proj2 (proj2 (proj2
      (what_a_message_cannot_do status dumps dumps (on_log __init__) "raw"
         [("type", JStr "status"); ("running", JBool true)]%string
         JNull JNull))))); reflexivity.
  - apply (proj2 (proj2 (proj2 (proj2 (proj2
      (what_a_message_cannot_do (fun _ => None) dumps dumps (on_log __init__)
         EmptyString [] JNull JNull)))))); reflexivity.
Defined.

(** *** Reconnecting *)

Lemma min_doubled_bounded (d : Q) :
  (1 <= d)%Q -> (1 <= Py.min (d * 2) 60 /\ Py.min (d * 2) 60 <= 60)%Q.
Proof.
  intros H. unfold Py.min.
  destruct (Py.Qltb 60 (d * 2)) eqn:E.
  - split; lra.
  - apply PyFacts.Qltb_ge in E. split; lra.
Qed.

(** X22.  Whatever the attempts meet (the client stopped, a connect that
    returns [True] or [False], a connect that raises), in any order, the
    loop never sleeps less than 1 s nor more than 60 s, and it leaves a
    delay within the same bounds: on a client whose cap is 60 and whose
    delay is between 1 and 60, as it is after [__init__] and after
    [start()]. *)
Theorem reconnect_delays_stay_in_bounds (self : t) (env : list attempt) :
  _max_reconnect_delay self = 60%Q ->
  (1 <= _reconnect_delay self)%Q ->
  (_reconnect_delay self <= 60)%Q ->
  Forall (fun d => 1 <= d /\ d <= 60)%Q
    (snd (fst (_reconnect_loop self env))) /\
  (1 <= _reconnect_delay (fst (fst (_reconnect_loop self env))))%Q /\
  (_reconnect_delay (fst (fst (_reconnect_loop self env))) <= 60)%Q.
Proof.
  revert self. induction env as [|a env IH]; intros self Hm Hlo Hhi.
  - simpl. auto.
  - simpl _reconnect_loop.
    destruct (_running self && negb (_connected self)); [|simpl; auto].
    destruct a as [|[[|]|]].
    + simpl. repeat split; auto.
    + simpl. repeat split; auto; lra.
    + unfold connect. cbv beta iota zeta.
      destruct (min_doubled_bounded (_reconnect_delay self) Hlo) as [Mlo Mhi].
      rewrite Hm.
      specialize (IH (set_reconnect_delay self
                        (Py.min (_reconnect_delay self * 2) 60))
                     Hm Mlo Mhi).
      destruct (_reconnect_loop _ env) as [[final sleeps] raised].
      simpl in *. destruct IH as (I1 & I2 & I3). repeat split; auto.
    + simpl. repeat split; auto.
Qed.

Lemma reconnect_delays_stay_in_bounds_witness :
  Forall (fun d => 1 <= d /\ d <= 60)%Q
    (snd (fst (_reconnect_loop (fst (start __init__ (Some false)))
                 [Connect (Some false); Connect (Some false); Connect None;
                  Connect (Some true)]))).
Proof.
  apply (reconnect_delays_stay_in_bounds (fst (start __init__ (Some false)))
           [Connect (Some false); Connect (Some false); Connect None;
            Connect (Some true)]).
  - reflexivity.
  - vm_compute. discriminate.
  - vm_compute. discriminate.
Defined.

Lemma loop_ends_at a : forall pre self later,
  a <> Connect (Some false) ->
  _reconnect_loop self (pre ++ a :: later) =
    _reconnect_loop self (pre ++ [a]).
Proof.
  induction pre as [|b pre IH]; intros self later Ha.
  - simpl. destruct (_running self && negb (_connected self)); [|reflexivity].
    destruct a as [|[[|]|]]; try reflexivity. congruence.
  - simpl. destruct (_running self && negb (_connected self)); [|reflexivity].
    destruct b as [|[[|]|]]; try reflexivity.
    unfold connect. cbv beta iota zeta.
    rewrite (IH _ later Ha). reflexivity.
Qed.

Lemma loop_raises_only_on_raise : forall env self,
  snd (_reconnect_loop self env) = true -> In (Connect None) env.
Proof.
  induction env as [|a env IH]; intros self; simpl.
  - discriminate.
  - destruct (_running self && negb (_connected self)); [|discriminate].
    destruct a as [|[[|]|]]; simpl; try discriminate.
    + intros H. right. apply (IH (set_reconnect_delay self
        (Py.min (_reconnect_delay self * 2) (_max_reconnect_delay self)))).
      destruct (_reconnect_loop _ env) as [[final sleeps] raised].
      exact H.
    + intros _. left. reflexivity.
Qed.

(** X23.  The loop ends at the first attempt that connects, that raises or
    that finds the client stopped: what would come after is never tried.
    Only a connect that raises makes it end with an exception.  On a client
    that is connected, and on one that [disconnect()] has stopped, the loop
    neither sleeps nor connects, and a lost connection starts no loop
    after [disconnect()]. *)
Theorem reconnect_loop_knows_when_to_stop (self : t)
  (pre later env : list attempt) (a : attempt) :
  (a = Stopped \/ a = Connect (Some true) \/ a = Connect None ->
   _reconnect_loop self (pre ++ a :: later) =
     _reconnect_loop self (pre ++ [a])) /\
  (snd (_reconnect_loop self env) = true -> In (Connect None) env) /\
  (_connected self = true -> _reconnect_loop self env = (self, [], false)) /\
  _reconnect_loop (disconnect self) env = (disconnect self, [], false) /\
  connection_closed (disconnect self) env = (disconnect self, [], false).
Proof.
  split.
  { intros Ha. apply loop_ends_at. destruct Ha as [->|[->| ->]]; discriminate. }
  split; [apply loop_raises_only_on_raise|]. split; [|split].
  - intros Hc. destruct env; simpl; [reflexivity|].
    rewrite Hc, Bool.andb_false_r. reflexivity.
  - destruct env; reflexivity.
  - unfold connection_closed. simpl. reflexivity.
Qed.

Lemma reconnect_loop_knows_when_to_stop_witness :
  _reconnect_loop (fst (start __init__ (Some false)))
    ([Connect (Some false)] ++
     Connect None :: [Connect (Some false); Connect (Some true)]) =
  _reconnect_loop (fst (start __init__ (Some false)))
    ([Connect (Some false)] ++ [Connect None]).
Proof.
  apply (proj1 (reconnect_loop_knows_when_to_stop
                  (fst (start __init__ (Some false)))
                  [Connect (Some false)]
                  [Connect (Some false); Connect (Some true)] []
                  (Connect None))).
  right. right. reflexivity.
Defined.

End StreamClientProofs.

(** ** The PufferPanel client: tokens and requests *)

Module PufferPanelClientProofs.
Import PufferPanelClient.
Import WebSocketLogClient(json, JNull, JBool, JInt, JFloat, JStr, JList, JDict,
                          lookup).

Lemma not_expired_iff token now :
  TokenInfo.is_expired token now = false <->
  (now < TokenInfo.expires_at token - 60)%Q.
Proof.
  unfold TokenInfo.is_expired. rewrite Bool.negb_false_iff.
  apply PyFacts.Qltb_lt.
Qed.

Lemma expired_iff token now :
  TokenInfo.is_expired token now = true <->
  (TokenInfo.expires_at token - 60 <= now)%Q.
Proof.
  unfold TokenInfo.is_expired. rewrite Bool.negb_true_iff.
  apply PyFacts.Qltb_ge.
Qed.

Lemma access_token_some self now s :
  access_token self now = Some s <->
  exists token,
    _token self = Some token /\ s = TokenInfo.access_token token /\
    (now < TokenInfo.expires_at token - 60)%Q.
Proof.
  unfold access_token. split.
  - destruct (_token self) as [token|]; [|discriminate].
    destruct (TokenInfo.is_expired token now) eqn:E; simpl; [discriminate|].
    intros H. injection H as <-. exists token.
    repeat split. apply not_expired_iff, E.
  - intros (token & -> & -> & H). apply not_expired_iff in H.
    rewrite H. reflexivity.
Qed.

(** X24.  The client hands out its token exactly at the clock readings
    below the stored [expires_at] less 60 s.  Once it has refused it
    refuses at every later reading until it authenticates again.  A token
    granted for 60 s or less is handed out neither at the reading of its
    authentication nor at any later one.  After an authentication that
    succeeded the token handed out, if any, is the new one; an answer
    without [expires_in] counts as one with 3600; an authentication that
    raises leaves the client as it was. *)
Theorem token_needs_a_minute_left (self : t) (now later e : Q)
  (s : string) (answer : token_answer) :
  (access_token self now = Some s <->
   exists token,
     _token self = Some token /\ s = TokenInfo.access_token token /\
     (now < TokenInfo.expires_at token - 60)%Q) /\
  (access_token self now = None -> (now <= later)%Q ->
   access_token self later = None) /\
  (answer_expires_in answer = Some e -> (e <= 60)%Q -> (now <= later)%Q ->
   access_token (fst (authenticate self now (Some answer))) later = None) /\
  (access_token (fst (authenticate self now (Some answer))) later = Some s ->
   s = answer_access_token answer) /\
  authenticate self now
    (Some (mkAnswer (answer_access_token answer) None
             (answer_token_type answer))) =
    authenticate self now
      (Some (mkAnswer (answer_access_token answer) (Some 3600%Q)
               (answer_token_type answer))) /\
  authenticate self now None = (self, true).
Proof.
  split; [apply access_token_some|]. split; [|split; [|split; [|split]]].
  - unfold access_token. destruct (_token self) as [token|]; [|reflexivity].
    destruct (TokenInfo.is_expired token now) eqn:E; simpl; [|discriminate].
    intros _ Hle. apply expired_iff in E.
    assert (H : TokenInfo.is_expired token later = true)
      by (apply expired_iff; lra).
    rewrite H. reflexivity.
  - intros He H1 H2. unfold authenticate, access_token. rewrite He.
    cbn [fst _token TokenInfo.access_token].
    assert (H : TokenInfo.is_expired
              (TokenInfo.mk (answer_access_token answer) (now + e)
                 match answer_token_type answer with
                 | Some ty => ty
                 | None => "Bearer"%string
                 end) later = true).
    { apply expired_iff. cbn [TokenInfo.expires_at]. lra. }
    rewrite H. reflexivity.
  - unfold authenticate, access_token. cbn [fst _token].
    destruct (negb _); [|discriminate].
    cbn [TokenInfo.access_token]. congruence.
  - reflexivity.
  - reflexivity.
Qed.

Lemma token_needs_a_minute_left_witness :
  access_token (mk (Some (TokenInfo.mk "abc" 4600 "Bearer"))) 4000 =
    Some "abc"%string /\
  access_token (mk (Some (TokenInfo.mk "abc" 4600 "Bearer"))) 4540 = None /\
  access_token (fst (authenticate __init__ 1000
                       (Some (mkAnswer "abc" (Some 60%Q) None)))) 1000 = None.
Proof.
  split; [|split].
  - apply (proj2 (proj1 (token_needs_a_minute_left
             (mk (Some (TokenInfo.mk "abc" 4600 "Bearer"))) 4000 4000 60
             "abc" (mkAnswer "abc" None None)))).
    exists (TokenInfo.mk "abc" 4600 "Bearer").
    split; [reflexivity|]. split; [reflexivity|].
    vm_compute. reflexivity.
  - apply (proj1 (proj2 (token_needs_a_minute_left
             (mk (Some (TokenInfo.mk "abc" 4600 "Bearer"))) 4540 4540 60
             "abc" (mkAnswer "abc" None None)))).
    + reflexivity.
    + vm_compute. discriminate.
  - apply (proj1 (proj2 (proj2 (token_needs_a_minute_left __init__ 1000
             1000 60 "s" (mkAnswer "abc" (Some 60%Q) None)))) eq_refl);
      vm_compute; discriminate.
Defined.

(** X25.  The stream connects only with a token that is not empty and has
    more than 60 s left at the reading that produced it, and it asks for a
    new one at most once.  Against an endpoint that grants 60 s or less, a
    client without a usable token gives up on every connect, although the
    authentication itself went through. *)
Theorem stream_token_is_fresh (self : t) (now1 now_auth now2 e : Q)
  (answer : option token_answer) (result : token_answer) (s : string) :
  (snd (connect_token self now1 now_auth now2 answer) = Returned (Some s) ->
   s <> EmptyString /\
   (access_token self now1 = Some s \/
    access_token (fst (connect_token self now1 now_auth now2 answer)) now2
      = Some s)) /\
  (access_token self now1 = None ->
   answer = Some result ->
   answer_expires_in result = Some e ->
   (e <= 60)%Q -> (now_auth <= now2)%Q ->
   snd (connect_token self now1 now_auth now2 answer) = Returned None /\
   _token (fst (connect_token self now1 now_auth now2 answer)) <> None).
Proof.
  split.
  - unfold connect_token.
    destruct (access_token self now1) as [t1|] eqn:E1.
    + destruct (Py.truthy t1) eqn:T1.
      * simpl. intros H. injection H as <-.
        split; [apply PyFacts.truthy_true, T1|now left].
      * destruct (authenticate self now_auth answer) as [c [|]];
          [discriminate|].
        destruct (access_token c now2) as [t2|] eqn:E2; [|discriminate].
        destruct (Py.truthy t2) eqn:T2; [|discriminate].
        simpl. intros H. injection H as <-.
        split; [apply PyFacts.truthy_true, T2|right; exact E2].
    + destruct (authenticate self now_auth answer) as [c [|]]; [discriminate|].
      destruct (access_token c now2) as [t2|] eqn:E2; [|discriminate].
      destruct (Py.truthy t2) eqn:T2; [|discriminate].
      simpl. intros H. injection H as <-.
      split; [apply PyFacts.truthy_true, T2|right; exact E2].
  - intros H1 -> He Hle Hmono. unfold connect_token. rewrite H1.
    unfold authenticate at 1 2. rewrite He.
    assert (Hx : access_token
              (mk (Some (TokenInfo.mk (answer_access_token result)
                           (now_auth + e)
                           match answer_token_type result with
                           | Some ty => ty
                           | None => "Bearer"%string
                           end))) now2 = None).
    { unfold access_token, TokenInfo.is_expired. cbn [_token
        TokenInfo.expires_at TokenInfo.access_token].
      assert (H : Py.Qltb now2 (now_auth + e - 60) = false)
        by (apply PyFacts.Qltb_ge; lra).
      rewrite H. reflexivity. }
    cbv beta iota zeta. rewrite Hx. simpl. split; [reflexivity|discriminate].
Qed.

Lemma stream_token_is_fresh_witness :
  snd (connect_token __init__ 1000 1000 1001
         (Some (mkAnswer "abc" (Some 30%Q) None))) = Returned None.
Proof.
  apply (proj2 (stream_token_is_fresh __init__ 1000 1000 1001 30
                  (Some (mkAnswer "abc" (Some 30%Q) None))
                  (mkAnswer "abc" (Some 30%Q) None) "s"));
    try reflexivity; vm_compute; discriminate.
Defined.

(** *** Requests *)

(** A request returns only on a final answer below 400, parsed. *)
Lemma request_returned self env v :
  snd (_request self env) = Returned v ->
  exists resp,
    v = _parse_response resp /\ (status resp < 400)%Z /\
    ((first env = Some resp /\ status resp <> 401%Z) \/
     (exists unauthorized,
        first env = Some unauthorized /\ status unauthorized = 401%Z /\
        retry env = Some resp)).
Proof.
  unfold _request.
  destruct (_ensure_token self _ _ _) as [c [|]]; [discriminate|].
  destruct (_get_headers c) as [h|]; [|discriminate].
  destruct (first env) as [resp|]; [|discriminate].
  destruct (Z.eqb_spec (status resp) 401) as [H401|H401].
  - destruct (authenticate c _ _) as [c' [|]]; [discriminate|].
    destruct (_get_headers c') as [h'|]; [|discriminate].
    destruct (retry env) as [r2|]; [|discriminate].
    destruct (Z.geb_spec (status r2) 400) as [Hge|Hlt]; [discriminate|].
    simpl. intros H. injection H as <-.
    exists r2. repeat split; [lia|]. right. eauto.
  - destruct (Z.geb_spec (status resp) 400) as [Hge|Hlt]; [discriminate|].
    simpl. intros H. injection H as <-.
    exists resp. repeat split; [lia|]. now left.
Qed.

Lemma request_api_error self env st :
  snd (_request self env) = RaisedAPIError st ->
  (400 <= st)%Z /\
  ((exists resp, first env = Some resp /\ status resp = st /\ st <> 401%Z) \/
   (exists unauthorized resp,
      first env = Some unauthorized /\ status unauthorized = 401%Z /\
      retry env = Some resp /\ status resp = st)).
Proof.
  unfold _request.
  destruct (_ensure_token self _ _ _) as [c [|]]; [discriminate|].
  destruct (_get_headers c) as [h|]; [|discriminate].
  destruct (first env) as [resp|]; [|discriminate].
  destruct (Z.eqb_spec (status resp) 401) as [H401|H401].
  - destruct (authenticate c _ _) as [c' [|]]; [discriminate|].
    destruct (_get_headers c') as [h'|]; [|discriminate].
    destruct (retry env) as [r2|]; [|discriminate].
    destruct (Z.geb_spec (status r2) 400) as [Hge|Hlt]; [|discriminate].
    simpl. intros H. injection H as <-. split; [lia|]. right.
    exists resp, r2. auto.
  - destruct (Z.geb_spec (status resp) 400) as [Hge|Hlt]; [|discriminate].
    simpl. intros H. injection H as <-. split; [lia|]. left.
    exists resp. auto.
Qed.

Lemma request_sent_at_most_two self env :
  (List.length (snd (fst (_request self env))) <= 2)%nat /\
  (List.length (snd (fst (_request self env))) = 2%nat ->
   exists unauthorized,
     first env = Some unauthorized /\ status unauthorized = 401%Z /\
     token_again env <> None).
Proof.
  unfold _request.
  destruct (_ensure_token self _ _ _) as [c [|]];
    [simpl; split; [lia|discriminate]|].
  destruct (_get_headers c) as [h|]; [|simpl; split; [lia|discriminate]].
  destruct (first env) as [resp|]; [|simpl; split; [lia|discriminate]].
  destruct (Z.eqb_spec (status resp) 401) as [H401|H401].
  - unfold authenticate.
    destruct (token_again env) as [ans|];
      [|simpl; split; [lia|discriminate]].
    cbv beta iota zeta. unfold _get_headers at 1 2. cbn [_token].
    destruct (retry env) as [r2|]; [destruct (status r2 >=? 400)%Z|];
      simpl; (split; [lia|]); intros _; exists resp;
      repeat split; try assumption; discriminate.
  - destruct (status resp >=? 400)%Z; simpl; split; try lia; discriminate.
Qed.

(** X26.  A request is sent at most twice, and twice only when the first
    answer was 401 and a new token could be had.  [start_server] (and
    [stop_server] and [send_command], which have the same body) returns
    [True] only on a final answer below 400, the first one or the one after
    a 401, and [False] only on a final answer of 400 or more; so a second
    401 gives [False]. *)
Theorem server_call_follows_final_status (self : t) (env : request_env)
  (unauthorized again : response) :
  (List.length (snd (fst (start_server self env))) <= 2)%nat /\
  (List.length (snd (fst (start_server self env))) = 2%nat ->
   exists resp,
     first env = Some resp /\ status resp = 401%Z /\ token_again env <> None) /\
  (snd (start_server self env) = Returned true ->
   exists resp,
     (status resp < 400)%Z /\
     ((first env = Some resp /\ status resp <> 401%Z) \/
      (exists r1, first env = Some r1 /\ status r1 = 401%Z /\
                  retry env = Some resp))) /\
  (snd (start_server self env) = Returned false ->
   exists resp,
     (400 <= status resp)%Z /\
     (first env = Some resp \/ retry env = Some resp)) /\
  (first env = Some unauthorized -> status unauthorized = 401%Z ->
   retry env = Some again -> status again = 401%Z ->
   snd (start_server self env) = Returned false \/
   snd (start_server self env) = RaisedOther).
Proof.
  unfold start_server.
  pose proof (request_sent_at_most_two self env) as [Hlen Htwo].
  pose proof (request_returned self env) as Hret.
  pose proof (request_api_error self env) as Herr.
  destruct (_request self env) as [[c sent] result] eqn:E.
  cbn [fst snd] in *.
  split; [exact Hlen|]. split; [exact Htwo|]. split; [|split].
  - destruct result as [v|st|]; try discriminate. intros _.
    destruct (Hret v eq_refl) as (resp & _ & Hst & Hwhich).
    exists resp. split; [exact Hst|]. destruct Hwhich as [H|H]; auto.
  - destruct result as [v|st|]; try discriminate. intros _.
    destruct (Herr st eq_refl) as (Hst & [(resp & H1 & H2 & _)
                                         |(r1 & resp & _ & _ & H3 & H4)]);
      exists resp; (split; [lia|auto]).
  - intros Hf H401 Hr Ha.
    destruct result as [v|st|]; [|now left|now right].
    exfalso. destruct (Hret v eq_refl) as (resp & _ & Hst & [[H1 H2]|H]).
    + rewrite Hf in H1. injection H1 as <-. contradiction.
    + destruct H as (r1 & _ & _ & H3). rewrite Hr in H3.
      injection H3 as <-. lia.
Qed.

Lemma server_call_follows_final_status_witness :
  let fresh := mk (Some (TokenInfo.mk "abc" 5000 "Bearer")) in
  let env := mkRequestEnv 1000 1000 None
               (Some (mkResponse 401 None None None))
               1001 (Some (mkAnswer "def" None None))
               (Some (mkResponse 401 None None None)) in
  start_server fresh env =
    (mk (Some (TokenInfo.mk "def" (1001 + 3600) "Bearer")),
     ["Bearer abc"; "Bearer def"]%string, Returned false).
Proof.
  intros fresh env.
  destruct (proj2 (proj2 (proj2 (proj2
              (server_call_follows_final_status fresh env
                 (mkResponse 401 None None None)
                 (mkResponse 401 None None None)))))
              eq_refl eq_refl eq_refl eq_refl) as [H|H].
  - reflexivity.
  - discriminate H.
Defined.

Lemma parse_response_some resp v :
  _parse_response resp = Some v ->
  status resp <> 202%Z /\ status resp <> 204%Z /\
  (exists len, content_length resp = Some len /\ len <> "0"%string) /\
  (exists type, content_type resp = Some type /\
                contains "application/json" type = true) /\
  body resp = Some v.
Proof.
  unfold _parse_response.
  destruct (Z.eqb_spec (status resp) 202); [discriminate|].
  destruct (Z.eqb_spec (status resp) 204); [discriminate|].
  simpl orb. cbv iota.
  destruct (content_length resp) as [len|]; [|discriminate].
  destruct (String.eqb_spec len "0"); [discriminate|].
  destruct (content_type resp) as [type|]; [|discriminate].
  destruct (contains "application/json" type) eqn:Hc; [|discriminate].
  simpl. intros H. repeat split; eauto.
Qed.

(** X27.  [get_server_status] answers [RUNNING], [OFFLINE] or [UNKNOWN],
    never [STARTING] or [STOPPING].  It answers [RUNNING] only when the
    final answer is below 400 and neither 202 nor 204, names a
    [Content-Length] other than 0 and a content type with
    [application/json] in it, and its body is an object whose [running]
    entry is truthy.  An answer without a [Content-Length] header is never
    read: the status is then [UNKNOWN], whatever the body says. *)
Theorem server_status_needs_a_full_answer (self : t) (env : request_env)
  (resp : response) :
  snd (get_server_status self env) <> Returned STARTING /\
  snd (get_server_status self env) <> Returned STOPPING /\
  (snd (get_server_status self env) = Returned RUNNING ->
   exists final d v,
     (first env = Some final \/ retry env = Some final) /\
     (status final < 400)%Z /\
     status final <> 202%Z /\ status final <> 204%Z /\
     (exists len, content_length final = Some len /\ len <> "0"%string) /\
     (exists type, content_type final = Some type /\
                   contains "application/json" type = true) /\
     body final = Some (JDict d) /\
     lookup "running" d = Some v /\ json_truthy v = true) /\
  (first env = Some resp -> status resp <> 401%Z ->
   content_length resp = None ->
   snd (get_server_status self env) = Returned UNKNOWN \/
   snd (get_server_status self env) = RaisedOther).
Proof.
  unfold get_server_status.
  pose proof (request_returned self env) as Hret.
  destruct (_request self env) as [[c sent] result] eqn:E.
  cbn [fst snd] in *.
  split; [|split; [|split]].
  - destruct result as [[[| | | | | |d]|]|st|]; try discriminate.
    destruct (json_truthy _); discriminate.
  - destruct result as [[[| | | | | |d]|]|st|]; try discriminate.
    destruct (json_truthy _); discriminate.
  - destruct result as [[[| | | | | |d]|]|st|]; try discriminate.
    destruct (lookup "running" d) as [v|] eqn:Hl; [|discriminate].
    destruct (json_truthy v) eqn:Hv; [|discriminate]. intros _.
    destruct (Hret (Some (JDict d)) eq_refl) as (final & Hp & Hst & Hwhich).
    symmetry in Hp.
    destruct (parse_response_some final (JDict d) Hp)
      as (H1 & H2 & H3 & H4 & H5).
    exists final, d, v.
    split; [destruct Hwhich as [[H _]|(r1 & _ & _ & H)]; auto|].
    repeat split; assumption.
  - intros Hf H401 Hlen.
    destruct result as [v|st|]; [|now left|now right].
    destruct (Hret v eq_refl) as (final & Hp & _ & [[H1 _]|H]).
    + rewrite Hf in H1. injection H1 as <-.
      assert (Hn : _parse_response resp = None).
      { unfold _parse_response. rewrite Hlen.
        destruct ((status resp =? 202)%Z || (status resp =? 204)%Z);
          reflexivity. }
      rewrite Hn in Hp. subst v. now left.
    + destruct H as (r1 & H1 & H2 & _). rewrite Hf in H1.
      injection H1 as <-. contradiction.
Qed.

Lemma server_status_needs_a_full_answer_witness :
  let fresh := mk (Some (TokenInfo.mk "abc" 5000 "Bearer")) in
  let chunked := mkResponse 200 None (Some "application/json"%string)
                   (Some (JDict [("running"%string, JBool true)])) in
  let env := mkRequestEnv 1000 1000 None (Some chunked) 1001 None None in
  snd (get_server_status fresh env) = Returned UNKNOWN.
Proof.
  intros fresh chunked env.
  destruct (proj2 (proj2 (proj2
              (server_status_needs_a_full_answer fresh env chunked)))
              eq_refl ltac:(discriminate) eq_refl) as [H|H].
  - exact H.
  - discriminate H.
Defined.

End PufferPanelClientProofs.

(** ** The dashboard: buttons and typed commands *)

Module DashboardProofs.
Import Dashboard.

Lemma enter_cases w allowed roles now1 now2 :
  (snd (enter w allowed roles now1 now2) = true /\
   _has_permission allowed roles = true /\
   GlobalActionLock._lock (lock w) = false /\
   fst (enter w allowed roles now1 now2) =
     mkWorld (GlobalActionLock.mk (GlobalActionLock.cooldown_sec (lock w))
                true now2 (Some "server_action"%string))
             (manager w)) \/
  (snd (enter w allowed roles now1 now2) = false /\
   fst (enter w allowed roles now1 now2) = w).
Proof.
  unfold enter. destruct (_has_permission allowed roles) eqn:Hp; simpl.
  - destruct (fst (snd (GlobalActionLock.acquire (lock w) "server_action"
                          now1 now2))) eqn:Hg.
    + left. destruct (GlobalActionLockRuns.granted_past_cooldown _ _ _ _ Hg)
        as [_ Hst].
      rewrite Hst. repeat split.
      unfold GlobalActionLock.acquire in Hg.
      destruct (GlobalActionLock._lock (lock w)); [discriminate|reflexivity].
    + right. rewrite (GlobalActionLockRuns.denied_same_state _ _ _ _ Hg).
      destruct w; auto.
  - right. auto.
Qed.

(** The lock is held exactly while one handler is in its [try]. *)
Lemma step_turns allowed f s :
  (GlobalActionLock._lock (lock (shared f)) = false /\ inside f = []) \/
  (GlobalActionLock._lock (lock (shared f)) = true /\
   exists who, inside f = [who]) ->
  (GlobalActionLock._lock (lock (shared (step allowed f s))) = false /\
   inside (step allowed f s) = []) \/
  (GlobalActionLock._lock (lock (shared (step allowed f s))) = true /\
   exists who, inside (step allowed f s) = [who]).
Proof.
  intros Hf. destruct s as [who roles now1 now2|who]; simpl.
  - destruct (enter_cases (shared f) allowed roles now1 now2)
      as [(He & _ & Hl & Hw)|(He & Hw)];
      destruct (enter (shared f) allowed roles now1 now2) as [w entered];
      simpl in *; subst.
    + right. simpl. split; [reflexivity|].
      destruct Hf as [[_ Hi]|[Hl' _]]; [rewrite Hi; eauto|congruence].
    + exact Hf.
  - destruct (existsb (Nat.eqb who) (inside f)) eqn:Hin; [|exact Hf].
    left. destruct Hf as [[_ Hi]|[Hl (h & Hi)]]; rewrite Hi in *.
    + discriminate.
    + simpl in Hin. rewrite Bool.orb_false_r in Hin.
      simpl. rewrite Hin. simpl. split; [|reflexivity].
      unfold GlobalActionLock.release, GlobalActionLock.lock_release. simpl.
      rewrite Hl. reflexivity.
Qed.

(** X28.  One handler at a time: however presses of the three buttons and
    the ends of their handlers interleave, at most one handler is inside
    its [try], the lock is held exactly while one is, and the handler whose
    [finally] runs is the one that holds the lock.  A press that was turned
    away never reaches a [finally], so it releases nothing. *)
Theorem handlers_take_turns (allowed_role_id : Z) (cooldown : Q)
  (state : StateManager.t) (steps : list step_of) (who : nat) :
  let f := run allowed_role_id
             (mkFloor (mkWorld (GlobalActionLock.__init__ cooldown) state) [])
             steps in
  (List.length (inside f) <= 1)%nat /\
  (GlobalActionLock._lock (lock (shared f)) = true <-> inside f <> []) /\
  (~ In who (inside f) -> step allowed_role_id f (Finish who) = f) /\
  (In who (inside f) ->
   inside (step allowed_role_id f (Finish who)) = [] /\
   GlobalActionLock._lock
     (lock (shared (step allowed_role_id f (Finish who)))) = false).
Proof.
  intros f.
  assert (Hinv :
    (GlobalActionLock._lock (lock (shared f)) = false /\ inside f = []) \/
    (GlobalActionLock._lock (lock (shared f)) = true /\
     exists h, inside f = [h])).
  { subst f. unfold run.
    set (f0 := mkFloor (mkWorld (GlobalActionLock.__init__ cooldown) state) []).
    assert (H0 :
      (GlobalActionLock._lock (lock (shared f0)) = false /\ inside f0 = []) \/
      (GlobalActionLock._lock (lock (shared f0)) = true /\
       exists h, inside f0 = [h])) by (left; split; reflexivity).
    clearbody f0. revert f0 H0.
    induction steps as [|s steps IH]; intros f0 H0; simpl; [exact H0|].
    apply IH, step_turns, H0. }
  split; [|split; [|split]].
  - destruct Hinv as [[_ Hi]|[_ (h & Hi)]]; rewrite Hi; simpl; lia.
  - destruct Hinv as [[Hl Hi]|[Hl (h & Hi)]]; rewrite Hl, Hi; split;
      congruence.
  - intros Hnot. simpl.
    destruct (existsb (Nat.eqb who) (inside f)) eqn:Hin; [|reflexivity].
    exfalso. apply Hnot. apply existsb_exists in Hin.
    destruct Hin as (h & Hh & Heq). apply Nat.eqb_eq in Heq. subst. exact Hh.
  - intros Hin.
    pose proof (step_turns allowed_role_id f (Finish who) Hinv) as Hafter.
    destruct Hinv as [[_ Hi]|[Hl (h & Hi)]]; rewrite Hi in Hin;
      [contradiction|].
    destruct Hin as [->|[]].
    simpl. rewrite Hi. simpl. rewrite Nat.eqb_refl. simpl.
    split; [reflexivity|].
    unfold GlobalActionLock.release, GlobalActionLock.lock_release. simpl.
    rewrite Hl. reflexivity.
Qed.

Lemma handlers_take_turns_witness :
  let f := run 5 (mkFloor (mkWorld (GlobalActionLock.__init__ 10)
                             (StateManager.__init__ StateManager.NoFile)) [])
             [Press 1 (Some [5%Z]) 100 100; Press 2 (Some [5%Z]) 101 101] in
  inside f = [1%nat] /\
  inside (step 5 f (Finish 1)) = [] /\
  GlobalActionLock._lock (lock (shared (step 5 f (Finish 1)))) = false.
Proof.
  intros f. split; [reflexivity|].
  apply (handlers_take_turns 5 10 (StateManager.__init__ StateManager.NoFile)
           [Press 1 (Some [5%Z]) 100 100; Press 2 (Some [5%Z]) 101 101] 1).
  now left.
Defined.

(** X29.  A button pressed while the lock is free leaves the lock free,
    whatever the client calls do, exceptions included.  The last action is
    recorded only when the user has the role, the lock was granted and
    every client call returned [True]; otherwise the state manager is
    untouched.  A restart calls [start_server] only after [stop_server]
    returned [True].  A press without the role, or one turned away by the
    lock, makes no client call and changes nothing. *)
Theorem button_releases_and_records (b : button) (w : world)
  (allowed_role_id : Z) (roles : option (list Z)) (now1 now2 : Q)
  (first second : call_result) (user now_iso : string) :
  (GlobalActionLock._lock (lock w) = false ->
   GlobalActionLock._lock
     (lock (fst (fst (handle b w allowed_role_id roles now1 now2
                        first second user now_iso)))) = false) /\
  (manager (fst (fst (handle b w allowed_role_id roles now1 now2
                        first second user now_iso))) = manager w \/
   (_has_permission allowed_role_id roles = true /\
    snd (enter w allowed_role_id roles now1 now2) = true /\
    first = Done true /\
    (b = RestartButton -> second = Done true) /\
    manager (fst (fst (handle b w allowed_role_id roles now1 now2
                         first second user now_iso))) =
      StateManager.update_last_action (manager w)
        match b with
        | StartButton => "start"
        | StopButton => "stop"
        | RestartButton => "restart"
        end%string user now_iso)) /\
  (b = RestartButton ->
   In StartServer (snd (fst (handle b w allowed_role_id roles now1 now2
                               first second user now_iso))) ->
   first = Done true) /\
  (snd (enter w allowed_role_id roles now1 now2) = false ->
   handle b w allowed_role_id roles now1 now2 first second user now_iso =
     (w, [], false)).
Proof.
  unfold handle.
  destruct (enter_cases w allowed_role_id roles now1 now2)
    as [(He & Hp & Hl & Hw)|(He & Hw)];
    destruct (enter w allowed_role_id roles now1 now2) as [w1 entered];
    simpl in He, Hw; subst entered w1.
  - split; [|split; [|split]].
    + intros _. destruct b, first as [[|]|], second as [[|]|]; reflexivity.
    + destruct b, first as [[|]|], second as [[|]|]; simpl;
        try (left; reflexivity);
        right; repeat split; auto; discriminate.
    + intros -> Hin.
      destruct first as [[|]|]; [reflexivity| |];
        simpl in Hin; destruct Hin as [H|[]]; discriminate.
    + discriminate.
  - split; [|split; [|split]].
    + intros H. exact H.
    + left. reflexivity.
    + intros _ [].
    + reflexivity.
Qed.

Lemma button_releases_and_records_witness :
  let w := mkWorld (GlobalActionLock.__init__ 10)
                   (StateManager.__init__ StateManager.NoFile) in
  GlobalActionLock._lock
    (lock (fst (fst (handle RestartButton w 5 (Some [5%Z]) 100 100
                       (Done true) Raises "ann" "2024-01-01T10:00:00")))) =
    false /\
  handle StartButton w 5 (Some [4%Z]) 100 100 (Done true) (Done true)
         "ann" "2024-01-01T10:00:00" = (w, [], false).
Proof.
  intros w. split.
  - apply (proj1 (button_releases_and_records RestartButton w 5 (Some [5%Z])
                    100 100 (Done true) Raises "ann" "2024-01-01T10:00:00")).
    reflexivity.
  - apply (proj2 (proj2 (proj2
             (button_releases_and_records StartButton w 5 (Some [4%Z])
                100 100 (Done true) (Done true) "ann"
                "2024-01-01T10:00:00")))).
    reflexivity.
Defined.

(** X30.  A typed message reaches the server as a command only if its
    author is no bot and has the allowed role, it was typed in the very
    thread whose id (other than 0) is on record, logging is on, and the
    text is not blank; what is sent is the text without its leading and
    trailing whitespace.  So once logs are off, after a [stop()] that ran
    to its end, no message is passed on. *)
Theorem commands_only_from_the_log_thread (state : StateManager.t)
  (allowed_role_id : Z) (m : message) (command : string)
  (service : LogSyncService.t) (env : LogSyncService.flush_env) :
  (snd (on_message state allowed_role_id m) = Some command <->
   author_bot m = false /\
   (exists channel_id,
      thread_id m = Some channel_id /\ channel_id <> 0%Z /\
      StateManager.current_thread_id (StateManager.recorded state)
        = Some channel_id) /\
   StateManager.logs_enabled (StateManager.recorded state) = true /\
   _has_permission allowed_role_id (author_roles m) = true /\
   command = PyText.strip (content m) /\
   PyText.blank (content m) = false) /\
  (snd (LogSyncService.stop service env) = false ->
   snd (on_message
          (LogSyncService._state (fst (fst (LogSyncService.stop service env))))
          allowed_role_id m) = None).
Proof.
  assert (Hiff : forall st,
    snd (on_message st allowed_role_id m) = Some command <->
    author_bot m = false /\
    (exists channel_id,
       thread_id m = Some channel_id /\ channel_id <> 0%Z /\
       StateManager.current_thread_id (StateManager.recorded st)
         = Some channel_id) /\
    StateManager.logs_enabled (StateManager.recorded st) = true /\
    _has_permission allowed_role_id (author_roles m) = true /\
    command = PyText.strip (content m) /\
    PyText.blank (content m) = false).
  { intros st. unfold on_message, _has_permission.
    destruct (LogSyncLifecycleProofs.state_of_manager st) as (Hs & _).
    destruct (StateManager.state st) as [st' b] eqn:Est. simpl in Hs.
    subst b.
    rewrite LogSyncLifecycleProofs.strip_truthy.
    split.
    - destruct (author_bot m); [discriminate|].
      destruct (thread_id m) as [c|]; [|discriminate].
      destruct (StateManager.current_thread_id (StateManager.recorded st))
        as [i|]; [|discriminate].
      simpl LogSyncLifecycle.truthy_id.
      destruct (Z.eqb_spec i 0); [discriminate|]. simpl negb. cbv iota.
      destruct (Z.eqb_spec c i); [|discriminate]. simpl negb. cbv iota.
      destruct (StateManager.logs_enabled (StateManager.recorded st));
        [|discriminate].
      simpl negb. cbv iota.
      destruct (author_roles m) as [ids|]; [|discriminate].
      destruct (existsb _ ids); [|discriminate]. simpl negb. cbv iota.
      destruct (PyText.blank (content m)); [discriminate|].
      simpl. intros H. injection H as <-. subst c.
      repeat split. exists i. auto.
    - intros (Hb & (c & Ht & Hnz & Hid) & Hon & Hp & -> & Hbl).
      rewrite Hb, Ht, Hid, Hon. simpl LogSyncLifecycle.truthy_id.
      destruct (Z.eqb_spec c 0); [contradiction|]. simpl negb. cbv iota.
      rewrite Z.eqb_refl. simpl negb. cbv iota.
      destruct (author_roles m) as [ids|]; [|discriminate].
      rewrite Hp, Hbl. reflexivity. }
  split; [apply Hiff|].
  intros Hstop.
  destruct (snd (on_message _ allowed_role_id m)) as [cmd|] eqn:E;
    [|reflexivity].
  exfalso.
  assert (Hoff : StateManager.logs_enabled
            (StateManager.recorded
               (LogSyncService._state
                  (fst (fst (LogSyncService.stop service env))))) = false).
  { revert Hstop. unfold LogSyncService.stop.
    destruct (LogSyncService._flush_buffer _ env) as [[flushed evs] raised].
    destruct raised; cbn [fst snd]; [discriminate|]. intros _.
    cbn [LogSyncService._state LogSyncService.set_state].
    destruct (StateManagerRoundTrips.update_logs_closed
                (LogSyncService._state flushed) false None None)
      as (b & Eb & H1 & _).
    rewrite Eb, StateManagerRoundTrips.recorded_saved. exact H1. }
  clear Hiff.
  revert E. unfold on_message.
  destruct (LogSyncLifecycleProofs.state_of_manager
              (LogSyncService._state
                 (fst (fst (LogSyncService.stop service env))))) as (Hs & _).
  destruct (StateManager.state _) as [st' b] eqn:Est. simpl in Hs. subst b.
  rewrite Hoff.
  destruct (author_bot m); [discriminate|].
  destruct (thread_id m) as [c|]; [|discriminate].
  destruct (negb _); [discriminate|].
  destruct (match _ with Some _ => _ | None => true end); discriminate.
Qed.

Lemma commands_only_from_the_log_thread_witness :
  let state := StateManager.mk StateManager.NoFile
                 (Some (StateManager.mkBotState None true (Some 42%Z)
                          (Some "2024-01-01"%string) None None None)) in
  let m := mkMessage false (Some 42%Z) (Some [5%Z]) " list " in
  snd (on_message state 5 m) = Some "list"%string.
Proof.
  intros state m.
  apply (proj1 (commands_only_from_the_log_thread state 5 m "list"
                  (LogSyncService.mk 1900 state false [] None None)
                  (LogSyncService.mkEnv "2024-01-01" None []))).
  repeat split; try reflexivity.
  exists 42%Z. repeat split. discriminate.
Defined.

End DashboardProofs.
